(** * Record-level migration pipeline: shallow embedding and verification

    The development embeds the JavaScript migration scripts
    (UserProfileReport.js with the attendance report that follows it,
    CohortSummaryReport.js, the course migration and the assessment
    migration) as Rocq functions over an
    explicit world (destination tables and console), and proves the
    properties of the record pipeline: the field extractor, the transformers,
    the enrichment resolvers, the writers and the batch runners.

    Conventions of the embedding.
    - A JavaScript string is its sequence of UTF-16 code units ([list N]);
      [lit] turns an ASCII literal into such a string.
    - A JavaScript number is [NaN], an infinity, the negative zero or a finite
      value held as an exact rational.  The scripts never do arithmetic on
      numbers: they test them, pass them on, and build them with [parseInt],
      which rounds the digits it reads to the nearest double.
    - [async] functions run to completion one after the other, so [await]
      is sequencing in a state-and-exception monad; the four lookups that
      getLocationNames starts together share no state and run in order.
    - [console.warn] and [console.error] append to the console of the world;
      the progress lines of [console.log] are left out. *)

From Stdlib Require Import ZArith QArith Strings.String Strings.Ascii List Bool Lia.
From stdpp Require Import base option list strings gmap fin_maps.

Import ListNotations.
Local Open Scope Z_scope.
Local Open Scope list_scope.
Set Warnings "-register-all".

(** ** JavaScript values *)

Definition code_unit := N.
Definition jsstring := list code_unit.

Definition lit (s : string) : jsstring :=
  List.map N_of_ascii (list_ascii_of_string s).

Inductive number :=
| NaN
| Inf (negative : bool)
| NegZero
| Fin (q : Q).

Inductive value :=
| JUndefined
| JNull
| JBool (b : bool)
| JNum (n : number)
| JStr (s : jsstring)
| JArr (elems : list value)
| JObj (props : list (jsstring * value)).

Definition int (z : Z) : value := JNum (Fin (inject_Z z)).
Definition str (s : string) : value := JStr (lit s).

Inductive jstype := TUndefined | TObject | TBoolean | TNumber | TString.

Definition typeof (v : value) : jstype :=
  match v with
  | JUndefined => TUndefined
  | JNull => TObject
  | JBool _ => TBoolean
  | JNum _ => TNumber
  | JStr _ => TString
  | JArr _ => TObject
  | JObj _ => TObject
  end.

Definition jstype_eqb (a b : jstype) : bool :=
  match a, b with
  | TUndefined, TUndefined | TObject, TObject | TBoolean, TBoolean
  | TNumber, TNumber | TString, TString => true
  | _, _ => false
  end.

(** ToBoolean: the values for which [!value] is false. *)
Definition number_truthy (n : number) : bool :=
  match n with
  | NaN => false
  | Inf _ => true
  | NegZero => false
  | Fin q => negb (Qeq_bool q 0)
  end.

Definition ToBoolean (v : value) : bool :=
  match v with
  | JUndefined => false
  | JNull => false
  | JBool b => b
  | JNum n => number_truthy n
  | JStr s => match s with [] => false | _ => true end
  | JArr _ => true
  | JObj _ => true
  end.

(** [a || b] of JavaScript. *)
Definition js_or (a b : value) : value := if ToBoolean a then a else b.

Definition isArray (v : value) : bool :=
  match v with JArr _ => true | _ => false end.

Fixpoint jsstring_eqb (a b : jsstring) : bool :=
  match a, b with
  | [], [] => true
  | x :: a', y :: b' => (x =? y)%N && jsstring_eqb a' b'
  | _, _ => false
  end.

(** Property read [o.k] on a value that is known not to be null or
    undefined: a missing property reads as undefined. *)
Fixpoint lookup_prop (k : jsstring) (ps : list (jsstring * value)) : value :=
  match ps with
  | [] => JUndefined
  | (k', v) :: rest =>
      if jsstring_eqb k k' then v else lookup_prop k rest
  end.

(** ** Strings: code-unit classes, trim, the pattern [/\d+/], parseInt, isNaN *)

Definition is_digit (c : code_unit) : bool := ((48 <=? c) && (c <=? 57))%N.

(** WhiteSpace and LineTerminator of ECMAScript (all in the basic plane). *)
Definition is_white_space (c : code_unit) : bool :=
  ((c =? 9) || (c =? 10) || (c =? 11) || (c =? 12) || (c =? 13) || (c =? 32)
   || (c =? 160) || (c =? 5760) || ((8192 <=? c) && (c <=? 8202))
   || (c =? 8232) || (c =? 8233) || (c =? 8239) || (c =? 8287)
   || (c =? 12288) || (c =? 65279))%N.

Fixpoint drop_while (p : code_unit -> bool) (s : jsstring) : jsstring :=
  match s with
  | [] => []
  | c :: rest => if p c then drop_while p rest else s
  end.

Fixpoint take_while (p : code_unit -> bool) (s : jsstring) : jsstring :=
  match s with
  | [] => []
  | c :: rest => if p c then c :: take_while p rest else []
  end.

Definition trim_start (s : jsstring) : jsstring := drop_while is_white_space s.
Definition trim_end (s : jsstring) : jsstring :=
  rev (drop_while is_white_space (rev s)).

(** String.prototype.trim *)
Definition trim (s : jsstring) : jsstring := trim_end (trim_start s).

(** [value.match(/\d+/)]: null when the string has no digit, otherwise the
    array whose only element is the leftmost maximal digit run. *)
Fixpoint match_digits (s : jsstring) : option (list jsstring) :=
  match s with
  | [] => None
  | c :: rest =>
      if is_digit c then Some [c :: take_while is_digit rest]
      else match_digits rest
  end.

Definition digit_value (c : code_unit) : Z := Z.of_N c - 48.

Definition digits_value (ds : jsstring) : Z :=
  fold_left (fun acc c => 10 * acc + digit_value c) ds 0.

(** The double nearest to the integer [n >= 0], ties to the even
    significand: an integer below 2^53 is a double; a larger one keeps the
    53 leading bits of its binary expansion, rounded on the bits that
    follow.  [None] when the rounded value is 2^1024 or more, which is
    beyond the doubles. *)
Definition nearest_double (n : Z) : option Z :=
  if n <? 2 ^ 53 then Some n
  else
    let e := Z.log2 n - 52 in
    let q := n / 2 ^ e in
    let r := n mod 2 ^ e in
    let half := 2 ^ (e - 1) in
    let q' :=
      if r <? half then q
      else if half <? r then q + 1
      else if Z.even q then q else q + 1 in
    if 2 ^ 1024 <=? q' * 2 ^ e then None else Some (q' * 2 ^ e).

(** The Number value of the integer with magnitude [n] and the sign
    [neg]: the nearest double, an infinity beyond the doubles, and the
    negative zero for -0. *)
Definition number_of_integer (neg : bool) (n : Z) : number :=
  match nearest_double n with
  | None => Inf neg
  | Some m =>
      if neg then (if m =? 0 then NegZero else Fin (inject_Z (- m)))
      else Fin (inject_Z m)
  end.

(** [parseInt(s, 10)]: leading white space is skipped, one sign is read, the
    longest prefix of decimal digits is the integer read, and the result is
    its Number value; no digit gives NaN. *)
Definition parseInt (s : jsstring) : number :=
  let s1 := trim_start s in
  let neg := match s1 with c :: _ => (c =? 45)%N | [] => false end in
  let s2 :=
    match s1 with
    | c :: r => if ((c =? 45) || (c =? 43))%N then r else s1
    | [] => s1
    end in
  match take_while is_digit s2 with
  | [] => NaN
  | ds => number_of_integer neg (digits_value ds)
  end.

Definition is_hex_digit (c : code_unit) : bool :=
  (is_digit c || ((65 <=? c) && (c <=? 70)) || ((97 <=? c) && (c <=? 102)))%N.
Definition is_octal_digit (c : code_unit) : bool := ((48 <=? c) && (c <=? 55))%N.
Definition is_binary_digit (c : code_unit) : bool := ((c =? 48) || (c =? 49))%N.

Definition all_of (p : code_unit -> bool) (s : jsstring) : bool :=
  match s with [] => false | _ => forallb p s end.

(** ExponentPart, optional: nothing, or e/E, an optional sign and digits. *)
Definition exponent_opt (s : jsstring) : bool :=
  match s with
  | [] => true
  | c :: r =>
      if ((c =? 101) || (c =? 69))%N then
        match r with
        | 43%N :: ds | 45%N :: ds => all_of is_digit ds
        | _ => all_of is_digit r
        end
      else false
  end.

(** StrUnsignedDecimalLiteral *)
Definition unsigned_decimal (s : jsstring) : bool :=
  if jsstring_eqb s (lit "Infinity") then true
  else
    let d1 := take_while is_digit s in
    match drop_while is_digit s with
    | 46%N :: r =>
        let d2 := take_while is_digit r in
        match d1, d2 with
        | [], [] => false
        | _, _ => exponent_opt (drop_while is_digit r)
        end
    | r => match d1 with [] => false | _ => exponent_opt r end
    end.

(** StrNumericLiteral: a signed decimal literal, or an unsigned binary,
    octal or hexadecimal integer literal. *)
Definition numeric_literal (s : jsstring) : bool :=
  match s with
  | 48%N :: 120%N :: r | 48%N :: 88%N :: r => all_of is_hex_digit r
  | 48%N :: 111%N :: r | 48%N :: 79%N :: r => all_of is_octal_digit r
  | 48%N :: 98%N :: r | 48%N :: 66%N :: r => all_of is_binary_digit r
  | 43%N :: r | 45%N :: r => unsigned_decimal r
  | _ => unsigned_decimal s
  end.

(** [isNaN(s)] on a string: ToNumber(s) is NaN unless the trimmed string is
    empty (which converts to 0) or a numeric literal. *)
Definition isNaN (s : jsstring) : bool :=
  match trim s with
  | [] => false
  | t => negb (numeric_literal t)
  end.

(** ** Errors, the console and the destination server *)

Inductive error := Error (message : string).

Definition message (e : error) : value :=
  match e with Error m => str m end.

Inductive outcome (A : Type) :=
| Ret (a : A)
| Throw (e : error).
Arguments Ret {A} a.
Arguments Throw {A} e.

Inductive log_level := Warn | Err.

(** One console line: its level, the fixed text of the template and the
    values interpolated into it. *)
Record log_entry := Log { level : log_level; text : string; data : list value }.

(** A statement parameter, and a cell of a destination row: a value handed
    over as it is, or the text [JSON.stringify(doc)], kept as the document
    it serializes. *)
Inductive param :=
| PValue (v : value)
| PJsonText (doc : value).

(** [JSON.stringify(v)] is undefined for undefined and a text otherwise. *)
Definition JSON_stringify (v : value) : param :=
  match v with
  | JUndefined => PValue JUndefined
  | _ => PJsonText v
  end.

(** The driver sends undefined and null alike as SQL NULL. *)
Definition prepareValue (p : param) : param :=
  match p with
  | PValue JUndefined => PValue JNull
  | _ => p
  end.

Definition is_null (p : param) : bool :=
  match p with
  | PValue JNull | PValue JUndefined => true
  | _ => false
  end.

Definition number_eqb (a b : number) : bool :=
  match a, b with
  | NaN, NaN => true
  | Inf x, Inf y => Bool.eqb x y
  | NegZero, NegZero => true
  | NegZero, Fin q | Fin q, NegZero => Qeq_bool q 0
  | Fin p, Fin q => Qeq_bool p q
  | _, _ => false
  end.

Fixpoint value_eqb (a b : value) {struct a} : bool :=
  match a, b with
  | JUndefined, JUndefined => true
  | JNull, JNull => true
  | JBool x, JBool y => Bool.eqb x y
  | JNum x, JNum y => number_eqb x y
  | JStr x, JStr y => jsstring_eqb x y
  | JArr xs, JArr ys =>
      (fix go (xs ys : list value) {struct xs} : bool :=
         match xs, ys with
         | [], [] => true
         | x :: xs', y :: ys' => value_eqb x y && go xs' ys'
         | _, _ => false
         end) xs ys
  | JObj ps, JObj qs =>
      (fix go (ps qs : list (jsstring * value)) {struct ps} : bool :=
         match ps, qs with
         | [], [] => true
         | (k, x) :: ps', (k', y) :: qs' =>
             jsstring_eqb k k' && value_eqb x y && go ps' qs'
         | _, _ => false
         end) ps qs
  | _, _ => false
  end.

Definition param_eqb (a b : param) : bool :=
  match a, b with
  | PValue x, PValue y => value_eqb x y
  | PJsonText x, PJsonText y => value_eqb x y
  | _, _ => false
  end.

(** The SQL comparison [column = $n]: never true when a side is NULL. *)
Definition sql_eq (a b : param) : bool :=
  negb (is_null a) && negb (is_null b) && param_eqb a b.

(** A destination row maps the column names of its table to cells. *)
Definition row := list (string * param).

Fixpoint cell (r : row) (c : string) : param :=
  match r with
  | [] => PValue JNull
  | (c', p) :: rest => if String.eqb c c' then p else cell rest c
  end.

Definition set_cell (c : string) (p : param) (r : row) : row :=
  List.map (fun cp => if String.eqb c (fst cp) then (fst cp, p) else cp) r.

(** A destination table: the column carrying its primary-key or unique
    constraint, when it has one, and its rows. *)
Record table := Table { unique_key : option string; rows : list row }.

(** The right-hand sides of [DO UPDATE SET]: a statement parameter [$n]
    or the proposed row's column [EXCLUDED."c"]. *)
Inductive sql_expr :=
| Dollar (n : nat)
| Excluded (c : string).

(** The four statement shapes the scripts send to the destination. *)
Inductive statement :=
| CreateTableIfNotExists (t : string) (pk : string)
| InsertOnConflictUpdate (t : string) (cols : list string) (key : string)
    (assignments : list (string * sql_expr))
| Insert (t : string) (cols : list string)
| DeleteWhereEq (t : string) (col : string).

Record world := World {
  console : list log_entry;
  tables : gmap string table
}.

(** ** The monad of the scripts: state and exceptions *)

Definition M (A : Type) : Type := world -> outcome A * world.

Definition ret {A} (a : A) : M A := fun w => (Ret a, w).
Definition throw {A} (e : error) : M A := fun w => (Throw e, w).
Definition bind {A B} (m : M A) (k : A -> M B) : M B :=
  fun w =>
    match m w with
    | (Ret a, w') => k a w'
    | (Throw e, w') => (Throw e, w')
    end.

Notation "'do' x <- m ; k" := (bind m (fun x => k))
  (at level 10, x name, m at level 100, k at level 200, only parsing).
Notation "m ;; k" := (bind m (fun _ => k))
  (at level 100, k at level 200, right associativity, only parsing).

(** [try { body } catch (error) { handler }] *)
Definition try_catch {A} (body : M A) (handler : error -> M A) : M A :=
  fun w =>
    match body w with
    | (Ret a, w') => (Ret a, w')
    | (Throw e, w') => handler e w'
    end.

(** [try { body } finally { cleanup }] *)
Definition try_finally {A} (body : M A) (cleanup : M unit) : M A :=
  fun w =>
    match body w with
    | (r, w') =>
        match cleanup w' with
        | (Ret _, w'') => (r, w'')
        | (Throw e, w'') => (Throw e, w'')
        end
    end.

(** [for (const x of xs) { body }] *)
Fixpoint for_of {A} (xs : list A) (body : A -> M unit) : M unit :=
  match xs with
  | [] => ret tt
  | x :: rest => body x ;; for_of rest body
  end.

Definition lift {A} (r : outcome A) : M A := fun w => (r, w).

Definition console_log (l : log_level) (t : string) (d : list value) : M unit :=
  fun w => (Ret tt, World (console w ++ [Log l t d]) (tables w)).
Definition console_warn := console_log Warn.
Definition console_error := console_log Err.

(** ** The clients *)

(** The source client is only read: [query text params] answers with the
    rows of the result or raises. *)
Record Client := {
  connect : outcome unit;
  query : string -> list value -> outcome (list value)
}.

(** The destination client runs statements on the tables of the world;
    [fault] is what the server or the connection refuses (a value the column
    type rejects, a lost connection). *)
Record DestClient := {
  dest_connect : outcome unit;
  fault : statement -> list param -> option error
}.

(** The HTTP client: a response object, or an exception for a network
    failure and for a status outside 2xx.  The request is determined by
    the identifier placed in its path ([get]) or in its filter ([post]). *)
Record Axios := {
  get : value -> outcome value;
  post : value -> outcome value
}.

Definition eval_expr (values : list param) (proposed : row) (e : sql_expr) : param :=
  match e with
  | Dollar n => nth (pred n) values (PValue JNull)
  | Excluded c => cell proposed c
  end.

Definition update_row (values : list param) (proposed : row)
    (assignments : list (string * sql_expr)) (existing : row) : row :=
  fold_left (fun r a => set_cell (fst a) (eval_expr values proposed (snd a)) r)
    assignments existing.

Definition conflicts (key : string) (proposed r : row) : bool :=
  sql_eq (cell r key) (cell proposed key).

Definition exec (st : statement) (values : list param) (db : gmap string table)
    : outcome (gmap string table) :=
  match st with
  | CreateTableIfNotExists t pk =>
      match db !! t with
      | Some _ => Ret db
      | None => Ret (<[t := Table (Some pk) []]> db)
      end
  | InsertOnConflictUpdate t cols key assignments =>
      match db !! t with
      | None => Throw (Error "relation does not exist")
      | Some tb =>
          if negb (bool_decide (unique_key tb = Some key)) then
            Throw (Error "there is no unique or exclusion constraint matching the ON CONFLICT specification")
          else
            let proposed := combine cols values in
            if is_null (cell proposed key) then
              Throw (Error "null value violates not-null constraint")
            else if existsb (conflicts key proposed) (rows tb) then
              Ret (<[t := Table (unique_key tb)
                     (List.map (fun r => if conflicts key proposed r
                                         then update_row values proposed assignments r
                                         else r) (rows tb))]> db)
            else Ret (<[t := Table (unique_key tb) (rows tb ++ [proposed])]> db)
      end
  | Insert t cols =>
      match db !! t with
      | None => Throw (Error "relation does not exist")
      | Some tb =>
          let proposed := combine cols values in
          match unique_key tb with
          | Some key =>
              if is_null (cell proposed key) then
                Throw (Error "null value violates not-null constraint")
              else if existsb (conflicts key proposed) (rows tb) then
                Throw (Error "duplicate key value violates unique constraint")
              else Ret (<[t := Table (unique_key tb) (rows tb ++ [proposed])]> db)
          | None => Ret (<[t := Table None (rows tb ++ [proposed])]> db)
          end
      end
  | DeleteWhereEq t col =>
      match db !! t with
      | None => Throw (Error "relation does not exist")
      | Some tb =>
          let v := nth 0 values (PValue JNull) in
          Ret (<[t := Table (unique_key tb)
                 (List.filter (fun r => negb (sql_eq (cell r col) v)) (rows tb))]> db)
      end
  end.

(** [await destClient.query(statement, values)] *)
Definition dest_query (destClient : DestClient) (st : statement)
    (values : list param) : M unit :=
  fun w =>
    match fault destClient st values with
    | Some e => (Throw e, w)
    | None =>
        match exec st (List.map prepareValue values) (tables w) with
        | Ret db => (Ret tt, World (console w) db)
        | Throw e => (Throw e, w)
        end
    end.

(** [await sourceClient.query(text, params)] *)
Definition source_query (client : Client) (text : string) (params : list value)
    : M (list value) :=
  lift (query client text params).

(** A log line is written as its fixed text and the interpolated values. *)
Definition template : Type := string * list value.

Definition warn (t : template) (more : list value) : M unit :=
  console_warn (fst t) (snd t ++ more).

(** An object is the list of its own properties in the order in which
    JSON.stringify and Object.keys list them: the names that are array
    indices (the canonical decimal numerals below 2^32 - 1) in ascending
    order, then the other names in the order of their creation. *)
Definition array_index (k : jsstring) : option Z :=
  match k with
  | [] => None
  | c :: rest =>
      if forallb is_digit k
         && (negb (c =? 48)%N || match rest with [] => true | _ :: _ => false end)
      then (if digits_value k <? 2 ^ 32 - 1 then Some (digits_value k) else None)
      else None
  end.

Definition has_prop (k : jsstring) (ps : list (jsstring * value)) : bool :=
  existsb (fun p => jsstring_eqb k (fst p)) ps.

Definition replace_prop (k : jsstring) (v : value) (ps : list (jsstring * value))
    : list (jsstring * value) :=
  List.map (fun p => if jsstring_eqb k (fst p) then (fst p, v) else p) ps.

Fixpoint insert_index (n : Z) (k : jsstring) (v : value) (ps : list (jsstring * value))
    : list (jsstring * value) :=
  match ps with
  | [] => [(k, v)]
  | (k', v') :: rest =>
      match array_index k' with
      | Some n' =>
          if n' <? n then (k', v') :: insert_index n k v rest else (k, v) :: ps
      | None => (k, v) :: ps
      end
  end.

(** [obj[k] = v] with an object [v], on an object built from the literal
    [{}] by such assignments.  The name __proto__ reaches the accessor of
    Object.prototype: the assignment changes the prototype and adds no own
    property.  Under any other name an own property keeps its place and
    takes the value, and a new property takes its place in the order of
    the keys. *)
Definition set_prop (k : jsstring) (v : value) (ps : list (jsstring * value))
    : list (jsstring * value) :=
  if jsstring_eqb k (lit "__proto__") then ps
  else if has_prop k ps then replace_prop k v ps
  else
    match array_index k with
    | Some n => insert_index n k v ps
    | None => ps ++ [(k, v)]
    end.

(** The key [row.name] names in [customFields[row.name]]: the name column
    is text, so the value is a string, or null for a field without a name. *)
Definition property_key (v : value) : jsstring :=
  match v with
  | JStr s => s
  | JUndefined => lit "undefined"
  | _ => lit "null"
  end.

(** [a === b] against a string literal. *)
Definition strict_eq_string (a : value) (b : string) : bool :=
  match a with
  | JStr s => jsstring_eqb s (lit b)
  | _ => false
  end.

(** [v.trim()]: a TypeError unless [v] is a string. *)
Definition trim_method (v : value) : M value :=
  match v with
  | JStr s => ret (JStr (trim s))
  | _ => throw (Error "TypeError: trim is not a function")
  end.

(** Property reads.  [member v k] is [v.k]: a TypeError on null and
    undefined, the property of an object, and undefined on the other
    values (none of the names read here is a property of a string, a
    number, a boolean or an array). *)
Definition member (v : value) (k : string) : M value :=
  match v with
  | JUndefined | JNull => throw (Error "TypeError: Cannot read properties")
  | JObj ps => ret (lookup_prop (lit k) ps)
  | _ => ret JUndefined
  end.

(** [v[0]] *)
Definition first (v : value) : M value :=
  match v with
  | JUndefined | JNull => throw (Error "TypeError: Cannot read properties")
  | JArr xs => ret (nth 0 xs JUndefined)
  | JStr (c :: _) => ret (JStr [c])
  | JObj ps => ret (lookup_prop (lit "0") ps)
  | _ => ret JUndefined
  end.

(** [v?.k] and [v?.[0]]: undefined on null and undefined, never an error. *)
Definition opt_member (v : value) (k : string) : value :=
  match v with
  | JObj ps => lookup_prop (lit k) ps
  | _ => JUndefined
  end.

Definition opt_first (v : value) : value :=
  match v with
  | JArr xs => nth 0 xs JUndefined
  | JStr (c :: _) => JStr [c]
  | JObj ps => lookup_prop (lit "0") ps
  | _ => JUndefined
  end.

(** [row.k] on a row of a query result, which is always an object. *)
Definition field (r : value) (k : string) : value := opt_member r k.

(** ** Field extractor (UserProfileReport.js, extractIdFromValue) *)

Definition array_branch (v : value) : option value :=
  match v with
  | JArr (firstValue :: _) =>
      match firstValue with
      | JNum _ => Some firstValue
      | JStr s => if negb (isNaN s) then Some (JNum (parseInt s)) else None
      | _ => None
      end
  | _ => None
  end.

Definition string_branch (v : value) : option value :=
  match v with
  | JStr s =>
      match match_digits s with
      | Some (m :: _) => Some (JNum (parseInt m))
      | _ => if negb (isNaN s) then Some (JNum (parseInt s)) else None
      end
  | _ => None
  end.

Definition extractIdFromValue (v : value) : M value :=
  if negb (ToBoolean v) then ret JNull
  else if jstype_eqb (typeof v) TNumber then ret v
  else
    match array_branch v with
    | Some id => ret id
    | None =>
        match string_branch v with
        | Some id => ret id
        | None =>
            console_warn "[USER REPORT] Could not extract ID from value: " [v] ;;
            ret JNull
        end
    end.

(** ** UserProfileReport.js *)

Module UserProfileReport.

(** The empty string. *)
Definition empty : jsstring := [].

(** The select list of [usersQuery] computes fullName on the server:
    [CONCAT(COALESCE(first, ''), ' ', COALESCE(middle, ''), ' ', COALESCE(last, ''))].
    The name columns are text: a string, or NULL. *)
Definition COALESCE (v : value) (otherwise : jsstring) : jsstring :=
  match v with
  | JStr s => s
  | _ => otherwise
  end.

Definition CONCAT (parts : list jsstring) : jsstring := List.concat parts.

Definition usersQuery_fullName (firstName middleName lastName : value) : value :=
  JStr (CONCAT [COALESCE firstName empty; lit " ";
                COALESCE middleName empty; lit " ";
                COALESCE lastName empty]).

(** The row [usersQuery] returns for one row of the Users table. *)
Definition usersQuery_row (u : value) : value :=
  JObj [(lit "userId", field u "userId");
        (lit "username", field u "username");
        (lit "fullName",
          usersQuery_fullName (field u "firstName") (field u "middleName")
            (field u "lastName"));
        (lit "email", field u "email");
        (lit "mobile", field u "mobile");
        (lit "dob", field u "dob");
        (lit "gender", field u "gender");
        (lit "status", field u "status");
        (lit "createdAt", field u "createdAt");
        (lit "updatedAt", field u "updatedAt");
        (lit "createdBy", field u "createdBy");
        (lit "updatedBy", field u "updatedBy")].

Definition usersQuery : string := "SELECT ... fullName ... FROM public.Users u".

Definition connectToDBs (sourceClient : Client) (destClient : DestClient) : M unit :=
  lift (connect sourceClient) ;;
  lift (dest_connect destClient).

(** Closing a connection does not fail and touches neither the tables nor
    the console. *)
Definition closeDBs (sourceClient : Client) (destClient : DestClient) : M unit :=
  ret tt.

Definition UserProfileReport_columns : list string :=
  ["userId"; "username"; "fullName"; "email"; "mobile"; "dob"; "gender";
   "tenantId"; "tenantName"; "status"; "createdAt"; "updatedAt";
   "createdBy"; "updatedBy"; "roleId"; "roleName"; "customFields"; "cohorts";
   "automaticMember"; "state"; "district"; "block"; "village"]%string.

Definition createUserProfileReportTable (client : DestClient) : M unit :=
  dest_query client (CreateTableIfNotExists "UserProfileReport" "userId") [].

Definition safeQuery (client : Client) (text : string) (params : list value)
    (defaultValue : list value) (errorMessage : template) : M (list value) :=
  try_catch (source_query client text params)
    (fun error => warn errorMessage [message error] ;; ret defaultValue).

Definition getCustomFields (client : Client) (userId : value) : M value :=
  do rows <- safeQuery client "SELECT fieldId, name, type, value FROM FieldValues JOIN Fields WHERE itemId = $1"
               [userId] [] ("Error fetching custom fields for user"%string, [userId]);
  let customFields :=
    fold_left
      (fun customFields row =>
         set_prop (property_key (field row "name"))
           (JObj [(lit "type", field row "type"); (lit "value", field row "value")])
           customFields)
      rows [] in
  ret (JObj customFields).

Record LocationIds := {
  stateId : value; districtId : value; blockId : value; villageId : value
}.

Definition STATE : string := "6469c3ac-8c46-49d7-852a-00f9589737c5".
Definition DISTRICT : string := "b61edfc6-3787-4079-86d3-37262bf23a9e".
Definition BLOCK : string := "4aab68ae-8382-43aa-a45a-e9b239319857".
Definition VILLAGE : string := "8e9bb321-ff99-4e2e-9269-61e863dd0c54".

Definition getUserLocationIds (client : Client) (userId : value) : M LocationIds :=
  let fieldIds := JArr [str STATE; str DISTRICT; str BLOCK; str VILLAGE] in
  do rows <- safeQuery client "SELECT fieldId, value FROM FieldValues WHERE itemId = $1 AND fieldId = ANY($2)"
               [userId; fieldIds] []
               ("Error fetching location field values for user"%string, [userId]);
  ret (fold_left
         (fun locations row =>
            if strict_eq_string (field row "fieldId") STATE then
              {| stateId := field row "value"; districtId := districtId locations;
                 blockId := blockId locations; villageId := villageId locations |}
            else if strict_eq_string (field row "fieldId") DISTRICT then
              {| stateId := stateId locations; districtId := field row "value";
                 blockId := blockId locations; villageId := villageId locations |}
            else if strict_eq_string (field row "fieldId") BLOCK then
              {| stateId := stateId locations; districtId := districtId locations;
                 blockId := field row "value"; villageId := villageId locations |}
            else if strict_eq_string (field row "fieldId") VILLAGE then
              {| stateId := stateId locations; districtId := districtId locations;
                 blockId := blockId locations; villageId := field row "value" |}
            else locations)
         rows
         {| stateId := JNull; districtId := JNull; blockId := JNull; villageId := JNull |}).

Definition getLocationName (client : Client) (id : value)
    (tableName idColumn nameColumn : string) : M value :=
  if negb (ToBoolean id) then ret JNull
  else
    do idValue <- extractIdFromValue id;
    if negb (ToBoolean idValue) then ret JNull
    else
      let text := ("SELECT " ++ nameColumn ++ " FROM public." ++ tableName
                   ++ " WHERE " ++ idColumn ++ " = $1")%string in
      try_catch
        (do rows <- source_query client text [idValue];
         ret (match rows with
              | row :: _ => field row nameColumn
              | [] => JNull
              end))
        (fun e =>
           console_warn "[USER REPORT] Error querying table" [str tableName; message e] ;;
           ret JNull).

Record LocationNames := {
  stateName : value; districtName : value; blockName : value; villageName : value
}.

Definition getLocationNames (client : Client) (locationIds : LocationIds)
    : M LocationNames :=
  do state <- getLocationName client (stateId locationIds) "state" "state_id" "state_name";
  do district <- getLocationName client (districtId locationIds) "district" "district_id" "district_name";
  do block <- getLocationName client (blockId locationIds) "block" "block_id" "block_name";
  do village <- getLocationName client (villageId locationIds) "village" "village_id" "village_name";
  ret {| stateName := state; districtName := district;
         blockName := block; villageName := village |}.

Definition getUserCohorts (client : Client) (userId : value) : M (list value) :=
  do rows <- safeQuery client "SELECT ... FROM CohortMembers cm JOIN Cohort c WHERE cm.userId = $1"
               [userId] [] ("Error fetching cohorts for user"%string, [userId]);
  ret (List.map
         (fun row =>
            JObj [(lit "cohortId", field row "cohortId");
                  (lit "cohortName", field row "cohortName");
                  (lit "cohortType", field row "cohortType");
                  (lit "tenantId", field row "tenantId");
                  (lit "cohortMemberStatus", field row "cohortMemberStatus");
                  (lit "cohortStatus", field row "cohortStatus");
                  (lit "joinedAt", field row "joinedAt")])
         rows).

Record TenantAndRole := {
  tr_tenantId : value; tr_tenantName : value; tr_roleId : value;
  tr_roleName : value; tr_roleCode : value
}.

Definition getUserTenantAndRole (client : Client) (userId : value) : M TenantAndRole :=
  do rows <- safeQuery client "SELECT ... FROM UserTenantMapping utm LEFT JOIN ... WHERE utm.userId = $1 LIMIT 1"
               [userId] [] ("Error fetching tenant and role for user"%string, [userId]);
  ret (match rows with
       | row :: _ =>
           {| tr_tenantId := field row "tenantId"; tr_tenantName := field row "tenantName";
              tr_roleId := field row "roleId"; tr_roleName := field row "roleName";
              tr_roleCode := field row "roleCode" |}
       | [] =>
           {| tr_tenantId := JNull; tr_tenantName := JNull; tr_roleId := JNull;
              tr_roleName := JNull; tr_roleCode := JNull |}
       end).

Definition determineAutomaticMembership (cohorts : list value) : bool :=
  match cohorts with
  | [] => false
  | _ => existsb (fun cohort => strict_eq_string (field cohort "cohortType") "automatic") cohorts
  end.

Record UserData := {
  userId : value; username : value; fullName : value; email : value;
  mobile : value; dob : value; gender : value; tenantId : value;
  tenantName : value; status : value; createdAt : value; updatedAt : value;
  createdBy : value; updatedBy : value; roleName : value; roleId : value;
  customFields : value; cohorts : value; automaticMember : value;
  state : value; district : value; block : value; village : value
}.

(** The statement and the [values] array of insertOrUpdateUserProfileReport. *)
Definition UserProfileReport_upsert : statement :=
  InsertOnConflictUpdate "UserProfileReport" UserProfileReport_columns "userId"
    [("username", Dollar 2); ("fullName", Dollar 3); ("email", Dollar 4);
     ("mobile", Dollar 5); ("dob", Dollar 6); ("gender", Dollar 7);
     ("tenantId", Dollar 8); ("tenantName", Dollar 9); ("status", Dollar 10);
     ("updatedAt", Dollar 12); ("updatedBy", Dollar 14); ("roleId", Dollar 15);
     ("roleName", Dollar 16); ("customFields", Dollar 17); ("cohorts", Dollar 18);
     ("automaticMember", Dollar 19); ("state", Dollar 20); ("district", Dollar 21);
     ("block", Dollar 22); ("village", Dollar 23)]%string.

Definition UserProfileReport_values (userData : UserData) : list param :=
  [PValue (userId userData);
   PValue (username userData);
   PValue (fullName userData);
   PValue (email userData);
   PValue (mobile userData);
   PValue (dob userData);
   PValue (gender userData);
   PValue (tenantId userData);
   PValue (tenantName userData);
   PValue (status userData);
   PValue (createdAt userData);
   PValue (updatedAt userData);
   PValue (createdBy userData);
   PValue (updatedBy userData);
   PValue (roleId userData);
   PValue (roleName userData);
   JSON_stringify (customFields userData);
   JSON_stringify (cohorts userData);
   PValue (automaticMember userData);
   PValue (state userData);
   PValue (district userData);
   PValue (block userData);
   PValue (village userData)].

Definition insertOrUpdateUserProfileReport (client : DestClient) (userData : UserData)
    : M unit :=
  dest_query client UserProfileReport_upsert (UserProfileReport_values userData).

Definition processUser (sourceClient : Client) (destClient : DestClient) (user : value)
    : M unit :=
  do customFields <- getCustomFields sourceClient (field user "userId");
  do locationIds <- getUserLocationIds sourceClient (field user "userId");
  do locationNames <- getLocationNames sourceClient locationIds;
  do cohorts <- getUserCohorts sourceClient (field user "userId");
  do tenantAndRole <- getUserTenantAndRole sourceClient (field user "userId");
  let automaticMember := determineAutomaticMembership cohorts in
  do fullName <- trim_method (field user "fullName");
  insertOrUpdateUserProfileReport destClient
    {| userId := field user "userId";
       username := field user "username";
       fullName := fullName;
       email := js_or (field user "email") JNull;
       mobile := js_or (field user "mobile") JNull;
       dob := js_or (field user "dob") JNull;
       gender := js_or (field user "gender") JNull;
       tenantId := tr_tenantId tenantAndRole;
       tenantName := tr_tenantName tenantAndRole;
       status := field user "status";
       createdAt := field user "createdAt";
       updatedAt := field user "updatedAt";
       createdBy := field user "createdBy";
       updatedBy := field user "updatedBy";
       roleName := tr_roleName tenantAndRole;
       roleId := tr_roleId tenantAndRole;
       customFields := customFields;
       cohorts := JArr cohorts;
       automaticMember := if automaticMember then int 1 else int 0;
       state := stateName locationNames;
       district := districtName locationNames;
       block := blockName locationNames;
       village := villageName locationNames |}.

Definition migrateUserProfileReports (sourceClient : Client) (destClient : DestClient)
    : M unit :=
  try_finally
    (try_catch
       (connectToDBs sourceClient destClient ;;
        createUserProfileReportTable destClient ;;
        do usersResult <- source_query sourceClient usersQuery [];
        for_of usersResult (fun user => processUser sourceClient destClient user))
       (fun error =>
          console_error "[USER REPORT] Error during migration:" [message error]))
    (closeDBs sourceClient destClient).

End UserProfileReport.

(** ** CohortSummaryReport.js

    The script takes getCustomFields, safeQuery and extractIdFromValue from
    UserProfileReport.js and has its own copies of the location lookups. *)

Module CohortSummaryReport.

Import UserProfileReport.

Definition connectToDBs (sourceClient : Client) (destClient : DestClient) : M unit :=
  lift (connect sourceClient) ;;
  lift (dest_connect destClient).

Definition closeDBs (sourceClient : Client) (destClient : DestClient) : M unit :=
  ret tt.

Definition createCohortSummaryReportTable (client : DestClient) : M unit :=
  dest_query client (CreateTableIfNotExists "CohortSummaryReport" "cohortId") [].

Definition getCohortLocationIds (client : Client) (cohortId : value) : M LocationIds :=
  let fieldIds := JArr [str STATE; str DISTRICT; str BLOCK; str VILLAGE] in
  do rows <- safeQuery client "SELECT fieldId, value FROM FieldValues WHERE itemId = $1 AND fieldId = ANY($2)"
               [cohortId; fieldIds] []
               ("Error fetching location field values for cohort"%string, [cohortId]);
  ret (fold_left
         (fun locations row =>
            if strict_eq_string (field row "fieldId") STATE then
              {| stateId := field row "value"; districtId := districtId locations;
                 blockId := blockId locations; villageId := villageId locations |}
            else if strict_eq_string (field row "fieldId") DISTRICT then
              {| stateId := stateId locations; districtId := field row "value";
                 blockId := blockId locations; villageId := villageId locations |}
            else if strict_eq_string (field row "fieldId") BLOCK then
              {| stateId := stateId locations; districtId := districtId locations;
                 blockId := field row "value"; villageId := villageId locations |}
            else if strict_eq_string (field row "fieldId") VILLAGE then
              {| stateId := stateId locations; districtId := districtId locations;
                 blockId := blockId locations; villageId := field row "value" |}
            else locations)
         rows
         {| stateId := JNull; districtId := JNull; blockId := JNull; villageId := JNull |}).

Definition getLocationName (client : Client) (id : value)
    (tableName idColumn nameColumn : string) : M value :=
  if negb (ToBoolean id) then ret JNull
  else
    do idValue <- extractIdFromValue id;
    if negb (ToBoolean idValue) then ret JNull
    else
      let text := ("SELECT " ++ nameColumn ++ " FROM public." ++ tableName
                   ++ " WHERE " ++ idColumn ++ " = $1")%string in
      try_catch
        (do rows <- source_query client text [idValue];
         ret (match rows with
              | row :: _ => field row nameColumn
              | [] => JNull
              end))
        (fun e =>
           console_warn "Error querying table" [str tableName; message e] ;;
           ret JNull).

Definition getLocationNames (client : Client) (locationIds : LocationIds)
    : M LocationNames :=
  do state <- getLocationName client (stateId locationIds) "state" "state_id" "state_name";
  do district <- getLocationName client (districtId locationIds) "district" "district_id" "district_name";
  do block <- getLocationName client (blockId locationIds) "block" "block_id" "block_name";
  do village <- getLocationName client (villageId locationIds) "village" "village_id" "village_name";
  ret {| stateName := state; districtName := district;
         blockName := block; villageName := village |}.

Definition CohortSummaryReport_columns : list string :=
  ["cohortId"; "name"; "type"; "tenantId"; "tenantName"; "academicYear";
   "memberCount"; "customFields"; "createdAt"; "updatedAt"; "state";
   "district"; "block"; "village"]%string.

Definition CohortSummaryReport_upsert : statement :=
  InsertOnConflictUpdate "CohortSummaryReport" CohortSummaryReport_columns "cohortId"
    [("name", Excluded "name"); ("type", Excluded "type");
     ("tenantId", Excluded "tenantId"); ("tenantName", Excluded "tenantName");
     ("academicYear", Excluded "academicYear"); ("memberCount", Excluded "memberCount");
     ("customFields", Excluded "customFields"); ("updatedAt", Excluded "updatedAt");
     ("state", Excluded "state"); ("district", Excluded "district");
     ("block", Excluded "block"); ("village", Excluded "village")]%string.

Definition processCohort (sourceClient : Client) (destClient : DestClient)
    (cohort : value) : M unit :=
  try_catch
    (do customFields <- getCustomFields sourceClient (field cohort "cohortId");
     do locationIds <- getCohortLocationIds sourceClient (field cohort "cohortId");
     do locationNames <- getLocationNames sourceClient locationIds;
     dest_query destClient CohortSummaryReport_upsert
       [PValue (field cohort "cohortId");
        PValue (field cohort "name");
        PValue (field cohort "type");
        PValue (field cohort "tenantId");
        PValue (field cohort "tenantName");
        PValue (field cohort "academicYear");
        PValue (field cohort "memberCount");
        JSON_stringify customFields;
        PValue (field cohort "createdAt");
        PValue (field cohort "updatedAt");
        PValue (stateName locationNames);
        PValue (districtName locationNames);
        PValue (blockName locationNames);
        PValue (villageName locationNames)])
    (fun error =>
       console_error "[COHORT REPORT] Error processing cohort"
         [field cohort "cohortId"; message error]).

Definition migrateCohortSummaryReports (sourceClient : Client) (destClient : DestClient)
    : M unit :=
  try_finally
    (try_catch
       (connectToDBs sourceClient destClient ;;
        createCohortSummaryReportTable destClient ;;
        do cohortsResult <- source_query sourceClient "SELECT ... FROM public.Cohort c LEFT JOIN ... GROUP BY ..." [];
        for_of cohortsResult (fun cohort => processCohort sourceClient destClient cohort))
       (fun error =>
          console_error "[COHORT REPORT] Error during cohort migration:" [message error]))
    (closeDBs sourceClient destClient).

End CohortSummaryReport.

(** ** AttendanceReport.js (the second script of UserProfileReport.js) *)

Module AttendanceReport.

Definition connectToDBs (sourceClient : Client) (destClient : DestClient) : M unit :=
  lift (connect sourceClient) ;;
  lift (dest_connect destClient).

(** Closing a connection does not fail and touches neither the tables nor
    the console. *)
Definition closeDBs (sourceClient : Client) (destClient : DestClient) : M unit :=
  ret tt.

Definition createDailyAttendanceReportTable (client : DestClient) : M unit :=
  dest_query client (CreateTableIfNotExists "DailyAttendanceReport" "attendanceId") [].

Definition DailyAttendanceReport_columns : list string :=
  ["attendanceId"; "userId"; "cohortId"; "context"; "date"; "status";
   "metadata"; "createdAt"; "updatedAt"; "createdBy"; "updatedBy"]%string.

Definition DailyAttendanceReport_upsert : statement :=
  InsertOnConflictUpdate "DailyAttendanceReport" DailyAttendanceReport_columns
    "attendanceId"
    [("userId", Excluded "userId"); ("cohortId", Excluded "cohortId");
     ("context", Excluded "context"); ("date", Excluded "date");
     ("status", Excluded "status"); ("metadata", Excluded "metadata");
     ("updatedAt", Excluded "updatedAt"); ("updatedBy", Excluded "updatedBy")]%string.

Definition DailyAttendanceReport_values (attendance : value) : list param :=
  let metadata := field attendance "metaData" in
  [PValue (field attendance "attendanceId");
   PValue (field attendance "userId");
   PValue (field attendance "contextId");
   PValue (field attendance "context");
   PValue (field attendance "attendanceDate");
   PValue (field attendance "attendance");
   PValue metadata;
   PValue (field attendance "createdAt");
   PValue (field attendance "updatedAt");
   PValue (field attendance "createdBy");
   PValue (field attendance "updatedBy")].

Definition processAttendance (sourceClient : Client) (destClient : DestClient)
    (attendance : value) : M unit :=
  try_catch
    (dest_query destClient DailyAttendanceReport_upsert
       (DailyAttendanceReport_values attendance))
    (fun error =>
       console_error "[ATTENDANCE REPORT] Error processing attendance record"
         [field attendance "attendanceId"; message error]).

Definition migrateAttendanceReports (sourceClient : Client) (destClient : DestClient)
    : M unit :=
  try_finally
    (try_catch
       (connectToDBs sourceClient destClient ;;
        createDailyAttendanceReportTable destClient ;;
        do attendanceResult <- source_query sourceClient "SELECT ... FROM public.Attendance a" [];
        for_of attendanceResult
          (fun attendance => processAttendance sourceClient destClient attendance))
       (fun error =>
          console_error "[ATTENDANCE REPORT] Error during attendance migration:"
            [message error]))
    (closeDBs sourceClient destClient).

End AttendanceReport.

(** ** The course migration *)

Module Course.

Definition fetchCourseData (axios : Axios) (courseId : value) : M value :=
  if negb (ToBoolean courseId) then ret (JObj [])
  else
    do returned <-
      try_catch
        (do response <- lift (get axios courseId);
         do data <- member response "data";
         do result <- member data "result";
         if ToBoolean result then
           do content <- member result "content";
           if ToBoolean content then ret (Some content) else ret None
         else ret None)
        (fun error =>
           console_error "[API ERROR] Could not fetch course data for courseId"
             [courseId; message error] ;;
           ret None);
    match returned with
    | Some content => ret content
    | None => ret (JObj [])
    end.

Record CourseEntity := {
  courseDoId : value; courseName : value; channel : value; language : value;
  program : value; primaryUser : value; targetAgeGroup : value;
  keywords : value; details : value
}.

Definition mapContentToCourseEntity (content : value) : M CourseEntity :=
  do identifier <- member content "identifier";
  do name <- member content "name";
  do channel <- member content "channel";
  do language <- member content "language";
  do program <- member content "program";
  do primaryUser <- member content "primaryUser";
  do targetAgeGroup <- member content "targetAgeGroup";
  do keywords <- member content "keywords";
  ret {| courseDoId := identifier;
         courseName := name;
         channel := channel;
         language := js_or language (JArr []);
         program := js_or program (JArr []);
         primaryUser := js_or primaryUser (JArr []);
         targetAgeGroup := js_or targetAgeGroup (JArr []);
         keywords := js_or keywords (JArr []);
         details := content |}.

Definition user_course_certificate_columns : list string :=
  ["usercertificateId"; "userId"; "courseId"; "certificateId"; "tenantId";
   "status"; "issuedOn"; "createdOn"; "updatedOn"; "completedOn";
   "completionPercentage"; "progress"; "lastReadContentId";
   "lastReadContentStatus"; "createdBy"]%string.

Definition migrateUserCourseDataTable (sourceClient : Client) (destClient : DestClient)
    : M unit :=
  do userCourseDataResult <-
    source_query sourceClient "SELECT * FROM public.user_course_certificate" [];
  for_of userCourseDataResult
    (fun userCourseData =>
       dest_query destClient (DeleteWhereEq "user_course_certificate" "usercertificateId")
         [PValue (field userCourseData "usercertificateId")] ;;
       let values :=
         List.map (fun c => PValue (field userCourseData c))
           user_course_certificate_columns in
       dest_query destClient
         (Insert "user_course_certificate" user_course_certificate_columns) values).

Definition course_columns : list string :=
  ["course_do_id"; "course_name"; "channel"; "language"; "program";
   "primary_user"; "target_age_group"; "keywords"; "details"]%string.

(** [x ? JSON.stringify(x) : null] *)
Definition stringify_or_null (x : value) : param :=
  if ToBoolean x then JSON_stringify x else PValue JNull.

Definition migrateCourseTable (axios : Axios) (sourceClient : Client)
    (destClient : DestClient) : M unit :=
  do courseResult <-
    source_query sourceClient "SELECT DISTINCT courseId FROM public.user_course_certificate" [];
  for_of courseResult
    (fun courseRow =>
       let courseId := field courseRow "courseId" in
       do apiData <- fetchCourseData axios courseId;
       do transformedData <- mapContentToCourseEntity apiData;
       let languageString := stringify_or_null (language transformedData) in
       let programString := stringify_or_null (program transformedData) in
       let primaryUserString := stringify_or_null (primaryUser transformedData) in
       let targetAgeGroupString := stringify_or_null (targetAgeGroup transformedData) in
       let keywordsString := stringify_or_null (keywords transformedData) in
       let detailsString := stringify_or_null (details transformedData) in
       dest_query destClient (DeleteWhereEq "course" "course_do_id")
         [PValue (courseDoId transformedData)] ;;
       let values :=
         [PValue (courseDoId transformedData);
          PValue (courseName transformedData);
          PValue (channel transformedData);
          languageString;
          programString;
          primaryUserString;
          targetAgeGroupString;
          keywordsString;
          detailsString] in
       dest_query destClient (Insert "course" course_columns) values).

Definition migrateCourses (axios : Axios) (sourceClient : Client)
    (destClient : DestClient) : M unit :=
  try_finally
    (try_catch
       (lift (connect sourceClient) ;;
        lift (dest_connect destClient) ;;
        migrateUserCourseDataTable sourceClient destClient ;;
        migrateCourseTable axios sourceClient destClient)
       (fun error => console_error "[MIGRATION] A critical error occurred:" [message error]))
    (ret tt).

End Course.

(** ** The assessment migration *)

Module Assessment.

Definition fetchApiData (axios : Axios) (courseId : value) : M value :=
  if negb (ToBoolean courseId) then ret (JObj [])
  else
    do returned <-
      try_catch
        (do response <- lift (post axios courseId);
         do data <- member response "data";
         do result <- member data "result";
         do QuestionSet <- member result "QuestionSet";
         do questionSet <- first QuestionSet;
         ret (Some questionSet))
        (fun error =>
           console_error "[API ERROR] Could not fetch data for courseId"
             [courseId; message error] ;;
           ret None);
    match returned with
    | Some questionSet => ret questionSet
    | None => ret (JObj [])
    end.

Definition score_detail_columns : list string :=
  ["id"; "userId"; "assessmentTrackingId"; "questionId"; "pass"; "sectionId";
   "resValue"; "duration"; "score"; "maxScore"; "queTitle"]%string.

Definition migrateScoreDetailsTable (sourceClient : Client) (destClient : DestClient)
    : M unit :=
  do scoreDetailsResult <-
    source_query sourceClient "SELECT * FROM public.assessment_tracking_score_detail" [];
  for_of scoreDetailsResult
    (fun detail =>
       dest_query destClient (DeleteWhereEq "assessment_tracking_score_detail" "id")
         [PValue (field detail "id")] ;;
       let values :=
         List.map (fun c => PValue (field detail c)) score_detail_columns in
       dest_query destClient
         (Insert "assessment_tracking_score_detail" score_detail_columns) values).

Definition assessment_tracking_columns : list string :=
  ["assessmentTrackingId"; "userId"; "courseId"; "contentId"; "attemptId";
   "createdOn"; "lastAttemptedOn"; "assessmentSummary"; "totalMaxScore";
   "totalScore"; "updatedOn"; "timeSpent"; "unitId"; "name"; "description";
   "subject"; "domain"; "subDomain"; "channel"; "assessmentType"; "program";
   "targetAgeGroup"; "assessmentName"; "contentLanguage"; "status";
   "framework"; "summaryType"]%string.

(** The transformer of one assessment row: the [values] array. *)
Definition assessment_values (assessment apiData : value) : list param :=
  let assessmentSummaryString :=
    if ToBoolean (field assessment "assessmentSummary")
    then JSON_stringify (field assessment "assessmentSummary")
    else PValue JNull in
  [PValue (field assessment "assessmentTrackingId");
   PValue (field assessment "userId");
   PValue (field assessment "courseId");
   PValue (field assessment "contentId");
   PValue (field assessment "attemptId");
   PValue (field assessment "createdOn");
   PValue (field assessment "lastAttemptedOn");
   assessmentSummaryString;
   PValue (field assessment "totalMaxScore");
   PValue (field assessment "totalScore");
   PValue (field assessment "updatedOn");
   PValue (field assessment "timeSpent");
   PValue (field assessment "unitId");
   PValue (js_or (opt_member apiData "name") JNull);
   PValue (js_or (opt_member apiData "description") JNull);
   PValue (js_or (opt_first (opt_member apiData "subject")) JNull);
   PValue (js_or (opt_member apiData "domain") JNull);
   PValue (js_or (opt_first (opt_member apiData "subDomain")) JNull);
   PValue (js_or (opt_member apiData "channel") JNull);
   PValue (js_or (opt_member apiData "assessmentType") JNull);
   PValue (js_or (opt_first (opt_member apiData "program")) JNull);
   PValue (js_or (opt_first (opt_member apiData "targetAgeGroup")) JNull);
   PValue (js_or (opt_member apiData "name") JNull);
   PValue (js_or (opt_first (opt_member apiData "language")) JNull);
   PValue (js_or (opt_member apiData "status") JNull);
   PValue (js_or (opt_member apiData "framework") JNull);
   PValue (str "assessment_tracking")].

Definition migrateAssessmentTrackingTable (axios : Axios) (sourceClient : Client)
    (destClient : DestClient) : M unit :=
  do assessmentResult <-
    source_query sourceClient "SELECT * FROM public.assessment_tracking" [];
  for_of assessmentResult
    (fun assessment =>
       do apiData <- fetchApiData axios (field assessment "courseId");
       let statement :=
         InsertOnConflictUpdate "assessment_tracking" assessment_tracking_columns
           "assessmentTrackingId"
           (List.map (fun c => (c, Excluded c))
              ["userId"; "courseId"; "contentId"; "attemptId"; "lastAttemptedOn";
               "assessmentSummary"; "totalMaxScore"; "totalScore"; "updatedOn";
               "timeSpent"; "unitId"; "name"; "description"; "subject"; "domain";
               "subDomain"; "channel"; "assessmentType"; "program";
               "targetAgeGroup"; "assessmentName"; "contentLanguage"; "status";
               "framework"; "summaryType"]%string) in
       let values := assessment_values assessment apiData in
       dest_query destClient statement values).

Definition migrateAssessments (axios : Axios) (sourceClient : Client)
    (destClient : DestClient) : M unit :=
  try_finally
    (try_catch
       (lift (connect sourceClient) ;;
        lift (dest_connect destClient) ;;
        migrateAssessmentTrackingTable axios sourceClient destClient)
       (fun error => console_error "[MIGRATION] A critical error occurred:" [message error]))
    (ret tt).

End Assessment.

(** ** Vocabulary of the statements *)

Definition result {A} (m : M A) (w : world) : outcome A := fst (m w).

(** The world of a first run: an empty console and no destination table. *)
Definition empty_world : world := World [] ∅.

(** [m] answers its caller in every world: it returns a result, never
    raises, and leaves the destination tables as they were. *)
Definition resolves {A} (m : M A) : Prop :=
  forall w, exists a w', m w = (Ret a, w') /\ tables w' = tables w.

(** [m] does not write to the destination, whether it returns or raises. *)
Definition reads_only {A} (m : M A) : Prop :=
  forall w, tables (snd (m w)) = tables w.

(** The columns an upsert leaves as they are in the existing row: the key
    and the creation columns, which no [DO UPDATE SET] of the scripts names. *)
Definition UserProfileReport_kept : list string :=
  ["userId"; "createdAt"; "createdBy"]%string.
Definition DailyAttendanceReport_kept : list string :=
  ["attendanceId"; "createdAt"; "createdBy"]%string.

Definition kept_in (kept : list string) (c : string) : bool :=
  existsb (String.eqb c) kept.

(** The row a statement proposes: its columns paired with the prepared
    parameters. *)
Definition proposed_row (cols : list string) (values : list param) : row :=
  combine cols (List.map prepareValue values).

(** What an upsert on conflict does to one row of the table: a row with
    another key stays, and in the row with the key every column outside
    [kept] takes the proposed value while the columns of [kept] stay. *)
Definition upserted (key : string) (cols kept : list string) (proposed old new : row)
    : Prop :=
  if conflicts key proposed old then
    forall c, In c cols ->
      cell new c = if kept_in kept c then cell old c else cell proposed c
  else new = old.

Definition is_nullish (v : value) : bool :=
  match v with
  | JUndefined | JNull => true
  | _ => false
  end.

Definition positive_integer (v : value) : Prop :=
  exists q z, v = JNum (Fin q) /\ (q == inject_Z z)%Q /\ 0 < z.

(** C7, as the specification words it: every input gives a positive
    integer or null, and a number is returned unchanged. *)
Definition extractor_contract_as_stated : Prop :=
  forall v w, exists r,
    result (extractIdFromValue v) w = Ret r /\
    (r = JNull \/ positive_integer r) /\
    (typeof v = TNumber -> r = v).

(** ** Clients and rows used in the examples *)

(** A destination that accepts every statement. *)
Definition reliable : DestClient :=
  {| dest_connect := Ret tt; fault := fun _ _ => None |}.

(** A destination that refuses the upsert of the record with key [id], as
    a server does for a value its column type rejects. *)
Definition refusing (id : string) : DestClient :=
  {| dest_connect := Ret tt;
     fault := fun st values =>
       match st with
       | InsertOnConflictUpdate _ _ _ _ =>
           if param_eqb (nth 0 values (PValue JNull)) (PValue (str id))
           then Some (Error "invalid input syntax for type uuid")
           else None
       | _ => None
       end |}.

(** A source that answers [text] with [rows] and every other query with no
    row. *)
Definition source_of (text : string) (rows : list value) : Client :=
  {| connect := Ret tt;
     query := fun t _ => if String.eqb t text then Ret rows else Ret [] |}.

(** An HTTP client without network: every request fails. *)
Definition offline : Axios :=
  {| get := fun _ => Throw (Error "connect ECONNREFUSED");
     post := fun _ => Throw (Error "connect ECONNREFUSED") |}.

Definition user_row (id first middle last created : string) : value :=
  UserProfileReport.usersQuery_row
    (JObj [(lit "userId", str id); (lit "username", str id);
           (lit "firstName", str first); (lit "middleName", str middle);
           (lit "lastName", str last); (lit "status", str "active");
           (lit "createdAt", str created); (lit "updatedAt", str created);
           (lit "createdBy", str "admin"); (lit "updatedBy", str "admin")]).

Definition attendance_row (id user day : string) : value :=
  JObj [(lit "attendanceId", str id); (lit "userId", str user);
        (lit "contextId", str "cohort-1"); (lit "context", str "cohort");
        (lit "attendanceDate", str day); (lit "attendance", str "present");
        (lit "metaData", JNull);
        (lit "createdAt", str day); (lit "updatedAt", str day);
        (lit "createdBy", str user); (lit "updatedBy", str user)].

Definition assessment_row (id course : string) : value :=
  JObj [(lit "assessmentTrackingId", str id); (lit "userId", str "u1");
        (lit "courseId", str course); (lit "contentId", str course);
        (lit "attemptId", str "1"); (lit "createdOn", str "2024-01-01");
        (lit "lastAttemptedOn", str "2024-01-01"); (lit "assessmentSummary", JNull);
        (lit "totalMaxScore", int 10); (lit "totalScore", int 7);
        (lit "updatedOn", str "2024-01-01"); (lit "timeSpent", int 60);
        (lit "unitId", JNull)].

Definition table_rows (w : world) (t : string) : list row :=
  match tables w !! t with
  | Some tb => rows tb
  | None => []
  end.

(** The destination of the assessment and course scripts, whose tables
    exist before the run.  Modelled from the spec: the table definitions
    are not in the scripts; assessment_tracking carries the unique key its
    ON CONFLICT clause names, and the tables written by delete-then-insert
    lack a uniqueness constraint, as section 4.4 says of them. *)
Definition assessment_destination : world :=
  World []
    (<["assessment_tracking" := Table (Some "assessmentTrackingId") []]>
     (<["assessment_tracking_score_detail" := Table None []]>
      (<["user_course_certificate" := Table None []]>
       (<["course" := Table None []]> ∅))))%string.

Definition asha_2020 : value := user_row "u1" "Asha" EmptyString "Rao" "2020-01-01".
Definition asha_2024 : value := user_row "u1" "Asha" "Devi" "Rao" "2024-06-01".
Definition bina_2020 : value := user_row "u2" "Bina" "K" "Das" "2020-01-01".

(** The record processUser builds for [asha_2024] when every lookup is
    empty. *)
Definition asha_2024_data : UserProfileReport.UserData :=
  {| UserProfileReport.userId := str "u1";
     UserProfileReport.username := str "u1";
     UserProfileReport.fullName := str "Asha Devi Rao";
     UserProfileReport.email := JNull;
     UserProfileReport.mobile := JNull;
     UserProfileReport.dob := JNull;
     UserProfileReport.gender := JNull;
     UserProfileReport.tenantId := JNull;
     UserProfileReport.tenantName := JNull;
     UserProfileReport.status := str "active";
     UserProfileReport.createdAt := str "2024-06-01";
     UserProfileReport.updatedAt := str "2024-06-01";
     UserProfileReport.createdBy := str "admin";
     UserProfileReport.updatedBy := str "admin";
     UserProfileReport.roleName := JNull;
     UserProfileReport.roleId := JNull;
     UserProfileReport.customFields := JObj [];
     UserProfileReport.cohorts := JArr [];
     UserProfileReport.automaticMember := int 0;
     UserProfileReport.state := JNull;
     UserProfileReport.district := JNull;
     UserProfileReport.block := JNull;
     UserProfileReport.village := JNull |}.

(** The destination after a first user-profile run over Asha and Bina. *)
Definition after_first_run : world :=
  snd (UserProfileReport.migrateUserProfileReports
         (source_of UserProfileReport.usersQuery [asha_2020; bina_2020])
         reliable empty_world).

Definition score_detail_row (id answer : string) : value :=
  JObj [(lit "id", str id); (lit "userId", str "u1");
        (lit "assessmentTrackingId", str "t1"); (lit "questionId", str "q1");
        (lit "pass", str "yes"); (lit "sectionId", str "s1");
        (lit "resValue", str answer); (lit "duration", int 30);
        (lit "score", int 1); (lit "maxScore", int 1); (lit "queTitle", str "Q1")].

(** The rows of table [t] whose column [col] equals [K]. *)
Definition rows_with_key (w : world) (t col : string) (K : value) : list row :=
  List.filter (fun r => sql_eq (cell r col) (PValue K)) (table_rows w t).

(** The destination row a delete-then-insert writer builds from a source
    row: each column holds the source row's field of the same name. *)
Definition copied_row (cols : list string) (d : value) : row :=
  proposed_row cols (List.map (fun c => PValue (field d c)) cols).

Definition course_source : Client :=
  source_of "SELECT DISTINCT courseId FROM public.user_course_certificate"
    [JObj [(lit "courseId", str "c1")]].

Definition cohort_row (id name : string) : value :=
  JObj [(lit "cohortId", str id); (lit "name", str name); (lit "type", str "COHORT");
        (lit "tenantId", str "tenant-1"); (lit "tenantName", str "Tenant");
        (lit "academicYear", JNull); (lit "memberCount", str "3");
        (lit "createdAt", str "2024-01-01"); (lit "updatedAt", str "2024-01-01")].

Definition cohort_source : Client :=
  source_of "SELECT ... FROM public.Cohort c LEFT JOIN ... GROUP BY ..."
    [cohort_row "k1" "Morning"; cohort_row "k2" "Evening"].

Definition attendance_source : Client :=
  source_of "SELECT ... FROM public.Attendance a"
    [attendance_row "a1" "u1" "2024-01-01"; attendance_row "a2" "u1" "2024-01-02"].

Definition assessment_source : Client :=
  source_of "SELECT * FROM public.assessment_tracking"
    [assessment_row "t1" "c1"; assessment_row "t2" "c1"].

Definition users_source : Client :=
  source_of UserProfileReport.usersQuery [asha_2020; bina_2020].

Definition keys (col : string) (rs : list row) : list param :=
  List.map (fun r => cell r col) rs.

(** The course row written for the empty enrichment result: no key, no
    name, no channel. *)
Definition course_row_without_key : row :=
  proposed_row Course.course_columns
    [PValue JUndefined; PValue JUndefined; PValue JUndefined;
     PJsonText (JArr []); PJsonText (JArr []); PJsonText (JArr []);
     PJsonText (JArr []); PJsonText (JArr []); PJsonText (JObj [])].

(** ** Vocabulary of the further properties *)

(** What extractIdFromValue returns for [v]; the world it runs in has no
    part in it. *)
Definition extracted (v : value) : value :=
  match result (extractIdFromValue v) empty_world with
  | Ret r => r
  | Throw _ => JNull
  end.

(** The text getLocationName sends. *)
Definition location_query (tableName idColumn nameColumn : string) : string :=
  ("SELECT " ++ nameColumn ++ " FROM public." ++ tableName
   ++ " WHERE " ++ idColumn ++ " = $1")%string.

(** The name a location lookup gives: null unless the attribute value
    yields a truthy identifier, the query made with that identifier
    succeeds and has a row; then the name column of the first row. *)
Definition location_name (client : Client) (id : value)
    (tableName idColumn nameColumn : string) : value :=
  if ToBoolean (extracted id) then
    match query client (location_query tableName idColumn nameColumn) [extracted id] with
    | Ret (row :: _) => field row nameColumn
    | _ => JNull
    end
  else JNull.

(** The rows a safeQuery with the default [[]] hands to its caller. *)
Definition answered (client : Client) (text : string) (params : list value)
    : list value :=
  match query client text params with
  | Ret rows => rows
  | Throw _ => []
  end.

(** The last row of a result that satisfies [p]. *)
Definition last_row_with (p : value -> bool) (rows : list value) : option value :=
  List.find p (rev rows).

(** The value of the last row of a location result whose fieldId is
    [fieldId], null when there is none. *)
Definition last_value (fieldId : string) (rows : list value) : value :=
  match last_row_with (fun row => strict_eq_string (field row "fieldId") fieldId) rows with
  | Some row => field row "value"
  | None => JNull
  end.

(** The body of the [rows.forEach] of getUserLocationIds and of
    getCohortLocationIds. *)
Definition location_step (locations : UserProfileReport.LocationIds) (row : value) : UserProfileReport.LocationIds :=
  if strict_eq_string (field row "fieldId") UserProfileReport.STATE then
    {| UserProfileReport.stateId := field row "value"; UserProfileReport.districtId := UserProfileReport.districtId locations;
       UserProfileReport.blockId := UserProfileReport.blockId locations; UserProfileReport.villageId := UserProfileReport.villageId locations |}
  else if strict_eq_string (field row "fieldId") UserProfileReport.DISTRICT then
    {| UserProfileReport.stateId := UserProfileReport.stateId locations; UserProfileReport.districtId := field row "value";
       UserProfileReport.blockId := UserProfileReport.blockId locations; UserProfileReport.villageId := UserProfileReport.villageId locations |}
  else if strict_eq_string (field row "fieldId") UserProfileReport.BLOCK then
    {| UserProfileReport.stateId := UserProfileReport.stateId locations; UserProfileReport.districtId := UserProfileReport.districtId locations;
       UserProfileReport.blockId := field row "value"; UserProfileReport.villageId := UserProfileReport.villageId locations |}
  else if strict_eq_string (field row "fieldId") UserProfileReport.VILLAGE then
    {| UserProfileReport.stateId := UserProfileReport.stateId locations; UserProfileReport.districtId := UserProfileReport.districtId locations;
       UserProfileReport.blockId := UserProfileReport.blockId locations; UserProfileReport.villageId := field row "value" |}
  else locations.

(** A query that fails or finds nothing. *)
Definition no_rows (o : outcome (list value)) : bool :=
  match o with
  | Ret [] | Throw _ => true
  | Ret (_ :: _) => false
  end.

(** The record processUser hands to the writer for [user], whose fullName
    is the string [s], when no lookup finds anything. *)
Definition user_data_without_enrichment (user : value) (s : jsstring)
    : UserProfileReport.UserData :=
  {| UserProfileReport.userId := field user "userId";
     UserProfileReport.username := field user "username";
     UserProfileReport.fullName := JStr (trim s);
     UserProfileReport.email := js_or (field user "email") JNull;
     UserProfileReport.mobile := js_or (field user "mobile") JNull;
     UserProfileReport.dob := js_or (field user "dob") JNull;
     UserProfileReport.gender := js_or (field user "gender") JNull;
     UserProfileReport.tenantId := JNull;
     UserProfileReport.tenantName := JNull;
     UserProfileReport.status := field user "status";
     UserProfileReport.createdAt := field user "createdAt";
     UserProfileReport.updatedAt := field user "updatedAt";
     UserProfileReport.createdBy := field user "createdBy";
     UserProfileReport.updatedBy := field user "updatedBy";
     UserProfileReport.roleName := JNull;
     UserProfileReport.roleId := JNull;
     UserProfileReport.customFields := JObj [];
     UserProfileReport.cohorts := JArr [];
     UserProfileReport.automaticMember := int 0;
     UserProfileReport.state := JNull;
     UserProfileReport.district := JNull;
     UserProfileReport.block := JNull;
     UserProfileReport.village := JNull |}.

(** A source in which every query fails. *)
Definition failing_source : Client :=
  {| connect := Ret tt; query := fun _ _ => Throw (Error "connection terminated") |}.

(** A source that cannot be reached. *)
Definition unreachable_source : Client :=
  {| connect := Throw (Error "connect ECONNREFUSED"); query := fun _ _ => Ret [] |}.

(** A string that holds a character and does not begin with white space. *)
Definition clean_start (s : jsstring) : Prop :=
  match s with
  | c :: _ => is_white_space c = false
  | [] => False
  end.

(** A string that holds a character and does not end with white space. *)
Definition clean_end (s : jsstring) : Prop := clean_start (rev s).

(** A name part that is missing: NULL in the Users table, or empty. *)
Definition missing (part : value) : Prop := part = JNull \/ part = JStr [].

(** What fetchCourseData hands on for a course identifier: the content of
    the response when the identifier is truthy and the response carries a
    truthy [data.result.content], the empty object otherwise. *)
Definition fetched_content (axios : Axios) (courseId : value) : value :=
  match get axios courseId with
  | Throw _ => JObj []
  | Ret response =>
      let content :=
        opt_member (opt_member (opt_member response "data") "result") "content" in
      if ToBoolean courseId && ToBoolean content then content else JObj []
  end.

(** The course entity of a content that is neither null nor undefined. *)
Definition course_entity (content : value) : Course.CourseEntity :=
  {| Course.courseDoId := opt_member content "identifier";
     Course.courseName := opt_member content "name";
     Course.channel := opt_member content "channel";
     Course.language := js_or (opt_member content "language") (JArr []);
     Course.program := js_or (opt_member content "program") (JArr []);
     Course.primaryUser := js_or (opt_member content "primaryUser") (JArr []);
     Course.targetAgeGroup := js_or (opt_member content "targetAgeGroup") (JArr []);
     Course.keywords := js_or (opt_member content "keywords") (JArr []);
     Course.details := content |}.

(** The [values] array of migrateCourseTable for an entity. *)
Definition course_values (e : Course.CourseEntity) : list param :=
  [PValue (Course.courseDoId e);
   PValue (Course.courseName e);
   PValue (Course.channel e);
   Course.stringify_or_null (Course.language e);
   Course.stringify_or_null (Course.program e);
   Course.stringify_or_null (Course.primaryUser e);
   Course.stringify_or_null (Course.targetAgeGroup e);
   Course.stringify_or_null (Course.keywords e);
   Course.stringify_or_null (Course.details e)].

(** The course row written for a content. *)
Definition course_row_of (content : value) : row :=
  proposed_row Course.course_columns (course_values (course_entity content)).

Definition is_json_text (p : param) : bool :=
  match p with
  | PJsonText _ => true
  | PValue _ => false
  end.

(** A hierarchy response that carries [content]. *)
Definition hierarchy_response (content : value) : value :=
  JObj [(lit "data", JObj [(lit "result", JObj [(lit "content", content)])])].

Definition algebra_content : value :=
  JObj [(lit "identifier", str "do_1"); (lit "name", str "Algebra");
        (lit "language", JArr [str "English"])].

(** An HTTP client whose hierarchy request answers with [algebra_content]. *)
Definition online : Axios :=
  {| get := fun _ => Ret (hierarchy_response algebra_content);
     post := fun _ => Throw (Error "connect ECONNREFUSED") |}.

Definition CohortSummaryReport_kept : list string := ["cohortId"; "createdAt"]%string.
Definition assessment_tracking_kept : list string :=
  ["assessmentTrackingId"; "createdOn"]%string.

(** Keys of which no earlier one equals a later one. *)
Fixpoint pairwise_distinct (ks : list param) : Prop :=
  match ks with
  | [] => True
  | k :: rest => Forall (fun k' => sql_eq k k' = false) rest /\ pairwise_distinct rest
  end.

(** No two rows of [rs] have the same value in column [key]. *)
Definition unique_on (key : string) (rs : list row) : Prop :=
  pairwise_distinct (keys key rs).

(** [rs'] is [rs] with its rows in place and their [kept] columns as they
    were, followed by new rows. *)
Definition extends (kept : list string) (rs rs' : list row) : Prop :=
  exists added, forall c, In c kept -> keys c rs' = keys c rs ++ keys c added.

(** What a run of an upsert batch may do to its table. *)
Definition grown (kept : list string) (key : string) (rs rs' : list row) : Prop :=
  extends kept rs rs' /\ (unique_on key rs -> unique_on key rs').

(** [m] does to table [t] nothing but what [grown] allows. *)
Definition grows (kept : list string) (key t : string) {A} (m : M A) : Prop :=
  forall w, grown kept key (table_rows w t) (table_rows (snd (m w)) t).

(** What fetchApiData hands on for a course identifier: the first element
    of [response.data.result.QuestionSet] when the identifier is truthy and
    every object on that path is there, the empty object otherwise. *)
Definition fetched_question_set (axios : Axios) (courseId : value) : value :=
  match post axios courseId with
  | Throw _ => JObj []
  | Ret response =>
      let data := opt_member response "data" in
      let res := opt_member data "result" in
      let QuestionSet := opt_member res "QuestionSet" in
      if ToBoolean courseId && negb (is_nullish response)
         && negb (is_nullish data) && negb (is_nullish res)
         && negb (is_nullish QuestionSet)
      then opt_first QuestionSet else JObj []
  end.

(** The statement of migrateAssessmentTrackingTable. *)
Definition assessment_tracking_upsert : statement :=
  InsertOnConflictUpdate "assessment_tracking" Assessment.assessment_tracking_columns
    "assessmentTrackingId"
    (List.map (fun c => (c, Excluded c))
       ["userId"; "courseId"; "contentId"; "attemptId"; "lastAttemptedOn";
        "assessmentSummary"; "totalMaxScore"; "totalScore"; "updatedOn";
        "timeSpent"; "unitId"; "name"; "description"; "subject"; "domain";
        "subDomain"; "channel"; "assessmentType"; "program";
        "targetAgeGroup"; "assessmentName"; "contentLanguage"; "status";
        "framework"; "summaryType"]%string).

(** The assessment row [id] as the source has it on a later day. *)
Definition assessment_row_later (id course : string) : value :=
  JObj [(lit "assessmentTrackingId", str id); (lit "userId", str "u1");
        (lit "courseId", str course); (lit "contentId", str course);
        (lit "attemptId", str "2"); (lit "createdOn", str "2024-03-01");
        (lit "lastAttemptedOn", str "2024-03-01"); (lit "assessmentSummary", JNull);
        (lit "totalMaxScore", int 10); (lit "totalScore", int 9);
        (lit "updatedOn", str "2024-03-01"); (lit "timeSpent", int 45);
        (lit "unitId", JNull)].

(** The assessment destination after a first run over t1 and t2. *)
Definition after_first_assessment_run : world :=
  snd (Assessment.migrateAssessments offline assessment_source reliable
         assessment_destination).

(** *** Upsert batches as folds over the rows of a table *)

(** What [INSERT ... ON CONFLICT (key) DO UPDATE SET assignments] does to
    the rows of its table, for a proposed row whose key is not null. *)
Definition upsert_rows (key : string) (assignments : list (string * sql_expr))
    (values : list param) (proposed : row) (rs : list row) : list row :=
  if existsb (conflicts key proposed) rs then
    List.map (fun r => if conflicts key proposed r
                       then update_row values proposed assignments r else r) rs
  else rs ++ [proposed].

(** One write of a batch: whether the destination refuses it, and the
    parameters it sends. *)
Record write := Write { refused : bool; sent : list param }.

Definition write_key (key : string) (cols : list string) (wr : write) : param :=
  cell (proposed_row cols (sent wr)) key.

(** What a write whose error is caught does to the rows of the table: a
    refused write and a write without key change nothing. *)
Definition apply_write (key : string) (cols : list string)
    (assignments : list (string * sql_expr)) (wr : write) (rs : list row) : list row :=
  if refused wr || is_null (write_key key cols wr) then rs
  else upsert_rows key assignments (List.map prepareValue (sent wr))
         (proposed_row cols (sent wr)) rs.

Definition apply_writes (key : string) (cols : list string)
    (assignments : list (string * sql_expr)) (ws : list write) (rs : list row)
    : list row :=
  fold_left (fun rs wr => apply_write key cols assignments wr rs) ws rs.

(** The assignments of the statement agree with the row it proposes:
    updating the proposed row with them changes nothing. *)
Definition settled (cols : list string) (assignments : list (string * sql_expr))
    (wr : write) : Prop :=
  update_row (List.map prepareValue (sent wr)) (proposed_row cols (sent wr)) assignments
    (proposed_row cols (sent wr))
  = proposed_row cols (sent wr).

(** What the assignments do to one cell of a row. *)
Definition entry_update (values : list param) (proposed : row)
    (assignments : list (string * sql_expr)) (cp : string * param) : string * param :=
  fold_left
    (fun cp a => if String.eqb (fst a) (fst cp)
                 then (fst cp, eval_expr values proposed (snd a)) else cp)
    assignments cp.

Definition is_some {A} (o : option A) : bool :=
  match o with
  | Some _ => true
  | None => false
  end.

Definition assignments_of (st : statement) : list (string * sql_expr) :=
  match st with
  | InsertOnConflictUpdate _ _ _ assignments => assignments
  | _ => []
  end.

(** [CREATE TABLE IF NOT EXISTS t (... pk PRIMARY KEY ...)] on the tables. *)
Definition ensure_table (t pk : string) (db : gmap string table) : gmap string table :=
  match db !! t with
  | Some _ => db
  | None => <[t := Table (Some pk) []]> db
  end.

(** A batch of caught upserts on the tables: it rewrites the rows of [t]
    when [t] is there with [key] as its unique key, and otherwise every
    write fails and nothing changes. *)
Definition batch_tables (t key : string) (cols : list string)
    (assignments : list (string * sql_expr)) (ws : list write)
    (db : gmap string table) : gmap string table :=
  match db !! t with
  | Some tb =>
      if bool_decide (unique_key tb = Some key)
      then <[t := Table (Some key) (apply_writes key cols assignments ws (rows tb))]> db
      else db
  | None => db
  end.

(** The write of one attendance row. *)
Definition attendance_write (destClient : DestClient) (attendance : value) : write :=
  {| refused :=
       is_some (fault destClient AttendanceReport.DailyAttendanceReport_upsert
                  (AttendanceReport.DailyAttendanceReport_values attendance));
     sent := AttendanceReport.DailyAttendanceReport_values attendance |}.

(** The key a source row is written under. *)
Definition sent_key (row : value) (column : string) : param :=
  prepareValue (PValue (field row column)).

(** [m] gives every world the same answer and leaves the tables alone. *)
Definition blind {A} (m : M A) : Prop :=
  exists a, forall w, exists w1, m w = (Ret a, w1) /\ tables w1 = tables w.

(** The answer of a lookup, which the world has no part in. *)
Definition answer {A} (m : M A) (otherwise : A) : A :=
  match result m empty_world with
  | Ret a => a
  | Throw _ => otherwise
  end.

Definition no_location_ids : UserProfileReport.LocationIds :=
  {| UserProfileReport.stateId := JNull; UserProfileReport.districtId := JNull;
     UserProfileReport.blockId := JNull; UserProfileReport.villageId := JNull |}.

Definition no_location_names : UserProfileReport.LocationNames :=
  {| UserProfileReport.stateName := JNull; UserProfileReport.districtName := JNull;
     UserProfileReport.blockName := JNull; UserProfileReport.villageName := JNull |}.

Definition no_tenant_and_role : UserProfileReport.TenantAndRole :=
  {| UserProfileReport.tr_tenantId := JNull; UserProfileReport.tr_tenantName := JNull;
     UserProfileReport.tr_roleId := JNull; UserProfileReport.tr_roleName := JNull;
     UserProfileReport.tr_roleCode := JNull |}.

(** The record processUser hands to the writer for the row [user] of the
    source [sourceClient], whose fullName is the string [full]: the fields
    of the row and the answers of the five lookups. *)
Definition user_data_of (sourceClient : Client) (user : value) (full : jsstring)
    : UserProfileReport.UserData :=
  let id := field user "userId" in
  let customFields := answer (UserProfileReport.getCustomFields sourceClient id) JNull in
  let locationIds :=
    answer (UserProfileReport.getUserLocationIds sourceClient id) no_location_ids in
  let locationNames :=
    answer (UserProfileReport.getLocationNames sourceClient locationIds)
      no_location_names in
  let cohorts := answer (UserProfileReport.getUserCohorts sourceClient id) [] in
  let tenantAndRole :=
    answer (UserProfileReport.getUserTenantAndRole sourceClient id) no_tenant_and_role in
  {| UserProfileReport.userId := field user "userId";
     UserProfileReport.username := field user "username";
     UserProfileReport.fullName := JStr (trim full);
     UserProfileReport.email := js_or (field user "email") JNull;
     UserProfileReport.mobile := js_or (field user "mobile") JNull;
     UserProfileReport.dob := js_or (field user "dob") JNull;
     UserProfileReport.gender := js_or (field user "gender") JNull;
     UserProfileReport.tenantId := UserProfileReport.tr_tenantId tenantAndRole;
     UserProfileReport.tenantName := UserProfileReport.tr_tenantName tenantAndRole;
     UserProfileReport.status := field user "status";
     UserProfileReport.createdAt := field user "createdAt";
     UserProfileReport.updatedAt := field user "updatedAt";
     UserProfileReport.createdBy := field user "createdBy";
     UserProfileReport.updatedBy := field user "updatedBy";
     UserProfileReport.roleName := UserProfileReport.tr_roleName tenantAndRole;
     UserProfileReport.roleId := UserProfileReport.tr_roleId tenantAndRole;
     UserProfileReport.customFields := customFields;
     UserProfileReport.cohorts := JArr cohorts;
     UserProfileReport.automaticMember :=
       if UserProfileReport.determineAutomaticMembership cohorts then int 1 else int 0;
     UserProfileReport.state := UserProfileReport.stateName locationNames;
     UserProfileReport.district := UserProfileReport.districtName locationNames;
     UserProfileReport.block := UserProfileReport.blockName locationNames;
     UserProfileReport.village := UserProfileReport.villageName locationNames |}.

(** The write processUser attempts for a row, when it gets as far as the
    write (the fullName of the row is a string). *)
Definition user_write (sourceClient : Client) (destClient : DestClient) (user : value)
    : option write :=
  match field user "fullName" with
  | JStr full =>
      let values :=
        UserProfileReport.UserProfileReport_values (user_data_of sourceClient user full) in
      Some {| refused :=
                is_some (fault destClient UserProfileReport.UserProfileReport_upsert values);
              sent := values |}
  | _ => None
  end.

(** The writes a loop without handler gets to perform: those before the
    first row that raises (no write, a refused write or a write without
    key). *)
Fixpoint effective_writes (key : string) (cols : list string) (ws : list (option write))
    : list write :=
  match ws with
  | [] => []
  | None :: _ => []
  | Some wr :: rest =>
      if refused wr || is_null (write_key key cols wr) then []
      else wr :: effective_writes key cols rest
  end.

(** The parameters processCohort sends for the row [cohort] of the source
    [sourceClient]: the fields of the row and the answers of the lookups. *)
Definition cohort_values (sourceClient : Client) (cohort : value) : list param :=
  let id := field cohort "cohortId" in
  let customFields := answer (UserProfileReport.getCustomFields sourceClient id) JNull in
  let locationIds :=
    answer (CohortSummaryReport.getCohortLocationIds sourceClient id) no_location_ids in
  let locationNames :=
    answer (CohortSummaryReport.getLocationNames sourceClient locationIds)
      no_location_names in
  [PValue (field cohort "cohortId");
   PValue (field cohort "name");
   PValue (field cohort "type");
   PValue (field cohort "tenantId");
   PValue (field cohort "tenantName");
   PValue (field cohort "academicYear");
   PValue (field cohort "memberCount");
   JSON_stringify customFields;
   PValue (field cohort "createdAt");
   PValue (field cohort "updatedAt");
   PValue (UserProfileReport.stateName locationNames);
   PValue (UserProfileReport.districtName locationNames);
   PValue (UserProfileReport.blockName locationNames);
   PValue (UserProfileReport.villageName locationNames)].

Definition cohort_write (sourceClient : Client) (destClient : DestClient) (cohort : value)
    : write :=
  {| refused :=
       is_some (fault destClient CohortSummaryReport.CohortSummaryReport_upsert
                  (cohort_values sourceClient cohort));
     sent := cohort_values sourceClient cohort |}.

(** The write of one assessment row, with what the content service
    answers for its course. *)
Definition assessment_write (axios : Axios) (destClient : DestClient) (assessment : value)
    : write :=
  let values :=
    Assessment.assessment_values assessment
      (fetched_question_set axios (field assessment "courseId")) in
  {| refused := is_some (fault destClient assessment_tracking_upsert values);
     sent := values |}.

(** *** Delete-then-insert batches *)

(** The row holds none of the keys [ks] in column [col]. *)
Definition outside (col : string) (ks : list param) (r : row) : bool :=
  forallb (fun k => negb (sql_eq (cell r col) k)) ks.

(** What [DELETE ... WHERE col = $1] followed by the insert of the copied
    row does to the rows of a table without uniqueness constraint, for the
    source rows [ds] in turn. *)
Definition replaced_rows (col : string) (cols : list string) (ds : list value)
    (rs : list row) : list row :=
  fold_left
    (fun rs d =>
       List.filter (fun r => negb (sql_eq (cell r col) (sent_key d col))) rs
       ++ [copied_row cols d])
    ds rs.

Definition certificate_row (id user course : string) : value :=
  JObj [(lit "usercertificateId", str id); (lit "userId", str user);
        (lit "courseId", str course); (lit "status", str "completed")].

Definition certificate_source : Client :=
  source_of "SELECT * FROM public.user_course_certificate"
    [certificate_row "uc1" "u1" "c1"; certificate_row "uc2" "u2" "c1"].

Definition score_detail_source : Client :=
  source_of "SELECT * FROM public.assessment_tracking_score_detail"
    [score_detail_row "7" "A"; score_detail_row "8" "B"].

(** *** The custom fields as a document *)

(** The own property [k] of an object, if it has one. *)
Fixpoint own_property (k : jsstring) (ps : list (jsstring * value)) : option value :=
  match ps with
  | [] => None
  | (k', v) :: rest => if jsstring_eqb k k' then Some v else own_property k rest
  end.







(** *** The contract of the resolvers and the batches without lookups *)









(** * Verification *)

(** ** Field extractor *)

Lemma extractIdFromValue_falsy v w :
  ToBoolean v = false -> extractIdFromValue v w = (Ret JNull, w).
Proof. intros H. unfold extractIdFromValue. rewrite H. reflexivity. Qed.

Lemma extractIdFromValue_number n w :
  extractIdFromValue (JNum n) w
  = (Ret (if number_truthy n then JNum n else JNull), w).
Proof. unfold extractIdFromValue. simpl. destruct (number_truthy n); reflexivity. Qed.

Lemma digits_value_nonneg l :
  0 <= digits_value (take_while is_digit l).
Proof.
  unfold digits_value.
  assert (G : forall l acc, 0 <= acc ->
            0 <= fold_left (fun a c => 10 * a + digit_value c)
                   (take_while is_digit l) acc).
  { clear l. induction l as [|c l IH]; intros acc Hacc; simpl; [lia|].
    destruct (is_digit c) eqn:E; simpl; [|lia].
    apply IH. unfold is_digit in E. unfold digit_value.
    apply andb_true_iff in E as [E1 E2].
    apply N.leb_le in E1. lia. }
  apply G. lia.
Qed.

Lemma digit_not_white_space c : is_digit c = true -> is_white_space c = false.
Proof.
  unfold is_digit, is_white_space. intros H.
  apply andb_true_iff in H as [H1 H2].
  apply N.leb_le in H1. apply N.leb_le in H2.
  repeat match goal with
         | |- context [(c =? ?k)%N] =>
             let E := fresh in destruct (N.eqb_spec c k) as [E|E]; [lia|]
         end.
  simpl. destruct (N.leb_spec 8192 c); [lia|]. reflexivity.
Qed.

Lemma digit_not_sign c :
  is_digit c = true -> ((c =? 45) || (c =? 43))%N = false /\ (c =? 45)%N = false.
Proof.
  unfold is_digit. intros H.
  apply andb_true_iff in H as [H1 H2].
  apply N.leb_le in H1. apply N.leb_le in H2.
  destruct (N.eqb_spec c 45); [lia|]. destruct (N.eqb_spec c 43); [lia|]. auto.
Qed.

Lemma take_while_idem p l : take_while p (take_while p l) = take_while p l.
Proof.
  induction l as [|c l IH]; simpl; [reflexivity|].
  destruct (p c) eqn:E; simpl; [rewrite E, IH|]; reflexivity.
Qed.

Lemma nearest_double_nonneg n m : 0 <= n -> nearest_double n = Some m -> 0 <= m.
Proof.
  intros Hn. unfold nearest_double.
  destruct (n <? 2 ^ 53); [intros [= <-]; exact Hn|].
  set (e := Z.log2 n - 52). set (q := n / 2 ^ e).
  assert (Hp : 0 <= 2 ^ e) by (apply Z.pow_nonneg; lia).
  assert (Hq : 0 <= q) by (apply Z_div_nonneg_nonneg; assumption).
  match goal with
  | |- (if _ <=? ?q' * _ then _ else _) = _ -> _ =>
      assert (Hq' : 0 <= q') by
        (destruct (n mod 2 ^ e <? 2 ^ (e - 1)); [exact Hq|];
         destruct (2 ^ (e - 1) <? n mod 2 ^ e); [lia|];
         destruct (Z.even q); lia);
      destruct (2 ^ 1024 <=? q' * 2 ^ e); [discriminate|];
      intros [= <-]; apply Z.mul_nonneg_nonneg; assumption
  end.
Qed.

(** An integer up to 2^53 is its own nearest double. *)
Lemma nearest_double_exact n : n <= 2 ^ 53 -> nearest_double n = Some n.
Proof.
  intros Hn. destruct (Z.eq_dec n (2 ^ 53)) as [->|Hne]; [vm_compute; reflexivity|].
  unfold nearest_double. destruct (Z.ltb_spec n (2 ^ 53)); [reflexivity|lia].
Qed.

(** parseInt of a digit run is the Number value of the integer the run
    spells. *)
Lemma parseInt_digit_run c rest :
  is_digit c = true ->
  parseInt (c :: take_while is_digit rest)
  = number_of_integer false (digits_value (c :: take_while is_digit rest)).
Proof.
  intros Hc. unfold parseInt, trim_start. simpl drop_while.
  rewrite (digit_not_white_space c Hc).
  destruct (digit_not_sign c Hc) as [-> ->].
  simpl take_while. rewrite Hc, take_while_idem. reflexivity.
Qed.

Lemma match_digits_some s ms :
  match_digits s = Some ms ->
  exists c rest, is_digit c = true /\ ms = [c :: take_while is_digit rest].
Proof.
  induction s as [|c s IH]; simpl; [discriminate|].
  destruct (is_digit c) eqn:E.
  - intros [= <-]. eauto.
  - exact IH.
Qed.

Lemma match_digits_none s :
  match_digits s = None -> forallb (fun c => negb (is_digit c)) s = true.
Proof.
  induction s as [|c s IH]; simpl; [reflexivity|].
  destruct (is_digit c); [discriminate|]. exact IH.
Qed.

Lemma no_digit_drop_while p s :
  forallb (fun c => negb (is_digit c)) s = true ->
  forallb (fun c => negb (is_digit c)) (drop_while p s) = true.
Proof.
  induction s as [|c s IH]; simpl; [reflexivity|].
  intros H. destruct (p c); [|exact H].
  apply andb_true_iff in H as [_ H]. auto.
Qed.

Lemma no_digit_take_while s :
  forallb (fun c => negb (is_digit c)) s = true -> take_while is_digit s = [].
Proof.
  destruct s as [|c s]; simpl; [reflexivity|].
  intros H. apply andb_true_iff in H as [H _].
  destruct (is_digit c); [discriminate|reflexivity].
Qed.

(** parseInt of a string without digits is NaN. *)
Lemma parseInt_no_digit s :
  match_digits s = None -> parseInt s = NaN.
Proof.
  intros H. apply match_digits_none in H.
  apply (no_digit_drop_while is_white_space) in H.
  unfold parseInt, trim_start.
  destruct (drop_while is_white_space s) as [|c r] eqn:E.
  - reflexivity.
  - assert (Hr : forallb (fun c => negb (is_digit c)) r = true).
    { simpl in H. apply andb_true_iff in H as [_ H]. exact H. }
    destruct ((c =? 45) || (c =? 43))%N.
    + rewrite (no_digit_take_while r Hr). reflexivity.
    + rewrite (no_digit_take_while (c :: r) H). reflexivity.
Qed.

Lemma extractIdFromValue_string s w :
  exists r, result (extractIdFromValue (JStr s)) w = Ret r /\
    (r = JNull \/ r = JNum NaN \/ r = JNum (Inf false) \/
     exists z, 0 <= z /\ r = int z).
Proof.
  unfold result, extractIdFromValue.
  destruct s as [|c0 s0]; [exists JNull; simpl; auto|].
  set (s := c0 :: s0). simpl ToBoolean. simpl typeof. simpl jstype_eqb.
  simpl array_branch. unfold string_branch. cbv iota beta.
  destruct (match_digits s) as [ms|] eqn:E.
  - destruct (match_digits_some _ _ E) as (c & rest & Hc & ->).
    rewrite (parseInt_digit_run c rest Hc).
    eexists; split; [reflexivity|]. right; right.
    pose proof (digits_value_nonneg (c :: rest)) as G.
    simpl take_while in G. rewrite Hc in G.
    unfold number_of_integer.
    destruct (nearest_double (digits_value (c :: take_while is_digit rest)))
      as [m|] eqn:Em; [right|left; reflexivity].
    exists m. split; [|reflexivity]. exact (nearest_double_nonneg _ _ G Em).
  - rewrite (parseInt_no_digit s E).
    destruct (negb (isNaN s)); eexists; (split; [reflexivity|]); auto.
Qed.

(** C2: the five reference inputs of the specification: the bare integer
    42, the array [42], the braced string "{42}" and the numeric string
    "42" all give 42, and the string "abc" gives null. *)
Theorem C2_reference_inputs (w : world) :
  result (extractIdFromValue (int 42)) w = Ret (int 42) /\
  result (extractIdFromValue (JArr [int 42])) w = Ret (int 42) /\
  result (extractIdFromValue (str "{42}")) w = Ret (int 42) /\
  result (extractIdFromValue (str "42")) w = Ret (int 42) /\
  result (extractIdFromValue (str "abc")) w = Ret JNull.
Proof. repeat split. Qed.

(** C7 fails on the code: the number 0 is not returned unchanged (the guard
    on falsy values gives null), and the number -5 is returned as it is,
    which is neither null nor a positive integer. *)
Lemma C7_counterexample :
  result (extractIdFromValue (int 0)) empty_world = Ret JNull /\
  JNull <> int 0 /\
  result (extractIdFromValue (int (-5))) empty_world = Ret (int (-5)) /\
  int (-5) <> JNull /\
  ~ positive_integer (int (-5)) /\
  ~ extractor_contract_as_stated.
Proof.
  assert (NP : ~ positive_integer (int (-5))).
  { intros (q & z & E & Hq & Hz). injection E as <-.
    unfold Qeq, inject_Z in Hq. simpl in Hq. lia. }
  repeat split; try discriminate; try exact NP.
  intros H. destruct (H (int 0) empty_world) as (r & Hr & _ & Hn).
  specialize (Hn eq_refl). subst r. discriminate Hr.
Qed.

(** C7, amended: the extractor always returns, and what it returns is null
    or a number.  A number other than 0, -0 and NaN is returned unchanged
    (negative and fractional numbers included), and 0, -0 and NaN give
    null; a string gives null, NaN, a non-negative integer or, for a digit
    run beyond the doubles, the positive infinity. *)
Theorem C7_number_or_null (v : value) (w : world) :
  exists r, result (extractIdFromValue v) w = Ret r /\
    match v with
    | JNum n => r = if number_truthy n then v else JNull
    | JStr s =>
        r = JNull \/ r = JNum NaN \/ r = JNum (Inf false) \/
        exists z, 0 <= z /\ r = int z
    | _ => r = JNull \/ typeof r = TNumber
    end.
Proof.
  destruct v as [| |b|n|s|xs|ps].
  - exists JNull. auto.
  - exists JNull. auto.
  - exists JNull. destruct b; auto.
  - unfold result. rewrite extractIdFromValue_number. eexists; split; reflexivity.
  - apply extractIdFromValue_string.
  - unfold result, extractIdFromValue. simpl ToBoolean. simpl typeof. simpl jstype_eqb.
    cbv iota beta.
    destruct xs as [|x xs]; [exists JNull; auto|].
    destruct x as [| |b|n|s|ys|qs]; try (exists JNull; auto; fail).
    + exists (JNum n). auto.
    + simpl. destruct (negb (isNaN s)); eexists; (split; [reflexivity|]); auto.
  - exists JNull. auto.
Qed.

(** C10: a falsy input gives null before any shape analysis: nothing is
    logged and the world is untouched.  The falsy inputs are null,
    undefined, false, the empty string and the number 0 (with -0 and NaN),
    so the identifier 0 is mapped to null and not returned as itself. *)
Theorem C10_falsy_gives_null :
  (forall v w, ToBoolean v = false -> extractIdFromValue v w = (Ret JNull, w)) /\
  Forall (fun v => ToBoolean v = false)
    [JNull; JUndefined; JBool false; JStr []; int 0] /\
  result (extractIdFromValue (int 0)) empty_world = Ret JNull /\
  result (extractIdFromValue (int 0)) empty_world <> Ret (int 0).
Proof.
  split; [exact extractIdFromValue_falsy|].
  split; [repeat constructor|].
  split; [reflexivity|discriminate].
Qed.

Lemma C10_witness :
  ToBoolean (int 0) = false /\
  extractIdFromValue (int 0) empty_world = (Ret JNull, empty_world).
Proof.
  split; [reflexivity|].
  apply (proj1 C10_falsy_gives_null (int 0) empty_world). reflexivity.
Defined.

(** ** Reasoning in the monad *)

Lemma resolves_reads_only {A} (m : M A) : resolves m -> reads_only m.
Proof. intros H w. destruct (H w) as (a & w' & -> & E). exact E. Qed.

Lemma resolves_ret {A} (a : A) : resolves (ret a).
Proof. intros w. exists a, w. split; reflexivity. Qed.

Lemma resolves_bind {A B} (m : M A) (k : A -> M B) :
  resolves m -> (forall a, resolves (k a)) -> resolves (bind m k).
Proof.
  intros Hm Hk w. destruct (Hm w) as (a & w1 & E1 & T1).
  destruct (Hk a w1) as (b & w2 & E2 & T2).
  exists b, w2. unfold bind. rewrite E1, E2. split; [reflexivity|congruence].
Qed.

Lemma resolves_console_log l t d : resolves (console_log l t d).
Proof. intros w. eexists _, _. split; reflexivity. Qed.

Lemma resolves_try_catch {A} (body : M A) (handler : error -> M A) :
  reads_only body -> (forall e, resolves (handler e)) ->
  resolves (try_catch body handler).
Proof.
  intros Hb Hh w. unfold try_catch. specialize (Hb w).
  destruct (body w) as [[a|e] w1]; simpl in Hb.
  - exists a, w1. split; [reflexivity|exact Hb].
  - destruct (Hh e w1) as (a & w2 & E & T). exists a, w2.
    split; [exact E|congruence].
Qed.

Lemma reads_only_lift {A} (r : outcome A) : reads_only (lift r).
Proof. intros w. reflexivity. Qed.

Lemma reads_only_throw {A} (e : error) : reads_only (@throw A e).
Proof. intros w. reflexivity. Qed.

Lemma reads_only_bind {A B} (m : M A) (k : A -> M B) :
  reads_only m -> (forall a, reads_only (k a)) -> reads_only (bind m k).
Proof.
  intros Hm Hk w. unfold bind. specialize (Hm w).
  destruct (m w) as [[a|e] w1]; simpl in *.
  - rewrite Hk. exact Hm.
  - exact Hm.
Qed.

Lemma reads_only_member v k : reads_only (member v k).
Proof. intros w. destruct v; reflexivity. Qed.

Lemma reads_only_first v : reads_only (first v).
Proof. intros w. destruct v as [| | | |[|c s]| |]; reflexivity. Qed.

Lemma resolves_extractIdFromValue v : resolves (extractIdFromValue v).
Proof.
  unfold extractIdFromValue.
  destruct (negb (ToBoolean v)); [apply resolves_ret|].
  destruct (jstype_eqb (typeof v) TNumber); [apply resolves_ret|].
  destruct (array_branch v); [apply resolves_ret|].
  destruct (string_branch v); [apply resolves_ret|].
  apply resolves_bind; [apply resolves_console_log|intros; apply resolves_ret].
Qed.

Create HintDb resolve.
#[local] Hint Resolve resolves_ret resolves_console_log resolves_extractIdFromValue
  reads_only_lift reads_only_throw reads_only_member reads_only_first : resolve.

Ltac resolve_step :=
  match goal with
  | |- resolves (bind _ _) => apply resolves_bind; [|intros]
  | |- resolves (try_catch _ _) => apply resolves_try_catch; [|intros]
  | |- reads_only (bind _ _) => apply reads_only_bind; [|intros]
  | |- resolves (if ?c then _ else _) => destruct c
  | |- reads_only (if ?c then _ else _) => destruct c
  | |- resolves (match ?c with _ => _ end) => destruct c
  | |- reads_only (ret _) => apply resolves_reads_only
  | |- _ => solve [eauto with resolve]
  end.

Ltac resolve := repeat resolve_step.

(** ** Enrichment resolvers *)

Import UserProfileReport.

Lemma safeQuery_resolves client text params defaultValue errorMessage :
  resolves (safeQuery client text params defaultValue errorMessage).
Proof. unfold safeQuery, source_query, warn, console_warn. resolve. Qed.

Lemma safeQuery_result client text params defaultValue errorMessage w :
  result (safeQuery client text params defaultValue errorMessage) w
  = Ret (match query client text params with
         | Ret rows => rows
         | Throw _ => defaultValue
         end).
Proof.
  unfold result, safeQuery, try_catch, source_query, lift.
  destruct (query client text params); reflexivity.
Qed.

#[local] Hint Resolve safeQuery_resolves : resolve.

Lemma getCustomFields_resolves client userId : resolves (getCustomFields client userId).
Proof. unfold getCustomFields. resolve. Qed.

Lemma getUserLocationIds_resolves client userId :
  resolves (getUserLocationIds client userId).
Proof. unfold getUserLocationIds. resolve. Qed.

Lemma getLocationName_resolves client id tableName idColumn nameColumn :
  resolves (getLocationName client id tableName idColumn nameColumn).
Proof. unfold getLocationName, source_query, console_warn. resolve. Qed.

#[local] Hint Resolve getLocationName_resolves : resolve.

Lemma getLocationNames_resolves client locationIds :
  resolves (getLocationNames client locationIds).
Proof. unfold getLocationNames. resolve. Qed.

Lemma getUserCohorts_resolves client userId : resolves (getUserCohorts client userId).
Proof. unfold getUserCohorts. resolve. Qed.

Lemma getUserTenantAndRole_resolves client userId :
  resolves (getUserTenantAndRole client userId).
Proof. unfold getUserTenantAndRole. resolve. Qed.

Lemma fetchCourseData_resolves axios courseId :
  resolves (Course.fetchCourseData axios courseId).
Proof. unfold Course.fetchCourseData, console_error. resolve. Qed.

Lemma fetchApiData_resolves axios courseId :
  resolves (Assessment.fetchApiData axios courseId).
Proof. unfold Assessment.fetchApiData, console_error. resolve. Qed.

Lemma getCohortLocationIds_resolves client cohortId :
  resolves (CohortSummaryReport.getCohortLocationIds client cohortId).
Proof. unfold CohortSummaryReport.getCohortLocationIds. resolve. Qed.

Lemma cohort_getLocationName_resolves client id tableName idColumn nameColumn :
  resolves (CohortSummaryReport.getLocationName client id tableName idColumn nameColumn).
Proof. unfold CohortSummaryReport.getLocationName, source_query, console_warn. resolve. Qed.

#[local] Hint Resolve cohort_getLocationName_resolves : resolve.

Lemma cohort_getLocationNames_resolves client locationIds :
  resolves (CohortSummaryReport.getLocationNames client locationIds).
Proof. unfold CohortSummaryReport.getLocationNames. resolve. Qed.

(** What fetchCourseData answers: the content of the response when the
    identifier is truthy and [response.data.result.content] is there and
    truthy, the empty object in every other case. *)
Lemma fetchCourseData_result axios courseId w :
  result (Course.fetchCourseData axios courseId) w
  = Ret (match get axios courseId with
         | Throw _ => JObj []
         | Ret response =>
             let content :=
               opt_member (opt_member (opt_member response "data") "result") "content" in
             if ToBoolean courseId && ToBoolean content then content else JObj []
         end).
Proof.
  unfold result, Course.fetchCourseData.
  destruct (ToBoolean courseId); simpl negb; cbv iota.
  2:{ destruct (get axios courseId); reflexivity. }
  unfold bind, try_catch, lift, console_error, console_log.
  destruct (get axios courseId) as [response|e]; [|reflexivity].
  destruct response as [| | | | | |ps]; try reflexivity.
  simpl. destruct (lookup_prop (lit "data") ps) as [| | | | | |qs]; try reflexivity.
  simpl. destruct (lookup_prop (lit "result") qs) as [| |b|n|s| |rs]; try reflexivity.
  - destruct b; reflexivity.
  - simpl. destruct (number_truthy n); reflexivity.
  - destruct s; reflexivity.
  - simpl. destruct (ToBoolean (lookup_prop (lit "content") rs)); reflexivity.
Qed.

(** What fetchApiData answers: the first element of
    [response.data.result.QuestionSet] when the identifier is truthy and
    every object on that path is there, the empty object otherwise. *)
Lemma fetchApiData_result axios courseId w :
  result (Assessment.fetchApiData axios courseId) w
  = Ret (match post axios courseId with
         | Throw _ => JObj []
         | Ret response =>
             let data := opt_member response "data" in
             let res := opt_member data "result" in
             let QuestionSet := opt_member res "QuestionSet" in
             if ToBoolean courseId && negb (is_nullish response)
                && negb (is_nullish data) && negb (is_nullish res)
                && negb (is_nullish QuestionSet)
             then opt_first QuestionSet else JObj []
         end).
Proof.
  unfold result, Assessment.fetchApiData.
  destruct (ToBoolean courseId); simpl negb; cbv iota.
  2:{ destruct (post axios courseId); reflexivity. }
  unfold bind, try_catch, lift, console_error, console_log.
  destruct (post axios courseId) as [response|e]; [|reflexivity].
  destruct response as [| | | | | |ps]; try reflexivity.
  simpl. destruct (lookup_prop (lit "data") ps) as [| | | | | |qs]; try reflexivity.
  simpl. destruct (lookup_prop (lit "result") qs) as [| | | | | |rs]; try reflexivity.
  simpl. destruct (lookup_prop (lit "QuestionSet") rs) as [| | | |[|c s]| |]; reflexivity.
Qed.

(** ** Full-name construction *)

Lemma take_drop_while p s : s = take_while p s ++ drop_while p s.
Proof.
  induction s as [|c s IH]; simpl; [reflexivity|].
  destruct (p c); simpl; [f_equal; exact IH|reflexivity].
Qed.

Lemma take_while_all p s : forallb p (take_while p s) = true.
Proof.
  induction s as [|c s IH]; simpl; [reflexivity|].
  destruct (p c) eqn:E; simpl; [rewrite E; exact IH|reflexivity].
Qed.

Lemma drop_while_head p s :
  match drop_while p s with
  | c :: _ => p c = false
  | [] => True
  end.
Proof.
  induction s as [|c s IH]; simpl; [exact I|].
  destruct (p c) eqn:E; [exact IH|exact E].
Qed.

Lemma forallb_rev {A} (p : A -> bool) l : forallb p (rev l) = forallb p l.
Proof.
  induction l as [|x l IH]; simpl; [reflexivity|].
  rewrite forallb_app, IH. simpl. rewrite andb_true_r. apply andb_comm.
Qed.

(** trim removes white space at the two ends and nothing else. *)
Lemma trim_spec s :
  (exists before after,
      s = before ++ trim s ++ after /\
      forallb is_white_space before = true /\
      forallb is_white_space after = true) /\
  match trim s with c :: _ => is_white_space c = false | [] => True end /\
  match rev (trim s) with c :: _ => is_white_space c = false | [] => True end.
Proof.
  unfold trim, trim_end, trim_start.
  set (p := is_white_space). set (s1 := drop_while p s).
  assert (E1 : s1 = rev (drop_while p (rev s1)) ++ rev (take_while p (rev s1))).
  { rewrite <- rev_app_distr, <- take_drop_while, rev_involutive. reflexivity. }
  split; [|split].
  - exists (take_while p s), (rev (take_while p (rev s1))).
    split; [|split].
    + rewrite <- E1. apply take_drop_while.
    + apply take_while_all.
    + rewrite forallb_rev. apply take_while_all.
  - pose proof (drop_while_head p s) as H. fold s1 in H.
    destruct (rev (drop_while p (rev s1))) as [|c t] eqn:E; [exact I|].
    rewrite E1 in H. exact H.
  - rewrite rev_involutive. apply drop_while_head.
Qed.

Lemma bind_resolves {A B} (m : M A) (k : A -> M B) w :
  resolves m -> exists a w1, tables w1 = tables w /\ bind m k w = k a w1.
Proof.
  intros H. destruct (H w) as (a & w1 & E & T).
  exists a, w1. split; [exact T|]. unfold bind. rewrite E. reflexivity.
Qed.

Ltac bind_step lem :=
  match goal with
  | |- context [bind ?m ?k ?w] =>
      let a := fresh "a" in
      let w' := fresh "w" in
      let T := fresh "T" in
      let E := fresh "E" in
      destruct (bind_resolves m k w ltac:(apply lem)) as (a & w' & T & E);
      rewrite E; clear E
  end.

(** processUser hands the writer the trimmed fullName of the row. *)
Lemma processUser_fullName sourceClient destClient user s w :
  field user "fullName" = JStr s ->
  exists userData w1,
    tables w1 = tables w /\
    processUser sourceClient destClient user w
    = insertOrUpdateUserProfileReport destClient userData w1 /\
    fullName userData = JStr (trim s) /\
    userId userData = field user "userId".
Proof.
  intros Hs. unfold processUser.
  bind_step (getCustomFields_resolves sourceClient (field user "userId")).
  bind_step (getUserLocationIds_resolves sourceClient (field user "userId")).
  bind_step getLocationNames_resolves.
  bind_step (getUserCohorts_resolves sourceClient (field user "userId")).
  bind_step (getUserTenantAndRole_resolves sourceClient (field user "userId")).
  rewrite Hs. simpl trim_method. unfold bind at 1. unfold ret at 1.
  eexists _, _. split; [|split; [reflexivity|split; reflexivity]]. congruence.
Qed.

(** C9: the fullName of a user is the first, middle and last name joined
    with single spaces (a missing part counts as empty), trimmed of the
    white space at its two ends and of nothing else, so the run of spaces
    an empty middle part leaves inside is kept: the parts Asha, empty, Rao
    are stored as "Asha  Rao" with its double space. *)
Theorem C9_full_name (sourceClient : Client) (destClient : DestClient)
    (u : value) (w : world) :
  let joined :=
    COALESCE (field u "firstName") empty ++ lit " " ++
    COALESCE (field u "middleName") empty ++ lit " " ++
    COALESCE (field u "lastName") empty in
  (exists userData w1,
      tables w1 = tables w /\
      processUser sourceClient destClient (usersQuery_row u) w
      = insertOrUpdateUserProfileReport destClient userData w1 /\
      fullName userData = JStr (trim joined)) /\
  (exists before after,
      joined = before ++ trim joined ++ after /\
      forallb is_white_space before = true /\
      forallb is_white_space after = true) /\
  match trim joined with c :: _ => is_white_space c = false | [] => True end /\
  match rev (trim joined) with c :: _ => is_white_space c = false | [] => True end /\
  usersQuery_fullName (str "Asha") (JStr empty) (str "Rao") = str "Asha  Rao" /\
  trim (lit "Asha  Rao") = lit "Asha  Rao" /\
  List.map (fun r => cell r "fullName")
    (table_rows
       (snd (migrateUserProfileReports
               (source_of usersQuery [user_row "u1" "Asha" EmptyString "Rao" "2024-01-01"]) reliable
               empty_world))
       "UserProfileReport")
  = [PValue (str "Asha  Rao")].
Proof.
  intros joined.
  split.
  { destruct (processUser_fullName sourceClient destClient (usersQuery_row u) joined w)
      as (userData & w1 & T & E & F & _).
    - unfold joined, usersQuery_row, usersQuery_fullName, CONCAT. simpl concat.
      rewrite app_nil_r. reflexivity.
    - exists userData, w1. auto. }
  destruct (trim_spec joined) as (H1 & H2 & H3).
  split; [exact H1|]. split; [exact H2|]. split; [exact H3|].
  split; [reflexivity|]. split; [reflexivity|].
  vm_compute. reflexivity.
Qed.

(** ** The destination server *)

Lemma jsstring_eqb_refl s : jsstring_eqb s s = true.
Proof. induction s as [|c s IH]; simpl; [reflexivity|]. rewrite N.eqb_refl. exact IH. Qed.

Lemma number_eqb_refl n : number_eqb n n = true.
Proof. destruct n as [|b| |q]; simpl; auto using Qeq_bool_refl. destruct b; reflexivity. Qed.

Lemma value_eqb_refl (v : value) : value_eqb v v = true.
Proof.
  revert v. fix IH 1. intros v.
  destruct v as [| |b|n|s|xs|ps]; simpl; try reflexivity.
  - destruct b; reflexivity.
  - apply number_eqb_refl.
  - apply jsstring_eqb_refl.
  - induction xs as [|x xs IHxs]; [reflexivity|].
    rewrite IH. exact IHxs.
  - induction ps as [|[k x] ps IHps]; [reflexivity|].
    rewrite jsstring_eqb_refl, IH. exact IHps.
Qed.

Lemma sql_eq_refl (v : value) : is_nullish v = false -> sql_eq (PValue v) (PValue v) = true.
Proof.
  intros H. unfold sql_eq. simpl param_eqb. rewrite value_eqb_refl.
  destruct v; simpl in *; try reflexivity; discriminate.
Qed.

Lemma prepareValue_not_nullish (v : value) :
  is_nullish v = false -> prepareValue (PValue v) = PValue v.
Proof. destruct v; simpl; try reflexivity; discriminate. Qed.

Lemma sql_eq_not_null a b : sql_eq a b = true -> is_null a = false /\ is_null b = false.
Proof.
  unfold sql_eq. intros H.
  apply andb_true_iff in H as [H _]. apply andb_true_iff in H as [Ha Hb].
  split; apply negb_true_iff; assumption.
Qed.

Lemma existsb_conflicts_not_null key proposed rs :
  existsb (conflicts key proposed) rs = true -> is_null (cell proposed key) = false.
Proof.
  intros H. apply existsb_exists in H as (r & _ & H).
  apply sql_eq_not_null in H. tauto.
Qed.

(** An upsert that meets a row with its key rewrites the rows with that
    key and appends nothing. *)
Lemma dest_query_upsert_conflict destClient t cols key assignments values
    (w : world) (tb : table) :
  fault destClient (InsertOnConflictUpdate t cols key assignments) values = None ->
  tables w !! t = Some tb ->
  unique_key tb = Some key ->
  existsb (conflicts key (proposed_row cols values)) (rows tb) = true ->
  dest_query destClient (InsertOnConflictUpdate t cols key assignments) values w
  = (Ret tt,
     World (console w)
       (<[t := Table (Some key)
          (List.map
             (fun r =>
                if conflicts key (proposed_row cols values) r
                then update_row (List.map prepareValue values)
                       (proposed_row cols values) assignments r
                else r)
             (rows tb))]> (tables w))).
Proof.
  intros Hf Ht Hk Hc. unfold dest_query. rewrite Hf. unfold exec. rewrite Ht.
  rewrite bool_decide_true by exact Hk. simpl negb. cbv iota.
  fold (proposed_row cols values).
  rewrite (existsb_conflicts_not_null _ _ _ Hc), Hc, Hk. reflexivity.
Qed.

Lemma table_rows_insert (c : list log_entry) (t : string) (tb : table)
    (db : gmap string table) :
  table_rows (World c (<[t := tb]> db)) t = rows tb.
Proof. unfold table_rows. simpl. rewrite lookup_insert_eq. reflexivity. Qed.

Ltac split_row old :=
  repeat (destruct old as [|[? ?] old]; [discriminate|]);
  destruct old; [|discriminate];
  match goal with H : List.map fst _ = _ |- _ => injection H as ?; subst end.

Ltac each_column H :=
  repeat (destruct H as [<-|H]; [vm_compute; reflexivity|]); destruct H.

Lemma UserProfileReport_update_row userData old :
  List.map fst old = UserProfileReport_columns ->
  forall c, In c UserProfileReport_columns ->
    cell (update_row (List.map prepareValue (UserProfileReport_values userData))
            (proposed_row UserProfileReport_columns (UserProfileReport_values userData))
            [("username", Dollar 2); ("fullName", Dollar 3); ("email", Dollar 4);
             ("mobile", Dollar 5); ("dob", Dollar 6); ("gender", Dollar 7);
             ("tenantId", Dollar 8); ("tenantName", Dollar 9); ("status", Dollar 10);
             ("updatedAt", Dollar 12); ("updatedBy", Dollar 14); ("roleId", Dollar 15);
             ("roleName", Dollar 16); ("customFields", Dollar 17); ("cohorts", Dollar 18);
             ("automaticMember", Dollar 19); ("state", Dollar 20); ("district", Dollar 21);
             ("block", Dollar 22); ("village", Dollar 23)]%string old) c
    = if kept_in UserProfileReport_kept c then cell old c
      else cell (proposed_row UserProfileReport_columns (UserProfileReport_values userData)) c.
Proof.
  intros Hcols c Hc. unfold UserProfileReport_columns in Hcols.
  split_row old. unfold UserProfileReport_columns in Hc.
  each_column Hc.
Qed.

Lemma DailyAttendanceReport_update_row attendance old :
  List.map fst old = AttendanceReport.DailyAttendanceReport_columns ->
  forall c, In c AttendanceReport.DailyAttendanceReport_columns ->
    cell (update_row
            (List.map prepareValue (AttendanceReport.DailyAttendanceReport_values attendance))
            (proposed_row AttendanceReport.DailyAttendanceReport_columns
               (AttendanceReport.DailyAttendanceReport_values attendance))
            [("userId", Excluded "userId"); ("cohortId", Excluded "cohortId");
             ("context", Excluded "context"); ("date", Excluded "date");
             ("status", Excluded "status"); ("metadata", Excluded "metadata");
             ("updatedAt", Excluded "updatedAt"); ("updatedBy", Excluded "updatedBy")]%string
            old) c
    = if kept_in DailyAttendanceReport_kept c then cell old c
      else cell (proposed_row AttendanceReport.DailyAttendanceReport_columns
                   (AttendanceReport.DailyAttendanceReport_values attendance)) c.
Proof.
  intros Hcols c Hc. unfold AttendanceReport.DailyAttendanceReport_columns in Hcols.
  split_row old. unfold AttendanceReport.DailyAttendanceReport_columns in Hc.
  each_column Hc.
Qed.

Lemma Forall2_upserted key cols kept proposed (f : row -> row) rs :
  Forall (fun r => List.map fst r = cols) rs ->
  (forall old, List.map fst old = cols ->
     forall c, In c cols ->
       cell (f old) c = if kept_in kept c then cell old c else cell proposed c) ->
  Forall2 (upserted key cols kept proposed) rs
    (List.map (fun r => if conflicts key proposed r then f r else r) rs).
Proof.
  intros Hall Hf. induction Hall as [|r rs Hr _ IH]; simpl; constructor; [|exact IH].
  unfold upserted. destruct (conflicts key proposed r); [|reflexivity].
  apply Hf. exact Hr.
Qed.

(** C4, amended: when the upsert meets a row with its key, that row keeps
    its key and its creation columns (createdAt, createdBy) and takes the new
    record's value in every other column; the rows with other keys are
    untouched and no row is added.  This holds for the user-profile writer
    and for the attendance writer. *)
Theorem C4_upsert_overwrites_all_but_creation (sourceClient : Client)
    (destClient : DestClient) (w : world) :
  (forall userData tb,
      let proposed :=
        proposed_row UserProfileReport_columns (UserProfileReport_values userData) in
      fault destClient UserProfileReport_upsert (UserProfileReport_values userData) = None ->
      tables w !! "UserProfileReport"%string = Some tb ->
      unique_key tb = Some "userId"%string ->
      Forall (fun r => List.map fst r = UserProfileReport_columns) (rows tb) ->
      existsb (conflicts "userId" proposed) (rows tb) = true ->
      exists w',
        insertOrUpdateUserProfileReport destClient userData w = (Ret tt, w') /\
        console w' = console w /\
        Forall2 (upserted "userId" UserProfileReport_columns UserProfileReport_kept proposed)
          (rows tb) (table_rows w' "UserProfileReport")) /\
  (forall attendance tb,
      let proposed :=
        proposed_row AttendanceReport.DailyAttendanceReport_columns
          (AttendanceReport.DailyAttendanceReport_values attendance) in
      fault destClient AttendanceReport.DailyAttendanceReport_upsert
        (AttendanceReport.DailyAttendanceReport_values attendance) = None ->
      tables w !! "DailyAttendanceReport"%string = Some tb ->
      unique_key tb = Some "attendanceId"%string ->
      Forall (fun r => List.map fst r = AttendanceReport.DailyAttendanceReport_columns)
        (rows tb) ->
      existsb (conflicts "attendanceId" proposed) (rows tb) = true ->
      exists w',
        AttendanceReport.processAttendance sourceClient destClient attendance w
        = (Ret tt, w') /\
        console w' = console w /\
        Forall2 (upserted "attendanceId" AttendanceReport.DailyAttendanceReport_columns
                   DailyAttendanceReport_kept proposed)
          (rows tb) (table_rows w' "DailyAttendanceReport")).
Proof.
  split.
  - intros userData tb proposed Hf Ht Hk Hcols Hc.
    unfold insertOrUpdateUserProfileReport, UserProfileReport_upsert.
    erewrite dest_query_upsert_conflict by eassumption.
    eexists. split; [reflexivity|]. split; [reflexivity|].
    rewrite table_rows_insert. cbn [rows].
    apply Forall2_upserted; [exact Hcols|].
    intros old Ho. apply UserProfileReport_update_row. exact Ho.
  - intros attendance tb proposed Hf Ht Hk Hcols Hc.
    unfold AttendanceReport.processAttendance, try_catch,
      AttendanceReport.DailyAttendanceReport_upsert.
    erewrite dest_query_upsert_conflict by eassumption.
    eexists. split; [reflexivity|]. split; [reflexivity|].
    rewrite table_rows_insert. cbn [rows].
    apply Forall2_upserted; [exact Hcols|].
    intros old Ho. apply DailyAttendanceReport_update_row. exact Ho.
Qed.

Lemma C4_witness :
  exists w',
    insertOrUpdateUserProfileReport reliable asha_2024_data after_first_run = (Ret tt, w') /\
    console w' = console after_first_run /\
    Forall2 (upserted "userId" UserProfileReport_columns UserProfileReport_kept
               (proposed_row UserProfileReport_columns
                  (UserProfileReport_values asha_2024_data)))
      (table_rows after_first_run "UserProfileReport")
      (table_rows w' "UserProfileReport").
Proof.
  apply (proj1 (C4_upsert_overwrites_all_but_creation (source_of EmptyString []) reliable
                  after_first_run)
           asha_2024_data
           (Table (Some "userId"%string) (table_rows after_first_run "UserProfileReport"))).
  - reflexivity.
  - vm_compute. reflexivity.
  - reflexivity.
  - vm_compute. repeat constructor.
  - vm_compute. reflexivity.
Defined.

(** C4 fails as stated: a second run with a changed record (created and
    updated on 2024-06-01) over the row written by the first run (created
    and updated on 2020-01-01) overwrites updatedAt but leaves createdAt,
    a non-key column, at the value of the first run. *)
Lemma C4_counterexample :
  let w2 :=
    snd (migrateUserProfileReports (source_of usersQuery [asha_2024]) reliable
           after_first_run) in
  field asha_2024 "createdAt" = str "2024-06-01" /\
  List.map (fun r => (cell r "userId", cell r "createdAt", cell r "updatedAt"))
    (table_rows w2 "UserProfileReport")
  = [(PValue (str "u1"), PValue (str "2020-01-01"), PValue (str "2024-06-01"));
     (PValue (str "u2"), PValue (str "2020-01-01"), PValue (str "2020-01-01"))] /\
  PValue (str "2020-01-01") <> PValue (str "2024-06-01").
Proof.
  split; [reflexivity|]. split; [vm_compute; reflexivity|]. discriminate.
Qed.

(** ** Delete-then-insert *)

Lemma delete_then_insert destClient t keycol cols (key : param) (values : list param)
    (w : world) (tb : table) :
  (forall st vs, fault destClient st vs = None) ->
  tables w !! t = Some tb ->
  unique_key tb = None ->
  bind (dest_query destClient (DeleteWhereEq t keycol) [key])
    (fun _ => dest_query destClient (Insert t cols) values) w
  = (Ret tt,
     World (console w)
       (<[t := Table None
          (List.filter (fun r => negb (sql_eq (cell r keycol) (prepareValue key))) (rows tb)
           ++ [proposed_row cols values])]> (tables w))).
Proof.
  intros Hf Ht Hk. unfold bind, dest_query. rewrite !Hf. cbn [exec List.map nth]. rewrite Ht.
  cbn [tables exec]. rewrite lookup_insert_eq. cbn [unique_key rows]. rewrite Hk.
  rewrite insert_insert_eq. reflexivity.
Qed.

Lemma filter_after_delete (p : row -> bool) rs r :
  p r = true ->
  List.filter p (List.filter (fun x => negb (p x)) rs ++ [r]) = [r].
Proof.
  intros Hr. rewrite List.filter_app. simpl. rewrite Hr.
  induction rs as [|x rs IH]; simpl; [reflexivity|].
  destruct (p x) eqn:E; simpl; [exact IH|]. rewrite E. exact IH.
Qed.

Lemma migrateScoreDetailsTable_one destClient d (w : world) (tb : table) :
  (forall st vs, fault destClient st vs = None) ->
  tables w !! "assessment_tracking_score_detail"%string = Some tb ->
  unique_key tb = None ->
  Assessment.migrateScoreDetailsTable
    (source_of "SELECT * FROM public.assessment_tracking_score_detail" [d]) destClient w
  = (Ret tt,
     World (console w)
       (<["assessment_tracking_score_detail"%string :=
          Table None
            (List.filter
               (fun r => negb (sql_eq (cell r "id") (prepareValue (PValue (field d "id")))))
               (rows tb)
             ++ [copied_row Assessment.score_detail_columns d])]> (tables w))).
Proof.
  intros Hf Ht Hk. unfold Assessment.migrateScoreDetailsTable.
  unfold bind at 1. cbn [source_query source_of query lift String.eqb Ascii.eqb Bool.eqb].
  cbn [for_of]. unfold bind at 1.
  rewrite (delete_then_insert destClient _ _ _ _ _ w tb Hf Ht Hk). reflexivity.
Qed.

Lemma migrateUserCourseDataTable_one destClient d (w : world) (tb : table) :
  (forall st vs, fault destClient st vs = None) ->
  tables w !! "user_course_certificate"%string = Some tb ->
  unique_key tb = None ->
  Course.migrateUserCourseDataTable
    (source_of "SELECT * FROM public.user_course_certificate" [d]) destClient w
  = (Ret tt,
     World (console w)
       (<["user_course_certificate"%string :=
          Table None
            (List.filter
               (fun r => negb (sql_eq (cell r "usercertificateId")
                                 (prepareValue (PValue (field d "usercertificateId")))))
               (rows tb)
             ++ [copied_row Course.user_course_certificate_columns d])]> (tables w))).
Proof.
  intros Hf Ht Hk. unfold Course.migrateUserCourseDataTable.
  unfold bind at 1. cbn [source_query source_of query lift String.eqb Ascii.eqb Bool.eqb].
  cbn [for_of]. unfold bind at 1.
  rewrite (delete_then_insert destClient _ _ _ _ _ w tb Hf Ht Hk). reflexivity.
Qed.

Lemma rows_with_key_insert c t col K rs db :
  rows_with_key (World c (<[t := Table None rs]> db)) t col K
  = List.filter (fun r => sql_eq (cell r col) (PValue K)) rs.
Proof. unfold rows_with_key. rewrite table_rows_insert. reflexivity. Qed.

(** C8: under delete-then-insert, writing two records with the same key K
    one after the other leaves exactly one row for K, and it is the second
    record.  The statement is for the score-detail writer and for the
    user-course writer, on a table without uniqueness constraint and for a
    key that is not null. *)
Theorem C8_delete_then_insert_last_wins (destClient : DestClient) (w : world)
    (tb : table) (K d1 d2 : value) :
  (forall st vs, fault destClient st vs = None) ->
  is_nullish K = false ->
  unique_key tb = None ->
  (tables w !! "assessment_tracking_score_detail"%string = Some tb ->
   field d1 "id" = K -> field d2 "id" = K ->
   let q := "SELECT * FROM public.assessment_tracking_score_detail"%string in
   let w1 := snd (Assessment.migrateScoreDetailsTable (source_of q [d1]) destClient w) in
   let w2 := snd (Assessment.migrateScoreDetailsTable (source_of q [d2]) destClient w1) in
   rows_with_key w1 "assessment_tracking_score_detail" "id" K
   = [copied_row Assessment.score_detail_columns d1] /\
   rows_with_key w2 "assessment_tracking_score_detail" "id" K
   = [copied_row Assessment.score_detail_columns d2]) /\
  (tables w !! "user_course_certificate"%string = Some tb ->
   field d1 "usercertificateId" = K -> field d2 "usercertificateId" = K ->
   let q := "SELECT * FROM public.user_course_certificate"%string in
   let w1 := snd (Course.migrateUserCourseDataTable (source_of q [d1]) destClient w) in
   let w2 := snd (Course.migrateUserCourseDataTable (source_of q [d2]) destClient w1) in
   rows_with_key w1 "user_course_certificate" "usercertificateId" K
   = [copied_row Course.user_course_certificate_columns d1] /\
   rows_with_key w2 "user_course_certificate" "usercertificateId" K
   = [copied_row Course.user_course_certificate_columns d2]).
Proof.
  intros Hf HK Hk.
  assert (Hkey1 : forall d, field d "id" = K ->
            sql_eq (cell (copied_row Assessment.score_detail_columns d) "id") (PValue K) = true).
  { intros d Hd. unfold copied_row, proposed_row, Assessment.score_detail_columns.
    cbn [List.map combine cell String.eqb Ascii.eqb Bool.eqb].
    rewrite Hd, (prepareValue_not_nullish K HK). apply sql_eq_refl, HK. }
  assert (Hkey2 : forall d, field d "usercertificateId" = K ->
            sql_eq (cell (copied_row Course.user_course_certificate_columns d)
                      "usercertificateId") (PValue K) = true).
  { intros d Hd. unfold copied_row, proposed_row, Course.user_course_certificate_columns.
    cbn [List.map combine cell String.eqb Ascii.eqb Bool.eqb].
    rewrite Hd, (prepareValue_not_nullish K HK). apply sql_eq_refl, HK. }
  split.
  - intros Ht H1 H2 q w1 w2. subst q w1 w2.
    rewrite (migrateScoreDetailsTable_one destClient d1 w tb Hf Ht Hk). cbn [snd].
    erewrite migrateScoreDetailsTable_one;
      [|exact Hf|cbn [tables]; apply lookup_insert_eq|reflexivity].
    cbn [snd console tables rows]. rewrite insert_insert_eq, !rows_with_key_insert.
    rewrite H1, H2, (prepareValue_not_nullish K HK).
    split; apply (filter_after_delete (fun r => sql_eq (cell r "id") (PValue K)));
      auto.
  - intros Ht H1 H2 q w1 w2. subst q w1 w2.
    rewrite (migrateUserCourseDataTable_one destClient d1 w tb Hf Ht Hk). cbn [snd].
    erewrite migrateUserCourseDataTable_one;
      [|exact Hf|cbn [tables]; apply lookup_insert_eq|reflexivity].
    cbn [snd console tables rows]. rewrite insert_insert_eq, !rows_with_key_insert.
    rewrite H1, H2, (prepareValue_not_nullish K HK).
    split;
      apply (filter_after_delete
               (fun r => sql_eq (cell r "usercertificateId") (PValue K)));
      auto.
Qed.

Lemma C8_witness :
  let q := "SELECT * FROM public.assessment_tracking_score_detail"%string in
  let d1 := score_detail_row "7" "A" in
  let d2 := score_detail_row "7" "B" in
  let w1 := snd (Assessment.migrateScoreDetailsTable (source_of q [d1]) reliable
                   assessment_destination) in
  let w2 := snd (Assessment.migrateScoreDetailsTable (source_of q [d2]) reliable w1) in
  rows_with_key w1 "assessment_tracking_score_detail" "id" (str "7")
  = [copied_row Assessment.score_detail_columns d1] /\
  rows_with_key w2 "assessment_tracking_score_detail" "id" (str "7")
  = [copied_row Assessment.score_detail_columns d2].
Proof.
  apply (proj1 (C8_delete_then_insert_last_wins reliable assessment_destination
                  (Table None []) (str "7") (score_detail_row "7" "A")
                  (score_detail_row "7" "B")
                  (fun _ _ => eq_refl) eq_refl eq_refl)).
  - vm_compute. reflexivity.
  - reflexivity.
  - reflexivity.
Defined.

(** ** Batch runners *)

Lemma for_of_throw {A} (x : A) (rest : list A) (body : A -> M unit) w e w' :
  body x w = (Throw e, w') -> for_of (x :: rest) body w = (Throw e, w').
Proof. intros H. cbn [for_of]. unfold bind. rewrite H. reflexivity. Qed.

(** The attendance row function catches what its write raises. *)
Lemma processAttendance_never_raises sourceClient destClient attendance w :
  exists w', AttendanceReport.processAttendance sourceClient destClient attendance w
             = (Ret tt, w').
Proof.
  unfold AttendanceReport.processAttendance, try_catch.
  destruct (dest_query destClient _ _ w) as [[[]|e] w1]; [eauto|].
  unfold console_error, console_log. eauto.
Qed.

(** The attendance loop therefore visits every row. *)
Lemma attendance_loop_completes sourceClient destClient rows w :
  exists w',
    for_of rows (AttendanceReport.processAttendance sourceClient destClient) w
    = (Ret tt, w').
Proof.
  revert w. induction rows as [|a rows IH]; intros w; [eexists; reflexivity|].
  cbn [for_of]. unfold bind.
  destruct (processAttendance_never_raises sourceClient destClient a w) as (w1 & ->).
  apply IH.
Qed.

(** So does the cohort row function, around its lookups and its write. *)
Lemma processCohort_never_raises sourceClient destClient cohort w :
  exists w', CohortSummaryReport.processCohort sourceClient destClient cohort w
             = (Ret tt, w').
Proof.
  unfold CohortSummaryReport.processCohort, try_catch.
  match goal with
  | |- context [bind ?m ?k w] => destruct (bind m k w) as [[[]|e] w1]
  end; [eauto|].
  unfold console_error, console_log. eauto.
Qed.

(** A user row whose write is refused ends the user loop: the rows after
    it are not processed and the table is as it was. *)
Lemma user_loop_stops sourceClient destClient user rest s e w :
  field user "fullName" = JStr s ->
  (forall values,
      nth 0 values (PValue JNull) = PValue (field user "userId") ->
      fault destClient UserProfileReport_upsert values = Some e) ->
  exists w',
    for_of (user :: rest) (processUser sourceClient destClient) w = (Throw e, w') /\
    tables w' = tables w.
Proof.
  intros Hs Hf.
  destruct (processUser_fullName sourceClient destClient user s w Hs)
    as (userData & w1 & T & E & _ & U).
  exists w1. split; [|exact T].
  apply for_of_throw. rewrite E.
  unfold insertOrUpdateUserProfileReport, dest_query.
  rewrite Hf; [reflexivity|]. cbn [UserProfileReport_values nth]. rewrite U. reflexivity.
Qed.

(** C1, on the code: the user-profile batch and the assessment batch have
    no handler around the processing of one row.  With two source rows and
    a destination that refuses the write of the first, the error reaches
    the handler of the whole run and the second row is never written; the
    attendance batch and the cohort batch, whose row functions have their
    own handler, log the failure and write the second row. *)
Theorem C1_failed_write_ends_the_batch :
  keys "userId"
    (table_rows (snd (migrateUserProfileReports users_source reliable empty_world))
       "UserProfileReport")
  = [PValue (str "u1"); PValue (str "u2")] /\
  table_rows (snd (migrateUserProfileReports users_source (refusing "u1") empty_world))
    "UserProfileReport"
  = [] /\
  console (snd (migrateUserProfileReports users_source (refusing "u1") empty_world))
  = [Log Err "[USER REPORT] Error during migration:"
       [str "invalid input syntax for type uuid"]] /\
  keys "assessmentTrackingId"
    (table_rows
       (snd (Assessment.migrateAssessments offline assessment_source reliable
               assessment_destination))
       "assessment_tracking")
  = [PValue (str "t1"); PValue (str "t2")] /\
  table_rows
    (snd (Assessment.migrateAssessments offline assessment_source (refusing "t1")
            assessment_destination))
    "assessment_tracking"
  = [] /\
  keys "attendanceId"
    (table_rows
       (snd (AttendanceReport.migrateAttendanceReports attendance_source (refusing "a1")
               empty_world))
       "DailyAttendanceReport")
  = [PValue (str "a2")] /\
  console
    (snd (AttendanceReport.migrateAttendanceReports attendance_source (refusing "a1")
            empty_world))
  = [Log Err "[ATTENDANCE REPORT] Error processing attendance record"
       [str "a1"; str "invalid input syntax for type uuid"]] /\
  keys "cohortId"
    (table_rows
       (snd (CohortSummaryReport.migrateCohortSummaryReports cohort_source
               (refusing "k1") empty_world))
       "CohortSummaryReport")
  = [PValue (str "k2")].
Proof. repeat split; vm_compute; reflexivity. Qed.

(** ** Transformers *)

Lemma js_or_null_defined v : js_or v JNull <> JUndefined.
Proof.
  unfold js_or. destruct (ToBoolean v) eqn:E; [|discriminate].
  intros ->. discriminate E.
Qed.

(** The assessment transformer defaults every enrichment field to null. *)
Lemma assessment_values_enrichment_defined assessment apiData :
  Forall (fun p => p <> PValue JUndefined)
    (skipn 13 (Assessment.assessment_values assessment apiData)).
Proof.
  unfold Assessment.assessment_values. cbn [skipn].
  repeat (constructor;
          [first [intros [= H]; exact (js_or_null_defined _ H) | discriminate]|]).
  constructor.
Qed.

(** C5, on the code: for the empty enrichment result, which fetchCourseData
    answers for every failed lookup, mapContentToCourseEntity defaults the
    five list fields to the empty array but leaves the scalar fields
    courseDoId, courseName and channel undefined; the assessment
    transformer defaults its enrichment scalars to null. *)
Theorem C5_course_scalars_left_undefined (w : world) :
  result (Course.fetchCourseData offline (str "c1")) w = Ret (JObj []) /\
  result (Course.mapContentToCourseEntity (JObj [])) w
  = Ret {| Course.courseDoId := JUndefined;
           Course.courseName := JUndefined;
           Course.channel := JUndefined;
           Course.language := JArr [];
           Course.program := JArr [];
           Course.primaryUser := JArr [];
           Course.targetAgeGroup := JArr [];
           Course.keywords := JArr [];
           Course.details := JObj [] |} /\
  (forall assessment apiData,
      Forall (fun p => p <> PValue JUndefined)
        (skipn 13 (Assessment.assessment_values assessment apiData))).
Proof.
  split; [reflexivity|]. split; [reflexivity|].
  exact assessment_values_enrichment_defined.
Qed.

(** ** Re-running a batch *)

Lemma filter_not_null_key col rs :
  List.filter (fun r : row => negb (sql_eq (cell r col) (PValue JNull))) rs = rs.
Proof.
  induction rs as [|r rs IH]; simpl; [reflexivity|].
  replace (sql_eq (cell r col) (PValue JNull)) with false.
  - simpl. f_equal. exact IH.
  - unfold sql_eq. simpl. rewrite andb_false_r. reflexivity.
Qed.

Lemma fetchCourseData_failed axios courseId e w :
  get axios courseId = Throw e ->
  exists w1, Course.fetchCourseData axios courseId w = (Ret (JObj []), w1) /\
             tables w1 = tables w.
Proof.
  intros Hg.
  destruct (fetchCourseData_resolves axios courseId w) as (a & w1 & E & T).
  pose proof (fetchCourseData_result axios courseId w) as R.
  unfold result in R. rewrite E, Hg in R. simpl in R. injection R as ->.
  exists w1. split; assumption.
Qed.

(** Every run of the course batch over a course whose lookup fails adds a
    row without key to a course table that has no uniqueness constraint:
    the DELETE compares with NULL and removes nothing. *)
Lemma course_run_appends destClient axios courseRow e (w : world) (tb : table) :
  (forall st vs, fault destClient st vs = None) ->
  tables w !! "course"%string = Some tb ->
  unique_key tb = None ->
  get axios (field courseRow "courseId") = Throw e ->
  exists w',
    Course.migrateCourseTable axios
      (source_of "SELECT DISTINCT courseId FROM public.user_course_certificate"
         [courseRow])
      destClient w
    = (Ret tt, w') /\
    tables w' = <["course"%string := Table None (rows tb ++ [course_row_without_key])]>
                  (tables w).
Proof.
  intros Hf Ht Hk Hg. unfold Course.migrateCourseTable.
  unfold bind at 1. cbn [source_query source_of query lift String.eqb Ascii.eqb Bool.eqb].
  cbn [for_of]. unfold bind at 1. unfold bind at 1.
  destruct (fetchCourseData_failed axios _ e w Hg) as (w1 & -> & T).
  unfold bind at 1. cbn [Course.mapContentToCourseEntity].
  change (Course.mapContentToCourseEntity (JObj []) w1)
    with (Ret {| Course.courseDoId := JUndefined; Course.courseName := JUndefined;
                 Course.channel := JUndefined; Course.language := JArr [];
                 Course.program := JArr []; Course.primaryUser := JArr [];
                 Course.targetAgeGroup := JArr []; Course.keywords := JArr [];
                 Course.details := JObj [] |}, w1).
  cbv iota beta.
  rewrite <- T in Ht.
  rewrite (delete_then_insert destClient _ _ _ _ _ w1 tb Hf Ht Hk).
  eexists. split; [reflexivity|].
  cbn [tables prepareValue]. rewrite filter_not_null_key, T. reflexivity.
Qed.

(** C3, on the code: the course batch is not idempotent when a lookup
    fails.  The failed lookup gives the empty object, the record gets an
    undefined key, which is sent as NULL; the DELETE compares with NULL
    and removes nothing, and the INSERT adds one more row.  A second run
    against the same source and the same (failing) enrichment leaves two
    rows where the first run left one.  The user-profile batch, which
    upserts, leaves the same tables after its second run. *)
Theorem C3_course_rerun_adds_a_row :
  let w1 := snd (Course.migrateCourses offline course_source reliable
                   assessment_destination) in
  let w2 := snd (Course.migrateCourses offline course_source reliable w1) in
  keys "course_do_id" (table_rows w1 "course") = [PValue JNull] /\
  keys "course_do_id" (table_rows w2 "course") = [PValue JNull; PValue JNull] /\
  tables w2 <> tables w1 /\
  tables (snd (migrateUserProfileReports users_source reliable after_first_run))
  = tables after_first_run.
Proof.
  intros w1 w2.
  assert (H1 : keys "course_do_id" (table_rows w1 "course") = [PValue JNull])
    by (vm_compute; reflexivity).
  assert (H2 : keys "course_do_id" (table_rows w2 "course") = [PValue JNull; PValue JNull])
    by (vm_compute; reflexivity).
  split; [exact H1|]. split; [exact H2|]. split.
  - intros E. unfold table_rows in H1, H2. rewrite E in H2. rewrite H1 in H2.
    discriminate H2.
  - vm_compute. reflexivity.
Qed.

(** ** Re-invoking the upsert writer *)

Lemma param_eqb_refl p : param_eqb p p = true.
Proof. destruct p; simpl; apply value_eqb_refl. Qed.

Lemma conflicts_self key (r : row) :
  is_null (cell r key) = false -> conflicts key r r = true.
Proof.
  intros H. unfold conflicts, sql_eq. rewrite H, param_eqb_refl. reflexivity.
Qed.

Lemma map_no_conflict key proposed (f : row -> row) rs :
  existsb (conflicts key proposed) rs = false ->
  List.map (fun r => if conflicts key proposed r then f r else r) rs = rs.
Proof.
  induction rs as [|r rs IH]; simpl; [reflexivity|].
  intros H. apply orb_false_iff in H as [Hr Hrs].
  rewrite Hr, IH by exact Hrs. reflexivity.
Qed.

Lemma existsb_map_conflict key proposed (f : row -> row) rs :
  (forall r, In r rs -> conflicts key proposed r = true ->
             conflicts key proposed (f r) = true) ->
  existsb (conflicts key proposed) rs = true ->
  existsb (conflicts key proposed)
    (List.map (fun r => if conflicts key proposed r then f r else r) rs) = true.
Proof.
  intros Hf H. apply existsb_exists in H as (r & Hin & Hr).
  apply existsb_exists. exists (f r). split; [|apply Hf; assumption].
  apply in_map_iff. exists r. rewrite Hr. auto.
Qed.

Lemma map_update_twice key proposed (f : row -> row) rs :
  (forall r, In r rs -> conflicts key proposed r = true ->
             conflicts key proposed (f r) = true /\ f (f r) = f r) ->
  let F := fun r => if conflicts key proposed r then f r else r in
  List.map F (List.map F rs) = List.map F rs.
Proof.
  intros Hf F. rewrite List.map_map. apply List.map_ext_in. intros r Hin.
  unfold F. destruct (conflicts key proposed r) eqn:E.
  - destruct (Hf r Hin E) as [-> ->]. reflexivity.
  - rewrite E. reflexivity.
Qed.

Section UserProfileUpsert.

Variable userData : UserData.

Let values := List.map prepareValue (UserProfileReport_values userData).
Let proposed := proposed_row UserProfileReport_columns (UserProfileReport_values userData).
Let assignments : list (string * sql_expr) :=
  [("username", Dollar 2); ("fullName", Dollar 3); ("email", Dollar 4);
   ("mobile", Dollar 5); ("dob", Dollar 6); ("gender", Dollar 7);
   ("tenantId", Dollar 8); ("tenantName", Dollar 9); ("status", Dollar 10);
   ("updatedAt", Dollar 12); ("updatedBy", Dollar 14); ("roleId", Dollar 15);
   ("roleName", Dollar 16); ("customFields", Dollar 17); ("cohorts", Dollar 18);
   ("automaticMember", Dollar 19); ("state", Dollar 20); ("district", Dollar 21);
   ("block", Dollar 22); ("village", Dollar 23)]%string.

(** Updating the proposed row with its own values changes nothing. *)
Lemma update_proposed : update_row values proposed assignments proposed = proposed.
Proof. vm_compute. reflexivity. Qed.

(** The update keeps the key of the row and is absorbed by a second
    update with the same values. *)
Lemma update_absorbed old :
  List.map fst old = UserProfileReport_columns ->
  cell (update_row values proposed assignments old) "userId" = cell old "userId" /\
  update_row values proposed assignments (update_row values proposed assignments old)
  = update_row values proposed assignments old.
Proof.
  intros Hcols. unfold UserProfileReport_columns in Hcols. split_row old.
  split; vm_compute; reflexivity.
Qed.

(** Re-invocation with the identical record is a no-op: the world the
    first call leaves is the world the second call leaves. *)
Lemma insertOrUpdateUserProfileReport_again destClient (w w1 : world) (tb : table) :
  tables w !! "UserProfileReport"%string = Some tb ->
  Forall (fun r => List.map fst r = UserProfileReport_columns) (rows tb) ->
  insertOrUpdateUserProfileReport destClient userData w = (Ret tt, w1) ->
  insertOrUpdateUserProfileReport destClient userData w1 = (Ret tt, w1).
Proof.
  intros Ht Hcols H.
  unfold insertOrUpdateUserProfileReport, dest_query, UserProfileReport_upsert in *.
  destruct (fault destClient _ _) as [e|]; [discriminate|].
  unfold exec in *. rewrite Ht in H.
  fold values proposed assignments in H |- *.
  change (combine UserProfileReport_columns values) with proposed in H |- *.
  destruct (bool_decide (unique_key tb = Some "userId"%string)) eqn:Hk;
    cbn [negb] in H; [|discriminate].
  apply bool_decide_eq_true in Hk.
  destruct (is_null (cell proposed "userId")) eqn:Hn; [discriminate|].
  destruct (existsb (conflicts "userId" proposed) (rows tb)) eqn:Hc;
    apply (f_equal snd) in H; cbn [snd] in H; subst w1;
    cbn [tables console]; rewrite lookup_insert_eq; cbn [unique_key rows];
    rewrite Hk, bool_decide_true by reflexivity; cbn [negb].
  - assert (Hf : forall r, In r (rows tb) -> conflicts "userId" proposed r = true ->
              conflicts "userId" proposed (update_row values proposed assignments r) = true
              /\ update_row values proposed assignments
                   (update_row values proposed assignments r)
                 = update_row values proposed assignments r).
    { intros r Hin Hr.
      pose proof (proj1 (List.Forall_forall _ _) Hcols r Hin) as Hr_cols.
      destruct (update_absorbed r Hr_cols) as [Hkey Habs].
      split; [|exact Habs]. unfold conflicts in *. rewrite Hkey. exact Hr. }
    rewrite existsb_map_conflict; [|intros r Hin Hr; apply (Hf r Hin Hr)|exact Hc].
    rewrite (map_update_twice "userId" proposed _ (rows tb) Hf).
    rewrite insert_insert_eq. reflexivity.
  - rewrite existsb_app. cbn [existsb].
    rewrite (conflicts_self "userId" proposed Hn), orb_true_r.
    rewrite List.map_app. cbn [List.map].
    rewrite (conflicts_self "userId" proposed Hn), update_proposed.
    rewrite map_no_conflict by exact Hc.
    rewrite insert_insert_eq. reflexivity.
Qed.

End UserProfileUpsert.

(** * Further properties of the scripts *)

(** ** The field extractor on strings and its warning *)

Lemma match_digits_run (before run after : jsstring) c rest :
  forallb (fun c => negb (is_digit c)) before = true ->
  run = c :: rest ->
  forallb is_digit run = true ->
  match after with c :: _ => is_digit c = false | [] => True end ->
  match_digits (before ++ run ++ after) = Some [run].
Proof.
  intros Hb -> Hr Ha. induction before as [|b before IH]; simpl in *.
  - apply andb_true_iff in Hr as [Hc Hrest]. rewrite Hc. do 2 f_equal. f_equal.
    clear Hc. induction rest as [|d rest IH]; simpl in *.
    + destruct after as [|a after]; [reflexivity|]. simpl. rewrite Ha. reflexivity.
    + apply andb_true_iff in Hrest as [Hd Hrest]. rewrite Hd. f_equal. auto.
  - apply andb_true_iff in Hb as [Hb1 Hb2].
    destruct (is_digit b); [discriminate|]. auto.
Qed.

Lemma take_while_all_digits run :
  forallb is_digit run = true -> take_while is_digit run = run.
Proof.
  induction run as [|c run IH]; simpl; [reflexivity|].
  intros H. apply andb_true_iff in H as [-> H]. f_equal. auto.
Qed.

(** X1: for a string that holds a digit, the extractor returns the Number
    value of the integer spelled by the leftmost maximal run of digits, the
    double nearest to it, and logs nothing; whatever stands before the run
    (a brace, a sign, letters) and after it is ignored.  A run that spells
    an integer up to 2^53 gives exactly that integer. *)
Theorem X1_extract_leftmost_digit_run (before run after : jsstring) (w : world) :
  forallb (fun c => negb (is_digit c)) before = true ->
  run <> [] ->
  forallb is_digit run = true ->
  match after with c :: _ => is_digit c = false | [] => True end ->
  extractIdFromValue (JStr (before ++ run ++ after)) w
  = (Ret (JNum (number_of_integer false (digits_value run))), w) /\
  (digits_value run <= 2 ^ 53 ->
   extractIdFromValue (JStr (before ++ run ++ after)) w
   = (Ret (int (digits_value run)), w)).
Proof.
  intros Hb Hne Hr Ha. destruct run as [|c rest]; [contradiction|].
  assert (E : extractIdFromValue (JStr (before ++ (c :: rest) ++ after)) w
              = (Ret (JNum (number_of_integer false (digits_value (c :: rest)))), w)).
  { unfold extractIdFromValue.
    assert (Ht : ToBoolean (JStr (before ++ (c :: rest) ++ after)) = true).
    { destruct before; reflexivity. }
    rewrite Ht. cbn [negb typeof jstype_eqb array_branch string_branch].
    rewrite (match_digits_run before (c :: rest) after c rest Hb eq_refl Hr Ha).
    pose proof Hr as Hr'. simpl in Hr'. apply andb_true_iff in Hr' as [Hc Hrest].
    rewrite <- (take_while_all_digits rest Hrest) at 1.
    rewrite (parseInt_digit_run c rest Hc), (take_while_all_digits rest Hrest).
    reflexivity. }
  split; [exact E|]. intros Hs. rewrite E. unfold number_of_integer.
  rewrite (nearest_double_exact _ Hs). reflexivity.
Qed.

Lemma X1_witness :
  extractIdFromValue (str "id-{0042};7") empty_world = (Ret (int 42), empty_world) /\
  extractIdFromValue (str "9007199254740993") empty_world
  = (Ret (int 9007199254740992), empty_world).
Proof.
  split.
  - apply (proj2 (X1_extract_leftmost_digit_run (lit "id-{") (lit "0042") (lit "};7")
                    empty_world eq_refl ltac:(discriminate) eq_refl eq_refl)).
    vm_compute. discriminate.
  - apply (proj1 (X1_extract_leftmost_digit_run [] (lit "9007199254740993") []
                    empty_world eq_refl ltac:(discriminate) eq_refl I)).
Defined.

Lemma world_eta (w : world) : World (console w ++ []) (tables w) = w.
Proof. destruct w. simpl. rewrite app_nil_r. reflexivity. Qed.

Lemma extractIdFromValue_effect (v : value) (w : world) :
  exists r,
    extractIdFromValue v w
    = (Ret r,
       World (console w ++
              if ToBoolean v && is_nullish r
              then [Log Warn "[USER REPORT] Could not extract ID from value: " [v]]
              else [])
         (tables w)).
Proof.
  unfold extractIdFromValue.
  destruct (ToBoolean v) eqn:Ht; cbn [negb andb].
  2:{ exists JNull. rewrite world_eta. reflexivity. }
  destruct (jstype_eqb (typeof v) TNumber) eqn:Hn.
  { exists v. destruct v; try discriminate. cbn [is_nullish]. rewrite world_eta. reflexivity. }
  destruct (array_branch v) as [id|] eqn:Ha.
  { exists id.
    assert (is_nullish id = false) as ->.
    { destruct v as [| | | | |[|x xs]|]; try discriminate.
      simpl in Ha. destruct x; try discriminate.
      - injection Ha as <-. reflexivity.
      - destruct (negb (isNaN s)); [injection Ha as <-; reflexivity|discriminate]. }
    rewrite world_eta. reflexivity. }
  destruct (string_branch v) as [id|] eqn:Hs.
  { exists id.
    assert (is_nullish id = false) as ->.
    { destruct v; try discriminate. simpl in Hs.
      destruct (match_digits s) as [[|m ms]|].
      - destruct (negb (isNaN s)); [injection Hs as <-; reflexivity|discriminate].
      - injection Hs as <-. reflexivity.
      - destruct (negb (isNaN s)); [injection Hs as <-; reflexivity|discriminate]. }
    rewrite world_eta. reflexivity. }
  exists JNull. reflexivity.
Qed.

(** X2: the extractor never touches the destination, and it logs its
    warning exactly when it gives null for a truthy input; a falsy input
    and every input that yields a number leave the console as it was. *)
Theorem X2_extract_warns_iff_unreadable (v : value) (w : world) :
  exists r,
    extractIdFromValue v w
    = (Ret r,
       World (console w ++
              if ToBoolean v && is_nullish r
              then [Log Warn "[USER REPORT] Could not extract ID from value: " [v]]
              else [])
         (tables w)).
Proof. apply extractIdFromValue_effect. Qed.

Lemma extractIdFromValue_extracted v w :
  exists w', extractIdFromValue v w = (Ret (extracted v), w') /\ tables w' = tables w.
Proof.
  destruct (extractIdFromValue_effect v w) as (r & E).
  destruct (extractIdFromValue_effect v empty_world) as (r0 & E0).
  assert (r = r0).
  { revert E E0. unfold extractIdFromValue.
    destruct (negb (ToBoolean v)); [intros [= <-] [= <-]; reflexivity|].
    destruct (jstype_eqb (typeof v) TNumber); [intros [= <-] [= <-]; reflexivity|].
    destruct (array_branch v); [intros [= <-] [= <-]; reflexivity|].
    destruct (string_branch v); [intros [= <-] [= <-]; reflexivity|].
    unfold bind, console_warn, console_log, ret. intros [= <-] [= <-]. reflexivity. }
  subst r0. unfold extracted, result. rewrite E0. cbn [fst].
  rewrite E. eexists. split; reflexivity.
Qed.

(** ** Location lookups *)

Lemma getLocationName_result client id tableName idColumn nameColumn w :
  result (getLocationName client id tableName idColumn nameColumn) w
  = Ret (location_name client id tableName idColumn nameColumn).
Proof.
  unfold result, getLocationName, location_name.
  destruct (ToBoolean id) eqn:Hid; cbn [negb].
  2:{ unfold extracted, result. rewrite extractIdFromValue_falsy by exact Hid.
      reflexivity. }
  destruct (extractIdFromValue_extracted id w) as (w1 & E & _).
  unfold bind at 1. rewrite E.
  destruct (ToBoolean (extracted id)); cbn [negb]; [|reflexivity].
  unfold try_catch, bind, source_query, lift, location_query.
  destruct (query client _ [extracted id]) as [[|row rows]|e]; reflexivity.
Qed.

Lemma cohort_getLocationName_result client id tableName idColumn nameColumn w :
  result (CohortSummaryReport.getLocationName client id tableName idColumn nameColumn) w
  = Ret (location_name client id tableName idColumn nameColumn).
Proof.
  unfold result, CohortSummaryReport.getLocationName, location_name.
  destruct (ToBoolean id) eqn:Hid; cbn [negb].
  2:{ unfold extracted, result. rewrite extractIdFromValue_falsy by exact Hid.
      reflexivity. }
  destruct (extractIdFromValue_extracted id w) as (w1 & E & _).
  unfold bind at 1. rewrite E.
  destruct (ToBoolean (extracted id)); cbn [negb]; [|reflexivity].
  unfold try_catch, bind, source_query, lift, location_query.
  destruct (query client _ [extracted id]) as [[|row rows]|e]; reflexivity.
Qed.

(** X3: a location lookup answers null without consulting the table when
    the attribute value yields no truthy identifier; otherwise it queries
    with the extracted identifier and answers the name column of the first
    row, or null when the query fails or has no row.  The answer does not
    depend on the world, and the two scripts' copies agree. *)
Theorem X3_location_lookup (client : Client) (id : value)
    (tableName idColumn nameColumn : string) (w : world) :
  result (getLocationName client id tableName idColumn nameColumn) w
  = Ret (location_name client id tableName idColumn nameColumn) /\
  result (CohortSummaryReport.getLocationName client id tableName idColumn nameColumn) w
  = Ret (location_name client id tableName idColumn nameColumn).
Proof.
  split; [apply getLocationName_result|apply cohort_getLocationName_result].
Qed.

Lemma bind_result {A B} (m : M A) (k : A -> M B) (w : world) (a : A) :
  resolves m -> result m w = Ret a ->
  exists w1, tables w1 = tables w /\ bind m k w = k a w1.
Proof.
  intros Hm Hr. destruct (Hm w) as (a' & w1 & E & T).
  unfold result in Hr. rewrite E in Hr. injection Hr as ->.
  exists w1. split; [exact T|]. unfold bind. rewrite E. reflexivity.
Qed.

Ltac bind_with res rs :=
  match goal with
  | |- context [bind ?m ?k ?w] =>
      let w' := fresh "w" in
      let T := fresh "T" in
      let E := fresh "E" in
      destruct (bind_result m k w _ ltac:(apply res) ltac:(apply rs)) as (w' & T & E);
      rewrite E; clear E
  end.

(** X4: the four location names of a record are resolved one by one and
    independently: each is the answer of its own lookup, so a failed or
    empty lookup nulls its own name only. *)
Theorem X4_location_names_independent (client : Client) (locationIds : LocationIds)
    (w : world) :
  result (getLocationNames client locationIds) w
  = Ret {| stateName :=
             location_name client (stateId locationIds) "state" "state_id" "state_name";
           districtName :=
             location_name client (districtId locationIds) "district" "district_id"
               "district_name";
           blockName :=
             location_name client (blockId locationIds) "block" "block_id" "block_name";
           villageName :=
             location_name client (villageId locationIds) "village" "village_id"
               "village_name" |} /\
  result (CohortSummaryReport.getLocationNames client locationIds) w
  = result (getLocationNames client locationIds) w.
Proof.
  assert (H1 : result (getLocationNames client locationIds) w
    = Ret {| stateName :=
             location_name client (stateId locationIds) "state" "state_id" "state_name";
           districtName :=
             location_name client (districtId locationIds) "district" "district_id"
               "district_name";
           blockName :=
             location_name client (blockId locationIds) "block" "block_id" "block_name";
           villageName :=
             location_name client (villageId locationIds) "village" "village_id"
               "village_name" |}).
  { unfold result, getLocationNames.
    bind_with getLocationName_resolves getLocationName_result.
    bind_with getLocationName_resolves getLocationName_result.
    bind_with getLocationName_resolves getLocationName_result.
    bind_with getLocationName_resolves getLocationName_result.
    reflexivity. }
  split; [exact H1|]. rewrite H1.
  unfold result, CohortSummaryReport.getLocationNames.
  bind_with cohort_getLocationName_resolves cohort_getLocationName_result.
  bind_with cohort_getLocationName_resolves cohort_getLocationName_result.
  bind_with cohort_getLocationName_resolves cohort_getLocationName_result.
  bind_with cohort_getLocationName_resolves cohort_getLocationName_result.
  reflexivity.
Qed.

(** ** Attribute-store lookups *)

Lemma jsstring_eqb_eq a b : jsstring_eqb a b = true <-> a = b.
Proof.
  revert b. induction a as [|x a IH]; intros [|y b]; simpl; split; try discriminate;
    try reflexivity.
  - intros H. apply andb_true_iff in H as [H1 H2].
    apply N.eqb_eq in H1. apply IH in H2. congruence.
  - intros [= -> ->]. rewrite N.eqb_refl. apply IH. reflexivity.
Qed.

Lemma has_prop_false k ps : has_prop k ps = false -> own_property k ps = None.
Proof.
  unfold has_prop. induction ps as [|[k0 v0] ps IH]; simpl; [reflexivity|].
  destruct (jsstring_eqb k k0); [discriminate|]. exact IH.
Qed.


Lemma own_property_other k k' ps :
  jsstring_eqb k k' = true -> has_prop k' ps = false -> own_property k ps = None.
Proof. intros E H. apply jsstring_eqb_eq in E. subst k'. apply has_prop_false, H. Qed.





Lemma find_rev_cons {A} (p : A -> bool) x xs :
  List.find p (rev (x :: xs))
  = match List.find p (rev xs) with
    | Some y => Some y
    | None => if p x then Some x else None
    end.
Proof.
  simpl. induction (rev xs) as [|y ys IH]; simpl; [reflexivity|].
  destruct (p y); [reflexivity|exact IH].
Qed.
















Lemma strict_eq_string_distinct v a b :
  strict_eq_string v a = true -> jsstring_eqb (lit a) (lit b) = false ->
  strict_eq_string v b = false.
Proof.
  destruct v; simpl; try discriminate. intros H Hab.
  apply jsstring_eqb_eq in H. subst s. exact Hab.
Qed.

Lemma location_step_fields locations row :
  stateId (location_step locations row)
  = (if strict_eq_string (field row "fieldId") STATE then field row "value"
     else stateId locations) /\
  districtId (location_step locations row)
  = (if strict_eq_string (field row "fieldId") DISTRICT then field row "value"
     else districtId locations) /\
  blockId (location_step locations row)
  = (if strict_eq_string (field row "fieldId") BLOCK then field row "value"
     else blockId locations) /\
  villageId (location_step locations row)
  = (if strict_eq_string (field row "fieldId") VILLAGE then field row "value"
     else villageId locations).
Proof.
  unfold location_step.
  destruct (strict_eq_string (field row "fieldId") STATE) eqn:E1.
  { rewrite (strict_eq_string_distinct _ STATE DISTRICT E1 eq_refl),
      (strict_eq_string_distinct _ STATE BLOCK E1 eq_refl),
      (strict_eq_string_distinct _ STATE VILLAGE E1 eq_refl). auto. }
  destruct (strict_eq_string (field row "fieldId") DISTRICT) eqn:E2.
  { rewrite (strict_eq_string_distinct _ DISTRICT BLOCK E2 eq_refl),
      (strict_eq_string_distinct _ DISTRICT VILLAGE E2 eq_refl). auto. }
  destruct (strict_eq_string (field row "fieldId") BLOCK) eqn:E3.
  { rewrite (strict_eq_string_distinct _ BLOCK VILLAGE E3 eq_refl). auto. }
  destruct (strict_eq_string (field row "fieldId") VILLAGE); auto.
Qed.

Lemma location_fold rows locations :
  fold_left location_step rows locations
  = {| stateId :=
         match last_row_with (fun row => strict_eq_string (field row "fieldId") STATE) rows with
         | Some row => field row "value" | None => stateId locations end;
       districtId :=
         match last_row_with (fun row => strict_eq_string (field row "fieldId") DISTRICT) rows with
         | Some row => field row "value" | None => districtId locations end;
       blockId :=
         match last_row_with (fun row => strict_eq_string (field row "fieldId") BLOCK) rows with
         | Some row => field row "value" | None => blockId locations end;
       villageId :=
         match last_row_with (fun row => strict_eq_string (field row "fieldId") VILLAGE) rows with
         | Some row => field row "value" | None => villageId locations end |}.
Proof.
  unfold last_row_with. revert locations.
  induction rows as [|r rows IH]; intros locations.
  - destruct locations; reflexivity.
  - cbn [fold_left]. rewrite IH, !find_rev_cons.
    destruct (location_step_fields locations r) as (-> & -> & -> & ->).
    f_equal;
      match goal with
      | |- context [List.find ?p (rev rows)] => destruct (List.find p (rev rows))
      end; try reflexivity;
      match goal with
      | |- context [strict_eq_string ?a ?b] => destruct (strict_eq_string a b)
      end; reflexivity.
Qed.

(** X6: the location identifiers of an item are read off the attribute
    rows by field id: each of the four identifiers is the value of the last
    row carrying its field id and null when no row does; rows with any
    other field id are ignored, and a failed query gives four nulls.  The
    cohort script's copy gives the same answer. *)
Theorem X6_location_ids_by_field_id (client : Client) (itemId : value) (w : world) :
  let rows :=
    answered client
      "SELECT fieldId, value FROM FieldValues WHERE itemId = $1 AND fieldId = ANY($2)"
      [itemId; JArr [str STATE; str DISTRICT; str BLOCK; str VILLAGE]] in
  result (getUserLocationIds client itemId) w
  = Ret {| stateId := last_value STATE rows;
           districtId := last_value DISTRICT rows;
           blockId := last_value BLOCK rows;
           villageId := last_value VILLAGE rows |} /\
  result (CohortSummaryReport.getCohortLocationIds client itemId) w
  = result (getUserLocationIds client itemId) w.
Proof.
  intros rows.
  assert (H : result (getUserLocationIds client itemId) w
              = Ret {| stateId := last_value STATE rows;
                       districtId := last_value DISTRICT rows;
                       blockId := last_value BLOCK rows;
                       villageId := last_value VILLAGE rows |}).
  { unfold result, getUserLocationIds.
    bind_with safeQuery_resolves safeQuery_result.
    change (Ret (fold_left location_step rows
                   {| stateId := JNull; districtId := JNull;
                      blockId := JNull; villageId := JNull |})
            = Ret {| stateId := last_value STATE rows;
                     districtId := last_value DISTRICT rows;
                     blockId := last_value BLOCK rows;
                     villageId := last_value VILLAGE rows |}).
    rewrite location_fold. reflexivity. }
  split; [exact H|]. rewrite H.
  unfold result, CohortSummaryReport.getCohortLocationIds.
  bind_with safeQuery_resolves safeQuery_result.
  change (Ret (fold_left location_step rows
                 {| stateId := JNull; districtId := JNull;
                    blockId := JNull; villageId := JNull |})
          = Ret {| stateId := last_value STATE rows;
                   districtId := last_value DISTRICT rows;
                   blockId := last_value BLOCK rows;
                   villageId := last_value VILLAGE rows |}).
  rewrite location_fold. reflexivity.
Qed.

(** ** Cohort membership *)

Lemma existsb_map {A B} (g : B -> bool) (f : A -> B) l :
  existsb g (List.map f l) = existsb (fun x => g (f x)) l.
Proof. induction l as [|x l IH]; simpl; [reflexivity|]. rewrite IH. reflexivity. Qed.

(** X7: a user is an automatic member exactly when one of the cohort rows
    the source returns for the user has the type 'automatic' (compared
    exactly, as a string); with no cohort row, or a failed cohort query,
    the user is not an automatic member.  getUserCohorts returns one
    object per row. *)
Theorem X7_automatic_membership (client : Client) (userId : value) (w : world) :
  let rows :=
    answered client
      "SELECT ... FROM CohortMembers cm JOIN Cohort c WHERE cm.userId = $1" [userId] in
  exists cohorts,
    result (getUserCohorts client userId) w = Ret cohorts /\
    length cohorts = length rows /\
    determineAutomaticMembership cohorts
    = existsb (fun row => strict_eq_string (field row "cohortType") "automatic") rows.
Proof.
  intros rows. unfold result, getUserCohorts.
  bind_with safeQuery_resolves safeQuery_result.
  fold (answered client
          "SELECT ... FROM CohortMembers cm JOIN Cohort c WHERE cm.userId = $1" [userId]).
  fold rows. eexists. split; [reflexivity|]. split; [apply length_map|].
  unfold determineAutomaticMembership.
  destruct rows as [|r rows']; [reflexivity|].
  exact (existsb_map
           (fun cohort => strict_eq_string (field cohort "cohortType") "automatic")
           _ (r :: rows')).
Qed.

(** ** A user whose lookups find nothing *)

Section NoEnrichment.

Variable client : Client.
Hypothesis Hno : forall text params, no_rows (query client text params) = true.

Lemma safeQuery_no_rows text params errorMessage w :
  result (safeQuery client text params [] errorMessage) w = Ret [].
Proof.
  rewrite safeQuery_result. specialize (Hno text params).
  destruct (query client text params) as [[|r rows]|e]; [reflexivity|discriminate|reflexivity].
Qed.

Lemma getCustomFields_no_rows userId w :
  result (getCustomFields client userId) w = Ret (JObj []).
Proof.
  unfold result, getCustomFields.
  bind_with safeQuery_resolves safeQuery_no_rows. reflexivity.
Qed.

Lemma getUserLocationIds_no_rows userId w :
  result (getUserLocationIds client userId) w
  = Ret {| stateId := JNull; districtId := JNull; blockId := JNull; villageId := JNull |}.
Proof.
  unfold result, getUserLocationIds.
  bind_with safeQuery_resolves safeQuery_no_rows. reflexivity.
Qed.

Lemma getUserCohorts_no_rows userId w :
  result (getUserCohorts client userId) w = Ret [].
Proof.
  unfold result, getUserCohorts.
  bind_with safeQuery_resolves safeQuery_no_rows. reflexivity.
Qed.

Lemma getUserTenantAndRole_no_rows userId w :
  result (getUserTenantAndRole client userId) w
  = Ret {| tr_tenantId := JNull; tr_tenantName := JNull; tr_roleId := JNull;
           tr_roleName := JNull; tr_roleCode := JNull |}.
Proof.
  unfold result, getUserTenantAndRole.
  bind_with safeQuery_resolves safeQuery_no_rows. reflexivity.
Qed.

Lemma processUser_no_rows destClient user s w :
  field user "fullName" = JStr s ->
  exists w1,
    tables w1 = tables w /\
    processUser client destClient user w
    = insertOrUpdateUserProfileReport destClient (user_data_without_enrichment user s) w1.
Proof.
  intros Hs. unfold processUser.
  bind_with getCustomFields_resolves getCustomFields_no_rows.
  bind_with getUserLocationIds_resolves getUserLocationIds_no_rows.
  unfold bind at 1.
  change (getLocationNames client
            {| stateId := JNull; districtId := JNull; blockId := JNull; villageId := JNull |}
            w1)
    with (Ret {| stateName := JNull; districtName := JNull;
                 blockName := JNull; villageName := JNull |}, w1).
  cbv iota beta.
  bind_with getUserCohorts_resolves getUserCohorts_no_rows.
  bind_with getUserTenantAndRole_resolves getUserTenantAndRole_no_rows.
  rewrite Hs. exists w3. split; [congruence|reflexivity].
Qed.

End NoEnrichment.

(** X8: a user for whom every lookup fails or finds nothing is still handed
    to the writer, with the enrichment fields at their defaults: tenant,
    role and the four location names null, the custom fields the empty
    object, the cohorts the empty array and automaticMember 0; the fields of
    the source row are passed on and the destination is untouched until the
    write. *)
Theorem X8_user_without_enrichment_is_written (client : Client) (destClient : DestClient)
    (user : value) (s : jsstring) (w : world) :
  (forall text params, no_rows (query client text params) = true) ->
  field user "fullName" = JStr s ->
  exists w1,
    tables w1 = tables w /\
    processUser client destClient user w
    = insertOrUpdateUserProfileReport destClient (user_data_without_enrichment user s) w1.
Proof. intros Hno Hs. apply processUser_no_rows; assumption. Qed.

Lemma X8_witness :
  exists w1,
    tables w1 = tables empty_world /\
    processUser failing_source reliable asha_2020 empty_world
    = insertOrUpdateUserProfileReport reliable
        (user_data_without_enrichment asha_2020 (lit "Asha  Rao")) w1.
Proof.
  apply (X8_user_without_enrichment_is_written failing_source reliable asha_2020
           (lit "Asha  Rao") empty_world).
  - intros text params. reflexivity.
  - reflexivity.
Defined.

(** ** The runners and fatal errors *)

Lemma runner_never_raises (body : M unit) (t : string) (cleanup : M unit) w :
  (forall w0, cleanup w0 = (Ret tt, w0)) ->
  result (try_finally (try_catch body (fun e => console_error t [message e])) cleanup) w
  = Ret tt.
Proof.
  intros Hc. unfold result, try_finally, try_catch.
  destruct (body w) as [[[]|e] w1].
  - rewrite Hc. reflexivity.
  - unfold console_error, console_log. rewrite Hc. reflexivity.
Qed.

(** X9: no runner raises to its caller: whatever the source, the
    destination and the HTTP client answer, each of the five migrations
    returns normally, a fatal error included (it is caught and logged by
    the run). *)
Theorem X9_runners_return (axios : Axios) (sourceClient : Client)
    (destClient : DestClient) (w : world) :
  result (migrateUserProfileReports sourceClient destClient) w = Ret tt /\
  result (AttendanceReport.migrateAttendanceReports sourceClient destClient) w = Ret tt /\
  result (CohortSummaryReport.migrateCohortSummaryReports sourceClient destClient) w = Ret tt /\
  result (Course.migrateCourses axios sourceClient destClient) w = Ret tt /\
  result (Assessment.migrateAssessments axios sourceClient destClient) w = Ret tt.
Proof.
  repeat split; apply runner_never_raises; reflexivity.
Qed.

(** X10: a fatal error of the user-profile run is logged once and nothing
    is written.  When the source or the destination cannot be reached, the
    world only gains the error line; when the extraction query fails, the
    report table has been ensured but holds the rows it held. *)
Theorem X10_fatal_error_writes_nothing (sourceClient : Client) (destClient : DestClient)
    (e : error) (w : world) :
  let line := Log Err "[USER REPORT] Error during migration:" [message e] in
  (connect sourceClient = Throw e ->
   migrateUserProfileReports sourceClient destClient w
   = (Ret tt, World (console w ++ [line]) (tables w))) /\
  (connect sourceClient = Ret tt -> dest_connect destClient = Throw e ->
   migrateUserProfileReports sourceClient destClient w
   = (Ret tt, World (console w ++ [line]) (tables w))) /\
  (connect sourceClient = Ret tt -> dest_connect destClient = Ret tt ->
   fault destClient (CreateTableIfNotExists "UserProfileReport" "userId") [] = None ->
   query sourceClient usersQuery [] = Throw e ->
   exists w',
     migrateUserProfileReports sourceClient destClient w = (Ret tt, w') /\
     console w' = console w ++ [line] /\
     table_rows w' "UserProfileReport" = table_rows w "UserProfileReport").
Proof.
  intros line. unfold migrateUserProfileReports, try_finally, try_catch, connectToDBs,
    closeDBs, createUserProfileReportTable, bind, lift, source_query, dest_query.
  split; [|split].
  - intros ->. reflexivity.
  - intros -> ->. reflexivity.
  - intros -> -> -> Hq. cbn [exec List.map tables].
    destruct (tables w !! "UserProfileReport"%string) as [tb|] eqn:Ht.
    + rewrite Hq. eexists. split; [reflexivity|]. split; [reflexivity|].
      unfold table_rows. cbn [tables]. reflexivity.
    + rewrite Hq. eexists. split; [reflexivity|]. split; [reflexivity|].
      unfold table_rows. cbn [tables]. rewrite lookup_insert_eq, Ht. reflexivity.
Qed.

Lemma X10_witness :
  migrateUserProfileReports unreachable_source reliable after_first_run
  = (Ret tt,
     World (console after_first_run
            ++ [Log Err "[USER REPORT] Error during migration:"
                  [message (Error "connect ECONNREFUSED")]])
       (tables after_first_run)).
Proof.
  apply (proj1 (X10_fatal_error_writes_nothing unreachable_source reliable
                  (Error "connect ECONNREFUSED") after_first_run)).
  reflexivity.
Defined.

(** ** Full names with missing parts *)

Lemma drop_while_clean s : clean_start s -> drop_while is_white_space s = s.
Proof. destruct s as [|c s]; [contradiction|]. simpl. intros ->. reflexivity. Qed.

Lemma drop_while_app_all p s t :
  forallb p s = true -> drop_while p (s ++ t) = drop_while p t.
Proof.
  induction s as [|c s IH]; simpl; [reflexivity|].
  intros H. apply andb_true_iff in H as [-> H]. auto.
Qed.

Lemma drop_while_app_clean s t :
  clean_start s -> drop_while is_white_space (s ++ t) = s ++ t.
Proof. destruct s as [|c s]; [contradiction|]. simpl. intros ->. reflexivity. Qed.

(** trim of a clean string padded with white space is the string. *)
Lemma trim_padded before s after :
  forallb is_white_space before = true ->
  forallb is_white_space after = true ->
  clean_start s -> clean_end s ->
  trim (before ++ s ++ after) = s.
Proof.
  intros Hb Ha Hs He. unfold trim, trim_start, trim_end.
  rewrite (drop_while_app_all _ before _ Hb), (drop_while_app_clean s after Hs).
  rewrite rev_app_distr, (drop_while_app_all _ (rev after)), (drop_while_clean _ He).
  - apply rev_involutive.
  - rewrite forallb_rev. exact Ha.
Qed.

Lemma trim_clean s : clean_start s -> clean_end s -> trim s = s.
Proof.
  intros Hs He. pose proof (trim_padded [] s [] eq_refl eq_refl Hs He) as H.
  cbn [app] in H. rewrite app_nil_r in H. exact H.
Qed.

Lemma trim_clean_before before s :
  forallb is_white_space before = true -> clean_start s -> clean_end s ->
  trim (before ++ s) = s.
Proof.
  intros Hb Hs He. pose proof (trim_padded before s [] Hb eq_refl Hs He) as H.
  rewrite app_nil_r in H. exact H.
Qed.

Lemma trim_clean_after s after :
  forallb is_white_space after = true -> clean_start s -> clean_end s ->
  trim (s ++ after) = s.
Proof. intros Ha Hs He. exact (trim_padded [] s after eq_refl Ha Hs He). Qed.

Lemma trim_all_white_space s : forallb is_white_space s = true -> trim s = [].
Proof.
  intros H. unfold trim, trim_start, trim_end.
  rewrite <- (app_nil_r s), (drop_while_app_all _ s [] H). reflexivity.
Qed.

Lemma clean_start_app s t : clean_start s -> clean_start (s ++ t).
Proof. destruct s; [contradiction|]. exact id. Qed.

Lemma clean_end_app s t : clean_end t -> clean_end (s ++ t).
Proof. unfold clean_end. rewrite rev_app_distr. apply clean_start_app. Qed.

Lemma COALESCE_missing part : missing part -> COALESCE part empty = [].
Proof. intros [->| ->]; reflexivity. Qed.

(** X11: the stored fullName when parts are missing (NULL or empty), for
    first and last names that carry no white space at their outer ends.
    Without a middle name it is the first name, two spaces and the last
    name; with only a first name, or only a last name, it is that name; and
    with no name at all it is the empty string. *)
Theorem X11_full_name_with_missing_parts (first last : jsstring) (absent : value)
    (w : world) :
  missing absent ->
  clean_start first -> clean_end first ->
  clean_start last -> clean_end last ->
  result (trim_method (usersQuery_fullName (JStr first) absent (JStr last))) w
  = Ret (JStr (first ++ lit "  " ++ last)) /\
  result (trim_method (usersQuery_fullName (JStr first) absent absent)) w
  = Ret (JStr first) /\
  result (trim_method (usersQuery_fullName absent absent (JStr last))) w
  = Ret (JStr last) /\
  result (trim_method (usersQuery_fullName absent absent absent)) w
  = Ret (JStr []).
Proof.
  intros Hm Hfs Hfe Hls Hle.
  unfold result, usersQuery_fullName, CONCAT, trim_method, ret. cbn [fst concat COALESCE].
  rewrite !(COALESCE_missing absent Hm). cbn [app]. rewrite !app_nil_r.
  repeat split; do 2 f_equal.
  - change (first ++ lit " " ++ lit " " ++ last) with (first ++ lit "  " ++ last).
    apply trim_clean.
    + apply clean_start_app, Hfs.
    + apply clean_end_app, clean_end_app, Hle.
  - change (first ++ lit " " ++ lit " ") with (first ++ lit "  ").
    apply trim_clean_after; auto.
  - change (lit " " ++ lit " " ++ last) with (lit "  " ++ last).
    apply trim_clean_before; auto.
Qed.

(** ** The course transformer and writer *)

Lemma fetched_content_truthy axios courseId :
  ToBoolean (fetched_content axios courseId) = true.
Proof.
  unfold fetched_content. destruct (get axios courseId) as [response|e]; [|reflexivity].
  cbv zeta. destruct (ToBoolean courseId); [|reflexivity]. cbn [andb].
  destruct (ToBoolean (opt_member _ "content")) eqn:E; [exact E|reflexivity].
Qed.

Lemma truthy_not_nullish v : ToBoolean v = true -> is_nullish v = false.
Proof. destruct v; try reflexivity; discriminate. Qed.

Lemma mapContentToCourseEntity_defined content w :
  is_nullish content = false ->
  Course.mapContentToCourseEntity content w = (Ret (course_entity content), w).
Proof. destruct content; try discriminate; reflexivity. Qed.

Lemma js_or_array_truthy v : ToBoolean (js_or v (JArr [])) = true.
Proof. unfold js_or. destruct (ToBoolean v) eqn:E; [exact E|reflexivity]. Qed.

Lemma stringify_or_null_truthy v :
  ToBoolean v = true -> Course.stringify_or_null v = PJsonText v.
Proof.
  intros H. unfold Course.stringify_or_null. rewrite H.
  destruct v; try reflexivity; discriminate.
Qed.

Lemma fetch_then_map axios courseId w :
  exists w',
    bind (Course.fetchCourseData axios courseId) Course.mapContentToCourseEntity w
    = (Ret (course_entity (fetched_content axios courseId)), w') /\
    tables w' = tables w.
Proof.
  destruct (bind_result (Course.fetchCourseData axios courseId)
              Course.mapContentToCourseEntity w (fetched_content axios courseId)
              (fetchCourseData_resolves axios courseId)
              (fetchCourseData_result axios courseId w)) as (w1 & T & E).
  exists w1. split; [|exact T]. rewrite E.
  apply mapContentToCourseEntity_defined, truthy_not_nullish, fetched_content_truthy.
Qed.

(** X12: whatever the hierarchy request answers, the course transformer
    receives an object or a truthy content, never null or undefined, so it
    does not raise; and the five list-shaped fields and the details of the
    entity it builds are always truthy, so their columns are always written
    as JSON text and never as NULL. *)
Theorem X12_course_transformer_total (axios : Axios) (courseId : value) (w : world) :
  exists w',
    bind (Course.fetchCourseData axios courseId) Course.mapContentToCourseEntity w
    = (Ret (course_entity (fetched_content axios courseId)), w') /\
    tables w' = tables w /\
    forallb is_json_text
      (skipn 3 (course_values (course_entity (fetched_content axios courseId)))) = true.
Proof.
  destruct (fetch_then_map axios courseId w) as (w' & E & T).
  exists w'. split; [exact E|]. split; [exact T|].
  unfold course_values, course_entity. cbn [skipn Course.language Course.program
    Course.primaryUser Course.targetAgeGroup Course.keywords Course.details].
  rewrite !stringify_or_null_truthy
    by (first [apply js_or_array_truthy | apply fetched_content_truthy]).
  reflexivity.
Qed.

(** One run of the course batch over one course, on a course table without
    uniqueness constraint: the rows with the course's key go and the
    course's row is added. *)
Lemma course_run destClient axios courseRow (w : world) (tb : table) :
  (forall st vs, fault destClient st vs = None) ->
  tables w !! "course"%string = Some tb ->
  unique_key tb = None ->
  let content := fetched_content axios (field courseRow "courseId") in
  exists w',
    Course.migrateCourseTable axios
      (source_of "SELECT DISTINCT courseId FROM public.user_course_certificate"
         [courseRow])
      destClient w
    = (Ret tt, w') /\
    tables w'
    = <["course"%string :=
        Table None
          (List.filter
             (fun r => negb (sql_eq (cell r "course_do_id")
                               (prepareValue (PValue (opt_member content "identifier")))))
             (rows tb)
           ++ [course_row_of content])]> (tables w).
Proof.
  intros Hf Ht Hk content. unfold Course.migrateCourseTable.
  unfold bind at 1. cbn [source_query source_of query lift String.eqb Ascii.eqb Bool.eqb].
  cbn [for_of]. unfold bind at 1.
  destruct (bind_result (Course.fetchCourseData axios (field courseRow "courseId"))
              (fun apiData =>
                 bind (Course.mapContentToCourseEntity apiData)
                   (fun transformedData =>
                      bind (dest_query destClient (DeleteWhereEq "course" "course_do_id")
                              [PValue (Course.courseDoId transformedData)])
                        (fun _ =>
                           dest_query destClient (Insert "course" Course.course_columns)
                             (course_values transformedData))))
              w content
              (fetchCourseData_resolves axios _)
              (fetchCourseData_result axios _ w)) as (w1 & T & E).
  unfold course_values in E. rewrite E; clear E.
  unfold bind at 1.
  rewrite (mapContentToCourseEntity_defined content w1)
    by (apply truthy_not_nullish, fetched_content_truthy).
  rewrite <- T in Ht.
  rewrite (delete_then_insert destClient _ _ _ _ _ w1 tb Hf Ht Hk).
  eexists. split; [reflexivity|]. cbn [tables]. rewrite T. reflexivity.
Qed.

Lemma filter_twice_negb (p : row -> bool) rs r :
  p r = true ->
  List.filter (fun x => negb (p x)) (List.filter (fun x => negb (p x)) rs ++ [r])
  = List.filter (fun x => negb (p x)) rs.
Proof.
  intros Hr. rewrite List.filter_app. cbn [List.filter]. rewrite Hr. cbn [negb].
  rewrite app_nil_r. induction rs as [|x rs IH]; simpl; [reflexivity|].
  destruct (negb (p x)) eqn:E; simpl; [rewrite E; f_equal|]; exact IH.
Qed.

(** X13: for a course whose lookup gives a content with an identifier K
    that is not null, one run of the course batch leaves exactly one row
    for K, the row of that content, and a second run against the same
    source and the same lookup leaves the tables exactly as the first run
    left them. *)
Theorem X13_course_rerun_with_key (destClient : DestClient) (axios : Axios)
    (courseRow : value) (w : world) (tb : table) :
  let q := "SELECT DISTINCT courseId FROM public.user_course_certificate"%string in
  let content := fetched_content axios (field courseRow "courseId") in
  let K := opt_member content "identifier" in
  (forall st vs, fault destClient st vs = None) ->
  tables w !! "course"%string = Some tb ->
  unique_key tb = None ->
  is_nullish K = false ->
  let w1 := snd (Course.migrateCourseTable axios (source_of q [courseRow]) destClient w) in
  let w2 := snd (Course.migrateCourseTable axios (source_of q [courseRow]) destClient w1) in
  rows_with_key w1 "course" "course_do_id" K = [course_row_of content] /\
  tables w2 = tables w1.
Proof.
  intros q content K Hf Ht Hk HK w1 w2.
  destruct (course_run destClient axios courseRow w tb Hf Ht Hk) as (w1' & E1 & T1).
  assert (Hw1 : w1 = w1') by (unfold w1, q; rewrite E1; reflexivity).
  fold content K in T1. rewrite (prepareValue_not_nullish K HK) in T1.
  assert (Hkey : sql_eq (cell (course_row_of content) "course_do_id") (PValue K) = true).
  { unfold course_row_of, proposed_row, course_values, course_entity,
      Course.course_columns.
    cbn [List.map combine cell String.eqb Ascii.eqb Bool.eqb Course.courseDoId].
    fold K. rewrite (prepareValue_not_nullish K HK). apply sql_eq_refl, HK. }
  split.
  - rewrite Hw1. unfold rows_with_key, table_rows. rewrite T1, lookup_insert_eq.
    cbn [rows].
    apply (filter_after_delete (fun r => sql_eq (cell r "course_do_id") (PValue K))).
    exact Hkey.
  - assert (Ht1 : tables w1' !! "course"%string
                  = Some (Table None
                            (List.filter
                               (fun r => negb (sql_eq (cell r "course_do_id") (PValue K)))
                               (rows tb) ++ [course_row_of content]))).
    { rewrite T1. apply lookup_insert_eq. }
    destruct (course_run destClient axios courseRow w1' _ Hf Ht1 eq_refl)
      as (w2' & E2 & T2).
    assert (Hw2 : w2 = w2') by (unfold w2, q; rewrite Hw1, E2; reflexivity).
    rewrite Hw2, Hw1, T2. fold content K. rewrite (prepareValue_not_nullish K HK).
    cbn [rows].
    rewrite (filter_twice_negb (fun r => sql_eq (cell r "course_do_id") (PValue K)))
      by exact Hkey.
    rewrite T1, insert_insert_eq. reflexivity.
Qed.

(** ** What an upsert batch never does *)

Section Grows.

Variables (kept : list string) (key t : string).

Lemma grown_refl rs : grown kept key rs rs.
Proof.
  split; [|exact id]. exists []. intros c _. unfold keys. simpl.
  rewrite app_nil_r. reflexivity.
Qed.

Lemma grown_trans rs1 rs2 rs3 :
  grown kept key rs1 rs2 -> grown kept key rs2 rs3 -> grown kept key rs1 rs3.
Proof.
  intros [[a1 H1] U1] [[a2 H2] U2]. split; [|auto].
  exists (a1 ++ a2). intros c Hc. rewrite (H2 c Hc), (H1 c Hc).
  unfold keys. rewrite List.map_app, app_assoc. reflexivity.
Qed.

Lemma grows_same_tables {A} (m : M A) :
  (forall w, tables (snd (m w)) = tables w) -> grows kept key t m.
Proof. intros H w. unfold table_rows. rewrite H. apply grown_refl. Qed.

Lemma grows_reads_only {A} (m : M A) : reads_only m -> grows kept key t m.
Proof. intros H. apply grows_same_tables. exact H. Qed.

Lemma grows_resolves {A} (m : M A) : resolves m -> grows kept key t m.
Proof. intros H. apply grows_reads_only, resolves_reads_only, H. Qed.

Lemma grows_bind {A B} (m : M A) (k : A -> M B) :
  grows kept key t m -> (forall a, grows kept key t (k a)) -> grows kept key t (bind m k).
Proof.
  intros Hm Hk w. specialize (Hm w). unfold bind.
  destruct (m w) as [[a|e] w1]; cbn [snd] in *; [|exact Hm].
  eapply grown_trans; [exact Hm|apply Hk].
Qed.

Lemma grows_try_catch {A} (body : M A) (handler : error -> M A) :
  grows kept key t body -> (forall e, grows kept key t (handler e)) ->
  grows kept key t (try_catch body handler).
Proof.
  intros Hb Hh w. specialize (Hb w). unfold try_catch.
  destruct (body w) as [[a|e] w1]; cbn [snd] in *; [exact Hb|].
  eapply grown_trans; [exact Hb|apply Hh].
Qed.

Lemma grows_try_finally {A} (body : M A) (cleanup : M unit) :
  grows kept key t body -> grows kept key t cleanup ->
  grows kept key t (try_finally body cleanup).
Proof.
  intros Hb Hc w. specialize (Hb w). unfold try_finally.
  destruct (body w) as [r w1]. specialize (Hc w1). cbn [snd] in *.
  destruct (cleanup w1) as [[[]|e] w2]; cbn [snd] in *;
    eapply grown_trans; eassumption.
Qed.

Lemma grows_for_of {A} (xs : list A) (body : A -> M unit) :
  (forall x, grows kept key t (body x)) -> grows kept key t (for_of xs body).
Proof.
  intros Hb. induction xs as [|x xs IH]; cbn [for_of].
  - apply grows_same_tables. reflexivity.
  - apply grows_bind; [apply Hb|intros _; exact IH].
Qed.

Lemma grows_console_log l text d : grows kept key t (console_log l text d).
Proof. apply grows_same_tables. reflexivity. Qed.

Lemma grows_lift {A} (r : outcome A) : grows kept key t (lift r).
Proof. apply grows_same_tables. reflexivity. Qed.

Lemma grows_create pk destClient :
  grows kept key t (dest_query destClient (CreateTableIfNotExists t pk) []).
Proof.
  intros w. unfold dest_query. destruct (fault destClient _ _); [apply grown_refl|].
  cbn [exec List.map]. destruct (tables w !! t) as [tb|] eqn:E; cbn [snd].
  - unfold table_rows. cbn [tables]. apply grown_refl.
  - unfold table_rows. cbn [tables]. rewrite lookup_insert_eq, E. apply grown_refl.
Qed.

Lemma cell_set_cell_other c c' p r :
  c <> c' -> cell (set_cell c' p r) c = cell r c.
Proof.
  intros Hne. induction r as [|[c0 p0] r IH]; simpl; [reflexivity|].
  destruct (String.eqb c' c0) eqn:E; simpl.
  - apply String.eqb_eq in E. subst c0.
    destruct (String.eqb c c') eqn:E'; [apply String.eqb_eq in E'; contradiction|].
    exact IH.
  - destruct (String.eqb c c0); [reflexivity|exact IH].
Qed.

Lemma cell_update_row_other values proposed assignments r c :
  ~ In c (List.map fst assignments) ->
  cell (update_row values proposed assignments r) c = cell r c.
Proof.
  unfold update_row. revert r.
  induction assignments as [|[c' e] asg IH]; intros r Hc; [reflexivity|].
  cbn [fold_left fst snd]. rewrite IH.
  - apply cell_set_cell_other. intros ->. apply Hc. left. reflexivity.
  - intros H. apply Hc. right. exact H.
Qed.

Lemma pairwise_distinct_snoc ks k :
  pairwise_distinct ks -> Forall (fun k0 => sql_eq k0 k = false) ks ->
  pairwise_distinct (ks ++ [k]).
Proof.
  induction ks as [|k0 ks IH]; simpl; [auto|].
  intros [H1 H2] H. inversion H as [|? ? Hk0 Hks]; subst. split; [|auto].
  apply Forall_app. split; [exact H1|]. constructor; [exact Hk0|constructor].
Qed.

Lemma no_conflict_keys proposed rs :
  existsb (conflicts key proposed) rs = false ->
  Forall (fun k0 => sql_eq k0 (cell proposed key) = false) (keys key rs).
Proof.
  induction rs as [|r rs IH]; simpl; [constructor|].
  intros H. apply orb_false_iff in H as [H1 H2]. constructor; [exact H1|auto].
Qed.

Lemma keys_map_update proposed (f : row -> row) rs c :
  (forall r, cell (f r) c = cell r c) ->
  keys c (List.map (fun r => if conflicts key proposed r then f r else r) rs) = keys c rs.
Proof.
  intros Hf. unfold keys. rewrite List.map_map. apply List.map_ext. intros r.
  destruct (conflicts key proposed r); [apply Hf|reflexivity].
Qed.

(** An upsert keeps every row in place with its [kept] columns, and keeps
    the key unique, provided it assigns none of the [kept] columns. *)
Lemma grows_upsert destClient cols assignments values :
  In key kept ->
  (forall c, In c kept -> ~ In c (List.map fst assignments)) ->
  grows kept key t
    (dest_query destClient (InsertOnConflictUpdate t cols key assignments) values).
Proof.
  intros Hkey Hkept w. unfold dest_query.
  destruct (fault destClient _ _); [apply grown_refl|].
  cbn [exec]. destruct (tables w !! t) as [tb|] eqn:Ht; [|apply grown_refl].
  destruct (negb (bool_decide (unique_key tb = Some key))); [apply grown_refl|].
  set (proposed := combine cols (List.map prepareValue values)).
  destruct (is_null (cell proposed key)); [apply grown_refl|].
  unfold table_rows at 1. rewrite Ht.
  destruct (existsb (conflicts key proposed) (rows tb)) eqn:Hc; cbn [snd].
  - rewrite table_rows_insert. cbn [rows]. split.
    + exists []. intros c Hin. rewrite keys_map_update.
      * unfold keys. simpl. rewrite app_nil_r. reflexivity.
      * intros r. apply cell_update_row_other, Hkept, Hin.
    + unfold unique_on. rewrite keys_map_update; [exact id|].
      intros r. apply cell_update_row_other, Hkept, Hkey.
  - rewrite table_rows_insert. cbn [rows]. split.
    + exists [proposed]. intros c _. unfold keys. apply List.map_app.
    + unfold unique_on, keys. rewrite List.map_app. intros U.
      apply pairwise_distinct_snoc; [exact U|]. apply no_conflict_keys, Hc.
Qed.

End Grows.

Lemma reads_only_trim_method v : reads_only (trim_method v).
Proof. intros w. destruct v; reflexivity. Qed.

Ltac not_assigned :=
  let c := fresh "c" in
  let H := fresh "H" in
  intros c H; cbn [In] in H;
  repeat (destruct H as [<-|H];
          [cbn [List.map fst In]; intuition discriminate|]);
  destruct H.

Ltac grow_step :=
  match goal with
  | |- grows _ _ _ (bind _ _) => apply grows_bind; [|intros]
  | |- grows _ _ _ (try_catch _ _) => apply grows_try_catch; [|intros]
  | |- grows _ _ _ (try_finally _ _) => apply grows_try_finally
  | |- grows _ _ _ (for_of _ _) => apply grows_for_of; intros
  | |- grows _ _ _ (console_log _ _ _) => apply grows_console_log
  | |- grows _ _ _ (console_error _ _) => apply grows_console_log
  | |- grows _ _ _ (lift _) => apply grows_lift
  | |- grows _ _ _ (source_query _ _ _) => apply grows_lift
  | |- grows _ _ _ (ret _) => apply grows_same_tables; reflexivity
  | |- grows _ _ _ (dest_query _ (CreateTableIfNotExists _ _) _) => apply grows_create
  | |- grows _ _ _ (dest_query _ (InsertOnConflictUpdate _ _ _ _) _) =>
      apply grows_upsert; [cbn [In]; tauto|not_assigned]
  | |- grows _ _ _ (trim_method _) => apply grows_reads_only, reads_only_trim_method
  | |- grows _ _ _ _ =>
      first [solve [eauto] | apply grows_resolves; solve [eauto with resolve]]
  end.

Lemma processUser_grows sourceClient destClient user :
  grows UserProfileReport_kept "userId" "UserProfileReport"
    (processUser sourceClient destClient user).
Proof.
  unfold processUser, insertOrUpdateUserProfileReport, UserProfileReport_upsert,
    UserProfileReport_kept.
  pose proof getCustomFields_resolves. pose proof getUserLocationIds_resolves.
  pose proof getLocationNames_resolves. pose proof getUserCohorts_resolves.
  pose proof getUserTenantAndRole_resolves.
  repeat grow_step.
Qed.

Lemma user_run_grows sourceClient destClient :
  grows UserProfileReport_kept "userId" "UserProfileReport"
    (migrateUserProfileReports sourceClient destClient).
Proof.
  unfold migrateUserProfileReports, connectToDBs, closeDBs, createUserProfileReportTable.
  pose proof processUser_grows.
  repeat grow_step.
Qed.

Lemma attendance_run_grows sourceClient destClient :
  grows DailyAttendanceReport_kept "attendanceId" "DailyAttendanceReport"
    (AttendanceReport.migrateAttendanceReports sourceClient destClient).
Proof.
  unfold AttendanceReport.migrateAttendanceReports, AttendanceReport.connectToDBs,
    AttendanceReport.closeDBs, AttendanceReport.createDailyAttendanceReportTable,
    AttendanceReport.processAttendance, AttendanceReport.DailyAttendanceReport_upsert,
    DailyAttendanceReport_kept.
  repeat grow_step.
Qed.

Lemma cohort_run_grows sourceClient destClient :
  grows CohortSummaryReport_kept "cohortId" "CohortSummaryReport"
    (CohortSummaryReport.migrateCohortSummaryReports sourceClient destClient).
Proof.
  unfold CohortSummaryReport.migrateCohortSummaryReports,
    CohortSummaryReport.connectToDBs, CohortSummaryReport.closeDBs,
    CohortSummaryReport.createCohortSummaryReportTable,
    CohortSummaryReport.processCohort, CohortSummaryReport.CohortSummaryReport_upsert,
    CohortSummaryReport_kept.
  pose proof getCustomFields_resolves. pose proof getCohortLocationIds_resolves.
  pose proof cohort_getLocationNames_resolves.
  repeat grow_step.
Qed.

Lemma assessment_run_grows axios sourceClient destClient :
  grows assessment_tracking_kept "assessmentTrackingId" "assessment_tracking"
    (Assessment.migrateAssessments axios sourceClient destClient).
Proof.
  unfold Assessment.migrateAssessments, Assessment.migrateAssessmentTrackingTable,
    assessment_tracking_kept.
  pose proof fetchApiData_resolves.
  repeat grow_step.
Qed.

(** X14: an upsert run never removes or reorders a row of its report table
    and never rewrites the key or the creation columns of a row that was
    there: after the run the table is the rows it held, in place and with
    these columns as they were, followed by the rows the run added.  This
    holds for the user-profile, attendance, cohort and assessment runs,
    whatever the clients answer. *)
Theorem X14_upsert_runs_keep_rows_and_creation_columns (axios : Axios)
    (sourceClient : Client) (destClient : DestClient) (w : world) :
  extends UserProfileReport_kept
    (table_rows w "UserProfileReport")
    (table_rows (snd (migrateUserProfileReports sourceClient destClient w))
       "UserProfileReport") /\
  extends DailyAttendanceReport_kept
    (table_rows w "DailyAttendanceReport")
    (table_rows (snd (AttendanceReport.migrateAttendanceReports sourceClient destClient w))
       "DailyAttendanceReport") /\
  extends CohortSummaryReport_kept
    (table_rows w "CohortSummaryReport")
    (table_rows
       (snd (CohortSummaryReport.migrateCohortSummaryReports sourceClient destClient w))
       "CohortSummaryReport") /\
  extends assessment_tracking_kept
    (table_rows w "assessment_tracking")
    (table_rows (snd (Assessment.migrateAssessments axios sourceClient destClient w))
       "assessment_tracking").
Proof.
  split; [apply (user_run_grows sourceClient destClient w)|].
  split; [apply (attendance_run_grows sourceClient destClient w)|].
  split; [apply (cohort_run_grows sourceClient destClient w)|].
  apply (assessment_run_grows axios sourceClient destClient w).
Qed.

(** X15: an upsert run keeps the key of its report table unique: when no
    two rows of the table have the same key before the run, no two rows
    have the same key after it.  This holds for the user-profile,
    attendance, cohort and assessment runs, whatever the clients answer. *)
Theorem X15_upsert_runs_keep_keys_unique (axios : Axios)
    (sourceClient : Client) (destClient : DestClient) (w : world) :
  (unique_on "userId" (table_rows w "UserProfileReport") ->
   unique_on "userId"
     (table_rows (snd (migrateUserProfileReports sourceClient destClient w))
        "UserProfileReport")) /\
  (unique_on "attendanceId" (table_rows w "DailyAttendanceReport") ->
   unique_on "attendanceId"
     (table_rows (snd (AttendanceReport.migrateAttendanceReports sourceClient destClient w))
        "DailyAttendanceReport")) /\
  (unique_on "cohortId" (table_rows w "CohortSummaryReport") ->
   unique_on "cohortId"
     (table_rows
        (snd (CohortSummaryReport.migrateCohortSummaryReports sourceClient destClient w))
        "CohortSummaryReport")) /\
  (unique_on "assessmentTrackingId" (table_rows w "assessment_tracking") ->
   unique_on "assessmentTrackingId"
     (table_rows (snd (Assessment.migrateAssessments axios sourceClient destClient w))
        "assessment_tracking")).
Proof.
  split; [apply (user_run_grows sourceClient destClient w)|].
  split; [apply (attendance_run_grows sourceClient destClient w)|].
  split; [apply (cohort_run_grows sourceClient destClient w)|].
  apply (assessment_run_grows axios sourceClient destClient w).
Qed.

(** ** The writers once more *)

(** X16: re-invoking the user-profile writer with the identical record is
    a no-op: when a call has succeeded on a report table whose rows have
    the table's columns, a second call with the same record succeeds and
    leaves the world exactly as the first call left it. *)
Theorem X16_same_record_twice_is_a_no_op (destClient : DestClient)
    (userData : UserData) (w w1 : world) (tb : table) :
  tables w !! "UserProfileReport"%string = Some tb ->
  Forall (fun r => List.map fst r = UserProfileReport_columns) (rows tb) ->
  insertOrUpdateUserProfileReport destClient userData w = (Ret tt, w1) ->
  insertOrUpdateUserProfileReport destClient userData w1 = (Ret tt, w1).
Proof. apply insertOrUpdateUserProfileReport_again. Qed.

Lemma X16_witness :
  let w1 := snd (insertOrUpdateUserProfileReport reliable asha_2024_data after_first_run) in
  insertOrUpdateUserProfileReport reliable asha_2024_data w1 = (Ret tt, w1).
Proof.
  apply (X16_same_record_twice_is_a_no_op reliable asha_2024_data after_first_run _
           (Table (Some "userId"%string) (table_rows after_first_run "UserProfileReport"))).
  - vm_compute. reflexivity.
  - vm_compute. repeat constructor.
  - vm_compute. reflexivity.
Defined.

Lemma CohortSummaryReport_update_row values old :
  List.map fst old = CohortSummaryReport.CohortSummaryReport_columns ->
  forall c, In c CohortSummaryReport.CohortSummaryReport_columns ->
    cell (update_row (List.map prepareValue values)
            (proposed_row CohortSummaryReport.CohortSummaryReport_columns values)
            [("name", Excluded "name"); ("type", Excluded "type");
             ("tenantId", Excluded "tenantId"); ("tenantName", Excluded "tenantName");
             ("academicYear", Excluded "academicYear");
             ("memberCount", Excluded "memberCount");
             ("customFields", Excluded "customFields"); ("updatedAt", Excluded "updatedAt");
             ("state", Excluded "state"); ("district", Excluded "district");
             ("block", Excluded "block"); ("village", Excluded "village")]%string
            old) c
    = if kept_in CohortSummaryReport_kept c then cell old c
      else cell (proposed_row CohortSummaryReport.CohortSummaryReport_columns values) c.
Proof.
  intros Hcols c Hc. unfold CohortSummaryReport.CohortSummaryReport_columns in Hcols.
  split_row old. unfold CohortSummaryReport.CohortSummaryReport_columns in Hc.
  each_column Hc.
Qed.

Lemma assessment_tracking_update_row values old :
  List.map fst old = Assessment.assessment_tracking_columns ->
  forall c, In c Assessment.assessment_tracking_columns ->
    cell (update_row (List.map prepareValue values)
            (proposed_row Assessment.assessment_tracking_columns values)
            (List.map (fun c => (c, Excluded c))
               ["userId"; "courseId"; "contentId"; "attemptId"; "lastAttemptedOn";
                "assessmentSummary"; "totalMaxScore"; "totalScore"; "updatedOn";
                "timeSpent"; "unitId"; "name"; "description"; "subject"; "domain";
                "subDomain"; "channel"; "assessmentType"; "program";
                "targetAgeGroup"; "assessmentName"; "contentLanguage"; "status";
                "framework"; "summaryType"]%string)
            old) c
    = if kept_in assessment_tracking_kept c then cell old c
      else cell (proposed_row Assessment.assessment_tracking_columns values) c.
Proof.
  intros Hcols c Hc. unfold Assessment.assessment_tracking_columns in Hcols.
  split_row old. unfold Assessment.assessment_tracking_columns in Hc.
  each_column Hc.
Qed.

(** One assessment row is written with the values of its transformer,
    applied to what the search request gave. *)
Lemma assessment_run_one axios destClient assessment w :
  exists w1,
    tables w1 = tables w /\
    Assessment.migrateAssessmentTrackingTable axios
      (source_of "SELECT * FROM public.assessment_tracking" [assessment]) destClient w
    = bind (dest_query destClient assessment_tracking_upsert
              (Assessment.assessment_values assessment
                 (fetched_question_set axios (field assessment "courseId"))))
        (fun _ => ret tt) w1.
Proof.
  unfold Assessment.migrateAssessmentTrackingTable.
  unfold bind at 1. cbn [source_query source_of query lift String.eqb Ascii.eqb Bool.eqb].
  cbn [for_of]. unfold bind at 1.
  destruct (bind_result (Assessment.fetchApiData axios (field assessment "courseId"))
              (fun apiData =>
                 dest_query destClient assessment_tracking_upsert
                   (Assessment.assessment_values assessment apiData))
              w (fetched_question_set axios (field assessment "courseId"))
              (fetchApiData_resolves axios _)
              (fetchApiData_result axios _ w)) as (w1 & T & E).
  exists w1. split; [exact T|].
  unfold assessment_tracking_upsert in E |- *. rewrite E. reflexivity.
Qed.

(** X17: the cohort upsert and the assessment upsert, on a key conflict,
    overwrite every column of the existing row with the new record's value
    except the key and the creation column (createdAt for a cohort,
    createdOn for an assessment), which keep the existing row's values;
    rows with other keys are untouched and no row is added. *)
Theorem X17_cohort_and_assessment_upsert_on_conflict (axios : Axios)
    (destClient : DestClient) (w : world) (tb : table) :
  (forall values,
      let proposed :=
        proposed_row CohortSummaryReport.CohortSummaryReport_columns values in
      fault destClient CohortSummaryReport.CohortSummaryReport_upsert values = None ->
      tables w !! "CohortSummaryReport"%string = Some tb ->
      unique_key tb = Some "cohortId"%string ->
      Forall (fun r => List.map fst r = CohortSummaryReport.CohortSummaryReport_columns)
        (rows tb) ->
      existsb (conflicts "cohortId" proposed) (rows tb) = true ->
      exists w',
        dest_query destClient CohortSummaryReport.CohortSummaryReport_upsert values w
        = (Ret tt, w') /\
        Forall2 (upserted "cohortId" CohortSummaryReport.CohortSummaryReport_columns
                   CohortSummaryReport_kept proposed)
          (rows tb) (table_rows w' "CohortSummaryReport")) /\
  (forall assessment,
      let values :=
        Assessment.assessment_values assessment
          (fetched_question_set axios (field assessment "courseId")) in
      let proposed := proposed_row Assessment.assessment_tracking_columns values in
      fault destClient assessment_tracking_upsert values = None ->
      tables w !! "assessment_tracking"%string = Some tb ->
      unique_key tb = Some "assessmentTrackingId"%string ->
      Forall (fun r => List.map fst r = Assessment.assessment_tracking_columns) (rows tb) ->
      existsb (conflicts "assessmentTrackingId" proposed) (rows tb) = true ->
      exists w',
        Assessment.migrateAssessmentTrackingTable axios
          (source_of "SELECT * FROM public.assessment_tracking" [assessment]) destClient w
        = (Ret tt, w') /\
        Forall2 (upserted "assessmentTrackingId" Assessment.assessment_tracking_columns
                   assessment_tracking_kept proposed)
          (rows tb) (table_rows w' "assessment_tracking")).
Proof.
  split.
  - intros values proposed Hf Ht Hk Hcols Hc.
    unfold CohortSummaryReport.CohortSummaryReport_upsert in *.
    erewrite dest_query_upsert_conflict by eassumption.
    eexists. split; [reflexivity|].
    rewrite table_rows_insert. cbn [rows].
    apply Forall2_upserted; [exact Hcols|].
    intros old Ho. apply CohortSummaryReport_update_row. exact Ho.
  - intros assessment values proposed Hf Ht Hk Hcols Hc.
    destruct (assessment_run_one axios destClient assessment w) as (w1 & T & ->).
    fold values. unfold assessment_tracking_upsert in *. rewrite <- T in Ht.
    unfold bind.
    erewrite dest_query_upsert_conflict by eassumption.
    eexists. split; [reflexivity|].
    rewrite table_rows_insert. cbn [rows].
    apply Forall2_upserted; [exact Hcols|].
    intros old Ho. apply assessment_tracking_update_row. exact Ho.
Qed.

(** ** Equality of cells *)

Lemma jsstring_eqb_sym a b : jsstring_eqb a b = jsstring_eqb b a.
Proof.
  revert b. induction a as [|x a IH]; intros [|y b]; simpl; try reflexivity.
  rewrite N.eqb_sym, IH. reflexivity.
Qed.

Lemma jsstring_eqb_trans a b c :
  jsstring_eqb a b = true -> jsstring_eqb b c = true -> jsstring_eqb a c = true.
Proof.
  intros H1 H2. apply jsstring_eqb_eq in H1, H2. subst. apply jsstring_eqb_refl.
Qed.

Lemma number_eqb_sym a b : number_eqb a b = number_eqb b a.
Proof.
  destruct a as [|x| |p], b as [|y| |q]; simpl; try reflexivity.
  - destruct x, y; reflexivity.
  - apply Qeq_bool_comm.
Qed.

Ltac qeq_chain H1 H2 :=
  first
    [ exact H1 | exact H2 | exact (Qeq_sym _ _ H1) | exact (Qeq_sym _ _ H2)
    | exact (Qeq_trans _ _ _ H1 H2)
    | exact (Qeq_trans _ _ _ H1 (Qeq_sym _ _ H2))
    | exact (Qeq_trans _ _ _ (Qeq_sym _ _ H1) H2)
    | exact (Qeq_trans _ _ _ (Qeq_sym _ _ H1) (Qeq_sym _ _ H2))
    | exact (Qeq_trans _ _ _ H2 H1)
    | exact (Qeq_trans _ _ _ H2 (Qeq_sym _ _ H1))
    | exact (Qeq_trans _ _ _ (Qeq_sym _ _ H2) H1) ].

Lemma number_eqb_trans a b c :
  number_eqb a b = true -> number_eqb b c = true -> number_eqb a c = true.
Proof.
  destruct a as [|x| |p], b as [|y| |q], c as [|z| |r]; simpl;
    try discriminate; try reflexivity; intros H1 H2;
    try (destruct x, y, z; simpl in *; congruence);
    try exact H1; try exact H2;
    apply Qeq_bool_iff in H1, H2; apply Qeq_bool_iff; qeq_chain H1 H2.
Qed.

Lemma value_eqb_sym : forall a b, value_eqb a b = value_eqb b a.
Proof.
  fix IH 1. intros a b.
  destruct a as [| |x|x|x|xs|ps], b as [| |y|y|y|ys|qs]; simpl; try reflexivity.
  - destruct x, y; reflexivity.
  - apply number_eqb_sym.
  - apply jsstring_eqb_sym.
  - revert ys. induction xs as [|x xs IHxs]; intros [|y ys]; try reflexivity.
    rewrite (IH x y), (IHxs ys). reflexivity.
  - revert qs. induction ps as [|[k x] ps IHps]; intros [|[k' y] qs]; try reflexivity.
    rewrite (jsstring_eqb_sym k k'), (IH x y), (IHps qs). reflexivity.
Qed.

Lemma value_eqb_trans :
  forall a b c, value_eqb a b = true -> value_eqb b c = true -> value_eqb a c = true.
Proof.
  fix IH 1. intros a b c.
  destruct a as [| |x|x|x|xs|ps], b as [| |y|y|y|ys|qs], c as [| |z|z|z|zs|rs];
    simpl; try discriminate; try reflexivity.
  - destruct x, y, z; simpl; congruence.
  - apply number_eqb_trans.
  - apply jsstring_eqb_trans.
  - revert ys zs. induction xs as [|x xs IHxs]; intros [|y ys] [|z zs];
      try discriminate; try reflexivity.
    intros H1 H2. apply andb_true_iff in H1 as [H1 H1'], H2 as [H2 H2'].
    apply andb_true_iff. split; [exact (IH x y z H1 H2)|exact (IHxs ys zs H1' H2')].
  - revert qs rs. induction ps as [|[k x] ps IHps]; intros [|[k' y] qs] [|[k'' z] rs];
      try discriminate; try reflexivity.
    intros H1 H2. apply andb_true_iff in H1 as [H1 H1'], H2 as [H2 H2'].
    apply andb_true_iff in H1 as [Hk1 H1], H2 as [Hk2 H2].
    apply andb_true_iff. split; [apply andb_true_iff; split|].
    + exact (jsstring_eqb_trans _ _ _ Hk1 Hk2).
    + exact (IH x y z H1 H2).
    + exact (IHps qs rs H1' H2').
Qed.

Lemma param_eqb_sym a b : param_eqb a b = param_eqb b a.
Proof. destruct a, b; simpl; try reflexivity; apply value_eqb_sym. Qed.

Lemma param_eqb_trans a b c :
  param_eqb a b = true -> param_eqb b c = true -> param_eqb a c = true.
Proof. destruct a, b, c; simpl; try discriminate; apply value_eqb_trans. Qed.

Lemma sql_eq_sym a b : sql_eq a b = sql_eq b a.
Proof.
  unfold sql_eq. rewrite (param_eqb_sym a b).
  destruct (is_null a), (is_null b); reflexivity.
Qed.

(** Two keys that equal a third equal each other. *)
Lemma sql_eq_common x a b :
  sql_eq x a = true -> sql_eq x b = true -> sql_eq a b = true.
Proof.
  unfold sql_eq. intros H1 H2.
  apply andb_true_iff in H1 as [H1 E1], H2 as [H2 E2].
  apply andb_true_iff in H1 as [Hx Ha], H2 as [_ Hb].
  rewrite Ha, Hb. simpl. rewrite param_eqb_sym in E1.
  exact (param_eqb_trans _ _ _ E1 E2).
Qed.

(** ** Re-running an upsert batch: the rows of the table *)

Section EntryUpdate.

Variables (values : list param) (proposed : row).

Lemma update_row_map assignments r :
  update_row values proposed assignments r
  = List.map (entry_update values proposed assignments) r.
Proof.
  unfold update_row, entry_update. revert r.
  induction assignments as [|a asg IH]; intros r; cbn [fold_left].
  - symmetry. apply List.map_id.
  - rewrite IH. unfold set_cell. rewrite List.map_map. reflexivity.
Qed.

Lemma entry_update_assigned assignments c x y :
  existsb (fun a => String.eqb (fst a) c) assignments = true ->
  entry_update values proposed assignments (c, x)
  = entry_update values proposed assignments (c, y).
Proof.
  unfold entry_update. revert x y.
  induction assignments as [|a asg IH]; intros x y; cbn [existsb fold_left fst];
    [discriminate|].
  destruct (String.eqb (fst a) c); [reflexivity|]. cbn [orb]. apply IH.
Qed.

Lemma entry_update_unassigned assignments c x :
  existsb (fun a => String.eqb (fst a) c) assignments = false ->
  entry_update values proposed assignments (c, x) = (c, x).
Proof.
  unfold entry_update.
  induction assignments as [|a asg IH]; cbn [existsb fold_left fst]; [reflexivity|].
  destruct (String.eqb (fst a) c); [discriminate|]. exact IH.
Qed.

Lemma entry_update_fst assignments cp :
  fst (entry_update values proposed assignments cp) = fst cp.
Proof.
  unfold entry_update. revert cp.
  induction assignments as [|a asg IH]; intros cp; cbn [fold_left]; [reflexivity|].
  rewrite IH. destruct (String.eqb (fst a) (fst cp)); reflexivity.
Qed.

Lemma entry_update_idem assignments cp :
  entry_update values proposed assignments (entry_update values proposed assignments cp)
  = entry_update values proposed assignments cp.
Proof.
  destruct cp as [c x].
  destruct (existsb (fun a => String.eqb (fst a) c) assignments) eqn:E.
  - pose proof (entry_update_fst assignments (c, x)) as Hf.
    destruct (entry_update values proposed assignments (c, x)) as [c' x'] eqn:Ex.
    cbn [fst] in Hf. subst c'.
    rewrite (entry_update_assigned assignments c x' x E). exact Ex.
  - rewrite !(entry_update_unassigned _ _ _ E). reflexivity.
Qed.

(** A second update with the same values changes nothing more. *)
Lemma update_row_idem assignments r :
  update_row values proposed assignments (update_row values proposed assignments r)
  = update_row values proposed assignments r.
Proof.
  rewrite !update_row_map, List.map_map. apply List.map_ext.
  intros cp. apply entry_update_idem.
Qed.

End EntryUpdate.

Section UpsertBatch.

Variables (key : string) (cols : list string) (assignments : list (string * sql_expr)).
Hypothesis key_not_assigned : ~ In key (List.map fst assignments).

Lemma conflicts_update_row values proposed q r :
  conflicts key q (update_row values proposed assignments r) = conflicts key q r.
Proof.
  unfold conflicts. rewrite cell_update_row_other by exact key_not_assigned.
  reflexivity.
Qed.

Lemma map_fixed {A} (f : A -> A) l : List.map f l = l -> forall x, In x l -> f x = x.
Proof.
  induction l as [|y l IH]; simpl; [contradiction|].
  intros [= Hy Hl] x [<-|Hx]; auto.
Qed.

Lemma app_one_neq {A} (l : list A) x : l ++ [x] <> l.
Proof.
  intros H. apply (f_equal (@length A)) in H. rewrite length_app in H. simpl in H. lia.
Qed.

Lemma apply_write_idem wr rs :
  settled cols assignments wr ->
  apply_write key cols assignments wr (apply_write key cols assignments wr rs)
  = apply_write key cols assignments wr rs.
Proof.
  intros Hs. unfold apply_write.
  destruct (refused wr || is_null (write_key key cols wr)) eqn:G; [reflexivity|].
  apply orb_false_iff in G as [_ Hn]. unfold write_key in Hn.
  unfold upsert_rows.
  destruct (existsb (conflicts key (proposed_row cols (sent wr))) rs) eqn:Hc.
  - rewrite existsb_map_conflict;
      [|intros r _ Hr; rewrite conflicts_update_row; exact Hr|exact Hc].
    apply map_update_twice. intros r _ Hr. split.
    + rewrite conflicts_update_row. exact Hr.
    + apply update_row_idem.
  - rewrite existsb_app. cbn [existsb].
    rewrite (conflicts_self key _ Hn), orb_true_r.
    rewrite List.map_app. cbn [List.map]. rewrite (conflicts_self key _ Hn).
    rewrite map_no_conflict by exact Hc. rewrite Hs. reflexivity.
Qed.

Lemma apply_write_preserved wi wj rs :
  sql_eq (write_key key cols wj) (write_key key cols wi) = false ->
  apply_write key cols assignments wi rs = rs ->
  apply_write key cols assignments wi (apply_write key cols assignments wj rs)
  = apply_write key cols assignments wj rs.
Proof.
  intros Hij. unfold apply_write.
  destruct (refused wi || is_null (write_key key cols wi)); [reflexivity|].
  destruct (refused wj || is_null (write_key key cols wj)); [exact id|].
  set (pi := proposed_row cols (sent wi)). set (pj := proposed_row cols (sent wj)).
  set (vi := List.map prepareValue (sent wi)). set (vj := List.map prepareValue (sent wj)).
  unfold write_key in Hij. fold pi pj in Hij.
  unfold upsert_rows at 1 3.
  destruct (existsb (conflicts key pi) rs) eqn:Hci; [|intros H; destruct (app_one_neq _ _ H)].
  intros Hfix. pose proof (map_fixed _ _ Hfix) as Hpoint.
  unfold upsert_rows.
  destruct (existsb (conflicts key pj) rs) eqn:Hcj.
  - assert (Hex : existsb (conflicts key pi)
                    (List.map (fun r => if conflicts key pj r
                                        then update_row vj pj assignments r else r) rs)
                  = true).
    { apply existsb_exists in Hci as (r & Hin & Hr). apply existsb_exists.
      exists (if conflicts key pj r then update_row vj pj assignments r else r).
      split; [apply in_map_iff; exists r; auto|].
      destruct (conflicts key pj r); [rewrite conflicts_update_row|]; exact Hr. }
    rewrite Hex, List.map_map. apply List.map_ext_in. intros r Hin.
    destruct (conflicts key pj r) eqn:Hrj.
    + rewrite conflicts_update_row.
      destruct (conflicts key pi r) eqn:Hri; [|reflexivity].
      unfold conflicts in Hrj, Hri.
      rewrite (sql_eq_common _ _ _ Hrj Hri) in Hij. discriminate.
    + apply Hpoint, Hin.
  - rewrite existsb_app, Hci. cbn [orb].
    rewrite List.map_app, Hfix. cbn [List.map].
    unfold conflicts at 1. rewrite Hij. reflexivity.
Qed.

Lemma apply_writes_fixed ws rs :
  (forall wr, In wr ws -> apply_write key cols assignments wr rs = rs) ->
  apply_writes key cols assignments ws rs = rs.
Proof.
  unfold apply_writes. induction ws as [|wr ws IH]; intros H; cbn [fold_left];
    [reflexivity|].
  rewrite (H wr (or_introl eq_refl)). apply IH. intros wr' Hin. apply H. right. exact Hin.
Qed.

Lemma apply_writes_preserve wi ws rs :
  Forall (fun wj => sql_eq (write_key key cols wj) (write_key key cols wi) = false) ws ->
  apply_write key cols assignments wi rs = rs ->
  apply_write key cols assignments wi (apply_writes key cols assignments ws rs)
  = apply_writes key cols assignments ws rs.
Proof.
  unfold apply_writes. intros Hall. revert rs.
  induction Hall as [|wj ws Hj _ IH]; intros rs Hfix; cbn [fold_left]; [exact Hfix|].
  apply IH. apply apply_write_preserved; assumption.
Qed.

Lemma apply_writes_absorb ws :
  pairwise_distinct (List.map (write_key key cols) ws) ->
  (forall wr, In wr ws -> settled cols assignments wr) ->
  forall rs wr, In wr ws ->
    apply_write key cols assignments wr (apply_writes key cols assignments ws rs)
    = apply_writes key cols assignments ws rs.
Proof.
  induction ws as [|a ws IH]; intros Hd Hs rs wr Hin; [destruct Hin|].
  cbn [List.map pairwise_distinct] in Hd. destruct Hd as [Ha Hd].
  change (apply_writes key cols assignments (a :: ws) rs)
    with (apply_writes key cols assignments ws (apply_write key cols assignments a rs)).
  destruct Hin as [<-|Hin].
  - apply apply_writes_preserve.
    + rewrite Forall_map in Ha. eapply Forall_impl; [exact Ha|].
      intros wj Hj. cbn beta in Hj. rewrite sql_eq_sym. exact Hj.
    + apply apply_write_idem, Hs. left. reflexivity.
  - apply IH; [exact Hd| |exact Hin]. intros wr' Hin'. apply Hs. right. exact Hin'.
Qed.

(** A batch of upserts whose keys are pairwise distinct, run a second
    time over the rows it produced, changes nothing. *)
Lemma apply_writes_idem ws rs :
  pairwise_distinct (List.map (write_key key cols) ws) ->
  (forall wr, In wr ws -> settled cols assignments wr) ->
  apply_writes key cols assignments ws (apply_writes key cols assignments ws rs)
  = apply_writes key cols assignments ws rs.
Proof.
  intros Hd Hs. apply apply_writes_fixed. intros wr Hin.
  apply apply_writes_absorb; assumption.
Qed.

End UpsertBatch.

(** ** Re-running the attendance batch *)

Lemma insert_same_table (db : gmap string table) t tb key :
  db !! t = Some tb -> unique_key tb = Some key ->
  <[t := Table (Some key) (rows tb)]> db = db.
Proof.
  intros Ht Hk. apply insert_id. rewrite Ht. destruct tb as [uk rs].
  simpl in *. subst uk. reflexivity.
Qed.

Section CaughtUpsert.

Variables (t key : string) (cols : list string) (assignments : list (string * sql_expr)).

(** The tables after an upsert whose error is swallowed. *)
Lemma caught_upsert_tables destClient values w :
  let wr := {| refused :=
                 is_some (fault destClient
                            (InsertOnConflictUpdate t cols key assignments) values);
               sent := values |} in
  tables (snd (try_catch
                 (dest_query destClient (InsertOnConflictUpdate t cols key assignments)
                    values)
                 (fun _ => ret tt) w))
  = batch_tables t key cols assignments [wr] (tables w).
Proof.
  intros wr. subst wr.
  unfold batch_tables, apply_writes, apply_write, write_key, proposed_row, try_catch,
    dest_query.
  cbn [fold_left refused sent].
  destruct (fault destClient _ values) as [e|] eqn:Hf; cbn [is_some orb].
  - cbn [snd ret]. destruct (tables w !! t) as [tb|] eqn:Ht; [|reflexivity].
    destruct (bool_decide (unique_key tb = Some key)) eqn:Hk; [|reflexivity].
    apply bool_decide_eq_true in Hk. symmetry. apply insert_same_table; assumption.
  - cbn [exec]. destruct (tables w !! t) as [tb|] eqn:Ht; [|reflexivity].
    destruct (bool_decide (unique_key tb = Some key)) eqn:Hk; cbn [negb]; [|reflexivity].
    apply bool_decide_eq_true in Hk.
    destruct (is_null (cell (combine cols (List.map prepareValue values)) key)).
    + cbn [snd ret]. symmetry. apply insert_same_table; assumption.
    + unfold upsert_rows. rewrite Hk.
      destruct (existsb _ (rows tb)); reflexivity.
Qed.

Lemma batch_tables_app ws1 ws2 db :
  batch_tables t key cols assignments ws2 (batch_tables t key cols assignments ws1 db)
  = batch_tables t key cols assignments (ws1 ++ ws2) db.
Proof.
  unfold batch_tables. destruct (db !! t) as [tb|] eqn:Ht; [|rewrite Ht; reflexivity].
  destruct (bool_decide (unique_key tb = Some key)) eqn:Hk; [|rewrite Ht, Hk; reflexivity].
  rewrite lookup_insert_eq. cbn [unique_key rows].
  rewrite bool_decide_true by reflexivity.
  rewrite insert_insert_eq. unfold apply_writes. rewrite fold_left_app. reflexivity.
Qed.

Lemma batch_tables_nil db : batch_tables t key cols assignments [] db = db.
Proof.
  unfold batch_tables. destruct (db !! t) as [tb|] eqn:Ht; [|reflexivity].
  destruct (bool_decide (unique_key tb = Some key)) eqn:Hk; [|reflexivity].
  apply bool_decide_eq_true in Hk. apply insert_same_table; assumption.
Qed.

Lemma batch_tables_idem ws db :
  ~ In key (List.map fst assignments) ->
  pairwise_distinct (List.map (write_key key cols) ws) ->
  (forall wr, In wr ws -> settled cols assignments wr) ->
  batch_tables t key cols assignments ws (batch_tables t key cols assignments ws db)
  = batch_tables t key cols assignments ws db.
Proof.
  intros Hk Hd Hs. unfold batch_tables.
  destruct (db !! t) as [tb|] eqn:Ht; [|rewrite Ht; reflexivity].
  destruct (bool_decide (unique_key tb = Some key)) eqn:Hu; [|rewrite Ht, Hu; reflexivity].
  rewrite lookup_insert_eq. cbn [unique_key rows].
  rewrite bool_decide_true by reflexivity.
  rewrite insert_insert_eq, (apply_writes_idem key cols assignments Hk ws (rows tb) Hd Hs).
  reflexivity.
Qed.

Lemma ensure_batch_tables ws db :
  ensure_table t key (batch_tables t key cols assignments ws (ensure_table t key db))
  = batch_tables t key cols assignments ws (ensure_table t key db).
Proof.
  unfold ensure_table at 1.
  assert (H : is_Some (batch_tables t key cols assignments ws (ensure_table t key db) !! t)).
  { unfold batch_tables, ensure_table.
    destruct (db !! t) as [tb|] eqn:Ht.
    - rewrite Ht. destruct (bool_decide _); [rewrite lookup_insert_eq|rewrite Ht]; eauto.
    - rewrite lookup_insert_eq. cbn [unique_key].
      rewrite bool_decide_true by reflexivity. rewrite lookup_insert_eq. eauto. }
  destruct H as [tb ->]. reflexivity.
Qed.

Lemma ensure_table_idem db : ensure_table t key (ensure_table t key db) = ensure_table t key db.
Proof.
  unfold ensure_table. destruct (db !! t) as [tb|] eqn:Ht.
  - rewrite Ht. reflexivity.
  - rewrite lookup_insert_eq. reflexivity.
Qed.

End CaughtUpsert.

Lemma processAttendance_tables sourceClient destClient attendance w :
  tables (snd (AttendanceReport.processAttendance sourceClient destClient attendance w))
  = batch_tables "DailyAttendanceReport" "attendanceId"
      AttendanceReport.DailyAttendanceReport_columns
      (assignments_of AttendanceReport.DailyAttendanceReport_upsert)
      [attendance_write destClient attendance] (tables w).
Proof.
  transitivity
    (tables (snd (try_catch
                    (dest_query destClient AttendanceReport.DailyAttendanceReport_upsert
                       (AttendanceReport.DailyAttendanceReport_values attendance))
                    (fun _ => ret tt) w))).
  - unfold AttendanceReport.processAttendance, try_catch.
    destruct (dest_query destClient _ _ w) as [[[]|e] w1]; reflexivity.
  - exact (caught_upsert_tables "DailyAttendanceReport" "attendanceId"
             AttendanceReport.DailyAttendanceReport_columns
             (assignments_of AttendanceReport.DailyAttendanceReport_upsert)
             destClient
             (AttendanceReport.DailyAttendanceReport_values attendance) w).
Qed.

Lemma attendance_loop_tables sourceClient destClient rows w :
  tables (snd (for_of rows (AttendanceReport.processAttendance sourceClient destClient) w))
  = batch_tables "DailyAttendanceReport" "attendanceId"
      AttendanceReport.DailyAttendanceReport_columns
      (assignments_of AttendanceReport.DailyAttendanceReport_upsert)
      (List.map (attendance_write destClient) rows) (tables w).
Proof.
  revert w. induction rows as [|a rows IH]; intros w.
  - cbn [for_of List.map]. rewrite batch_tables_nil. reflexivity.
  - cbn [for_of List.map]. unfold bind.
    pose proof (processAttendance_tables sourceClient destClient a w) as Ha.
    destruct (processAttendance_never_raises sourceClient destClient a w) as (w1 & E).
    rewrite E in Ha |- *. cbn [snd] in Ha. rewrite IH, Ha.
    apply (batch_tables_app _ _ _ _ [attendance_write destClient a]).
Qed.

Lemma attendance_run_tables sourceClient destClient w :
  tables (snd (AttendanceReport.migrateAttendanceReports sourceClient destClient w))
  = match connect sourceClient, dest_connect destClient,
          fault destClient
            (CreateTableIfNotExists "DailyAttendanceReport" "attendanceId") [] with
    | Ret _, Ret _, None =>
        let db := ensure_table "DailyAttendanceReport" "attendanceId" (tables w) in
        match query sourceClient "SELECT ... FROM public.Attendance a" [] with
        | Ret rows =>
            batch_tables "DailyAttendanceReport" "attendanceId"
              AttendanceReport.DailyAttendanceReport_columns
              (assignments_of AttendanceReport.DailyAttendanceReport_upsert)
              (List.map (attendance_write destClient) rows) db
        | Throw _ => db
        end
    | _, _, _ => tables w
    end.
Proof.
  unfold AttendanceReport.migrateAttendanceReports, try_finally, try_catch,
    AttendanceReport.connectToDBs, AttendanceReport.closeDBs,
    AttendanceReport.createDailyAttendanceReportTable, bind, source_query, lift,
    dest_query, console_error, console_log, ret.
  destruct (connect sourceClient) as [[]|e1]; [|reflexivity].
  destruct (dest_connect destClient) as [[]|e2]; [|reflexivity].
  destruct (fault destClient _ []) as [e3|]; [reflexivity|].
  cbn [exec List.map]. fold (ensure_table "DailyAttendanceReport" "attendanceId" (tables w)).
  assert (Hc : match tables w !! "DailyAttendanceReport"%string with
               | Some _ => Ret (tables w)
               | None => Ret (<["DailyAttendanceReport"%string :=
                                Table (Some "attendanceId"%string) []]> (tables w))
               end
               = Ret (ensure_table "DailyAttendanceReport" "attendanceId" (tables w))).
  { unfold ensure_table. destruct (tables w !! "DailyAttendanceReport"%string); reflexivity. }
  rewrite Hc. clear Hc. cbv zeta.
  destruct (query sourceClient _ []) as [rows|e4]; [|reflexivity].
  pose proof (attendance_loop_tables sourceClient destClient rows
                (World (console w)
                   (ensure_table "DailyAttendanceReport" "attendanceId" (tables w))))
    as Hl.
  destruct (for_of rows _ _) as [[[]|e5] w1]; cbn [snd tables] in Hl |- *; exact Hl.
Qed.

Lemma attendance_settled destClient attendance :
  settled AttendanceReport.DailyAttendanceReport_columns
    (assignments_of AttendanceReport.DailyAttendanceReport_upsert)
    (attendance_write destClient attendance).
Proof. unfold settled. vm_compute. reflexivity. Qed.

Lemma attendance_key_not_assigned :
  ~ In "attendanceId"%string
      (List.map fst (assignments_of AttendanceReport.DailyAttendanceReport_upsert)).
Proof. cbn [List.map fst assignments_of AttendanceReport.DailyAttendanceReport_upsert In].
  intuition discriminate. Qed.

(** X18: the attendance batch is idempotent on the destination.  When the
    attendance rows of the source have pairwise distinct identifiers, a
    second run with the same source and the same destination behaviour
    leaves every table exactly as the first run left it: whatever the
    table held before, whichever writes the destination refuses, and also
    when the connection or the extraction query fails. *)
Theorem X18_attendance_rerun_changes_nothing (sourceClient : Client)
    (destClient : DestClient) (w : world) :
  pairwise_distinct
    (List.map (fun attendance => sent_key attendance "attendanceId")
       (answered sourceClient "SELECT ... FROM public.Attendance a" [])) ->
  let w1 := snd (AttendanceReport.migrateAttendanceReports sourceClient destClient w) in
  let w2 := snd (AttendanceReport.migrateAttendanceReports sourceClient destClient w1) in
  tables w2 = tables w1.
Proof.
  intros Hd w1 w2. unfold w2. rewrite attendance_run_tables.
  unfold w1. rewrite attendance_run_tables. unfold answered in Hd.
  destruct (connect sourceClient) as [[]|e1]; [|reflexivity].
  destruct (dest_connect destClient) as [[]|e2]; [|reflexivity].
  destruct (fault destClient _ []) as [e3|]; [reflexivity|].
  cbv zeta.
  destruct (query sourceClient _ []) as [rows|e4]; [|apply ensure_table_idem].
  rewrite ensure_batch_tables.
  apply batch_tables_idem.
  - exact attendance_key_not_assigned.
  - rewrite List.map_map. exact Hd.
  - intros wr Hin. apply in_map_iff in Hin as (a & <- & _). apply attendance_settled.
Qed.

(** ** Lookups do not depend on the world *)

Lemma blind_ret {A} (a : A) : blind (ret a).
Proof. exists a. intros w. exists w. split; reflexivity. Qed.

Lemma blind_bind {A B} (m : M A) (k : A -> M B) :
  blind m -> (forall a, blind (k a)) -> blind (bind m k).
Proof.
  intros [a Ha] Hk. destruct (Hk a) as [b Hb]. exists b. intros w.
  destruct (Ha w) as (w1 & E1 & T1). destruct (Hb w1) as (w2 & E2 & T2).
  exists w2. unfold bind. rewrite E1, E2. split; [reflexivity|congruence].
Qed.

Lemma blind_console_log l text d : blind (console_log l text d).
Proof. exists tt. intros w. eexists. split; reflexivity. Qed.

Lemma blind_catch_query {A} client text params (k : list value -> M A)
    (handler : error -> M A) :
  (forall rows, blind (k rows)) -> (forall e, blind (handler e)) ->
  blind (try_catch (bind (source_query client text params) k) handler).
Proof.
  intros Hk Hh. unfold try_catch, bind, source_query, lift.
  destruct (query client text params) as [rows|e].
  - destruct (Hk rows) as [a Ha]. exists a. intros w.
    destruct (Ha w) as (w1 & E & T). exists w1. rewrite E. split; [reflexivity|exact T].
  - destruct (Hh e) as [a Ha]. exists a. intros w.
    destruct (Ha w) as (w1 & E & T). exists w1. split; [exact E|exact T].
Qed.

Lemma blind_safeQuery client text params defaultValue errorMessage :
  blind (safeQuery client text params defaultValue errorMessage).
Proof.
  unfold safeQuery, try_catch, source_query, lift, warn, console_warn.
  destruct (query client text params) as [rows|e].
  - exists rows. intros w. exists w. split; reflexivity.
  - exists defaultValue. intros w. eexists. split; reflexivity.
Qed.

Lemma blind_extractIdFromValue v : blind (extractIdFromValue v).
Proof. exists (extracted v). intros w. apply extractIdFromValue_extracted. Qed.

Lemma blind_answer {A} (m : M A) (otherwise : A) :
  blind m ->
  forall w, exists w1, m w = (Ret (answer m otherwise), w1) /\ tables w1 = tables w.
Proof.
  intros [a Ha] w. unfold answer, result.
  destruct (Ha empty_world) as (w0 & E0 & _). rewrite E0. cbn [fst].
  apply Ha.
Qed.

Create HintDb blind.

#[local] Hint Resolve blind_ret blind_console_log blind_safeQuery
  blind_extractIdFromValue : blind.

Ltac blind_step :=
  match goal with
  | |- blind (bind _ _) => apply blind_bind; [|intros]
  | |- blind (try_catch (bind (source_query _ _ _) _) _) =>
      apply blind_catch_query; intros
  | |- blind (if ?c then _ else _) => destruct c
  | |- blind (console_warn _ _) => apply blind_console_log
  | |- _ => solve [eauto with blind]
  end.

Lemma blind_getCustomFields client userId : blind (getCustomFields client userId).
Proof. unfold getCustomFields. repeat blind_step. Qed.

Lemma blind_getUserLocationIds client userId : blind (getUserLocationIds client userId).
Proof. unfold getUserLocationIds. repeat blind_step. Qed.

Lemma blind_getLocationName client id tableName idColumn nameColumn :
  blind (getLocationName client id tableName idColumn nameColumn).
Proof. unfold getLocationName. repeat blind_step. Qed.

#[local] Hint Resolve blind_getLocationName : blind.

Lemma blind_getLocationNames client locationIds :
  blind (getLocationNames client locationIds).
Proof. unfold getLocationNames. repeat blind_step. Qed.

Lemma blind_getUserCohorts client userId : blind (getUserCohorts client userId).
Proof. unfold getUserCohorts. repeat blind_step. Qed.

Lemma blind_getUserTenantAndRole client userId :
  blind (getUserTenantAndRole client userId).
Proof. unfold getUserTenantAndRole. repeat blind_step. Qed.

Lemma bind_blind {A B} (m : M A) (k : A -> M B) (otherwise : A) w :
  blind m ->
  exists w1, tables w1 = tables w /\ bind m k w = k (answer m otherwise) w1.
Proof.
  intros Hm. destruct (blind_answer m otherwise Hm w) as (w1 & E & T).
  exists w1. split; [exact T|]. unfold bind. rewrite E. reflexivity.
Qed.

Ltac bind_answer lem d :=
  match goal with
  | |- context [bind ?m ?k ?w] =>
      let w' := fresh "w" in
      let T := fresh "T" in
      let E := fresh "E" in
      destruct (bind_blind m k d w ltac:(apply lem)) as (w' & T & E);
      rewrite E; clear E
  end.

(** What processUser does with a row: it raises before the write when the
    fullName of the row is not a string, and otherwise hands the writer the
    record of the row and of the lookups' answers, the tables untouched
    until then. *)
Lemma processUser_write sourceClient destClient user w :
  exists w1,
    tables w1 = tables w /\
    match field user "fullName" with
    | JStr full =>
        processUser sourceClient destClient user w
        = insertOrUpdateUserProfileReport destClient
            (user_data_of sourceClient user full) w1
    | _ =>
        processUser sourceClient destClient user w
        = (Throw (Error "TypeError: trim is not a function"), w1)
    end.
Proof.
  unfold processUser.
  bind_answer blind_getCustomFields JNull.
  bind_answer blind_getUserLocationIds no_location_ids.
  bind_answer blind_getLocationNames no_location_names.
  bind_answer blind_getUserCohorts (@nil value).
  bind_answer blind_getUserTenantAndRole no_tenant_and_role.
  exists w4. split; [congruence|].
  destruct (field user "fullName") as [| | | |full| |]; reflexivity.
Qed.

(** ** Re-running the user-profile batch *)

Section UncaughtUpsert.

Variables (t key : string) (cols : list string) (assignments : list (string * sql_expr)).
Variable destClient : DestClient.

Let statement := InsertOnConflictUpdate t cols key assignments.

(** An upsert whose error is not caught: it returns after the write of the
    batch, or raises with the world as it was. *)
Lemma uncaught_upsert wr w :
  refused wr = is_some (fault destClient statement (sent wr)) ->
  match dest_query destClient statement (sent wr) w with
  | (Ret _, w') =>
      refused wr || is_null (write_key key cols wr) = false /\
      tables w' = batch_tables t key cols assignments [wr] (tables w)
  | (Throw _, w') =>
      w' = w /\
      (refused wr || is_null (write_key key cols wr) = true \/
       forall ws, batch_tables t key cols assignments ws (tables w) = tables w)
  end.
Proof.
  intros R. destruct wr as [rf values]. cbn [refused sent] in *. subst rf.
  unfold batch_tables, apply_writes, apply_write, write_key, proposed_row, dest_query,
    statement.
  cbn [fold_left refused sent].
  destruct (fault destClient _ values) as [e|] eqn:Hf; cbn [is_some orb].
  - split; [reflexivity|]. left. reflexivity.
  - cbn [exec]. destruct (tables w !! t) as [tb|] eqn:Ht.
    2:{ split; [reflexivity|]. right. reflexivity. }
    destruct (bool_decide (unique_key tb = Some key)) eqn:Hk; cbn [negb].
    2:{ split; [reflexivity|]. right. reflexivity. }
    apply bool_decide_eq_true in Hk.
    destruct (is_null (cell (combine cols (List.map prepareValue values)) key)).
    + split; [reflexivity|]. left. reflexivity.
    + unfold upsert_rows. rewrite Hk.
      destruct (existsb _ (rows tb)); (split; reflexivity).
Qed.

Context {A : Type}.
Variables (body : A -> M unit) (write_of : A -> option write).

Hypothesis body_writes :
  forall x w, exists w1,
    tables w1 = tables w /\
    match write_of x with
    | Some wr =>
        body x w = dest_query destClient statement (sent wr) w1 /\
        refused wr = is_some (fault destClient statement (sent wr))
    | None => exists e, body x w = (Throw e, w1)
    end.

(** A loop without handler performs the writes before its first failure. *)
Lemma uncaught_loop_tables xs w :
  tables (snd (for_of xs body w))
  = batch_tables t key cols assignments
      (effective_writes key cols (List.map write_of xs)) (tables w).
Proof.
  revert w. induction xs as [|x xs IH]; intros w.
  - cbn [for_of List.map effective_writes]. rewrite batch_tables_nil. reflexivity.
  - cbn [for_of List.map effective_writes]. unfold bind.
    destruct (body_writes x w) as (w1 & T & H).
    destruct (write_of x) as [wr|].
    + destruct H as (E & R). rewrite E.
      pose proof (uncaught_upsert wr w1 R) as U.
      destruct (dest_query destClient statement (sent wr) w1) as [[[]|e] w'].
      * destruct U as (Hs & Ht). rewrite Hs, IH, Ht, T.
        apply (batch_tables_app _ _ _ _ [wr]).
      * destruct U as (-> & [Hs|Hn]); cbn [snd].
        -- rewrite Hs, batch_tables_nil. exact T.
        -- rewrite <- T, Hn. reflexivity.
    + destruct H as (e & E). rewrite E. cbn [snd].
      rewrite batch_tables_nil. exact T.
Qed.

End UncaughtUpsert.

Lemma effective_writes_distinct {A} key cols (write_of : A -> option write)
    (key_of : A -> param) xs :
  (forall x wr, write_of x = Some wr -> write_key key cols wr = key_of x) ->
  pairwise_distinct (List.map key_of xs) ->
  pairwise_distinct
    (List.map (write_key key cols) (effective_writes key cols (List.map write_of xs))).
Proof.
  intros Hk.
  assert (Hsub : forall (P : param -> Prop) ys,
             Forall P (List.map key_of ys) ->
             Forall P (List.map (write_key key cols)
                         (effective_writes key cols (List.map write_of ys)))).
  { intros P ys. induction ys as [|y ys IH]; intros HP; [constructor|].
    cbn [List.map effective_writes] in *. inversion HP as [|? ? Hy Hys]; subst.
    destruct (write_of y) as [wr|] eqn:E; [|constructor].
    destruct (refused wr || is_null (write_key key cols wr)); [constructor|].
    cbn [List.map]. constructor; [|exact (IH Hys)].
    rewrite (Hk y wr E). exact Hy. }
  induction xs as [|x xs IH]; intros Hd; [exact I|].
  cbn [List.map effective_writes] in *.
  destruct (write_of x) as [wr|] eqn:E; [|exact I].
  destruct (refused wr || is_null (write_key key cols wr)); [exact I|].
  cbn [List.map]. unfold pairwise_distinct in *. fold pairwise_distinct in *.
  destruct Hd as (Hx & Hxs). split; [|exact (IH Hxs)].
  rewrite (Hk x wr E). apply Hsub. exact Hx.
Qed.

Lemma processUser_writes sourceClient destClient user w :
  exists w1,
    tables w1 = tables w /\
    match user_write sourceClient destClient user with
    | Some wr =>
        UserProfileReport.processUser sourceClient destClient user w
        = dest_query destClient UserProfileReport.UserProfileReport_upsert (sent wr) w1 /\
        refused wr
        = is_some (fault destClient UserProfileReport.UserProfileReport_upsert (sent wr))
    | None =>
        exists e,
          UserProfileReport.processUser sourceClient destClient user w = (Throw e, w1)
    end.
Proof.
  destruct (processUser_write sourceClient destClient user w) as (w1 & T & H).
  exists w1. split; [exact T|]. unfold user_write.
  destruct (field user "fullName") as [| | | |full| |];
    try (eexists; exact H).
  cbn [sent refused]. split; [exact H|reflexivity].
Qed.

Lemma user_loop_tables sourceClient destClient rows w :
  tables (snd (for_of rows (UserProfileReport.processUser sourceClient destClient) w))
  = batch_tables "UserProfileReport" "userId" UserProfileReport.UserProfileReport_columns
      (assignments_of UserProfileReport.UserProfileReport_upsert)
      (effective_writes "userId" UserProfileReport.UserProfileReport_columns
         (List.map (user_write sourceClient destClient) rows))
      (tables w).
Proof.
  apply (uncaught_loop_tables "UserProfileReport" "userId"
           UserProfileReport.UserProfileReport_columns
           (assignments_of UserProfileReport.UserProfileReport_upsert) destClient
           (UserProfileReport.processUser sourceClient destClient)
           (user_write sourceClient destClient)).
  intros x w'. apply processUser_writes.
Qed.

Lemma user_run_tables sourceClient destClient w :
  tables (snd (UserProfileReport.migrateUserProfileReports sourceClient destClient w))
  = match connect sourceClient, dest_connect destClient,
          fault destClient (CreateTableIfNotExists "UserProfileReport" "userId") [] with
    | Ret _, Ret _, None =>
        let db := ensure_table "UserProfileReport" "userId" (tables w) in
        match query sourceClient UserProfileReport.usersQuery [] with
        | Ret rows =>
            batch_tables "UserProfileReport" "userId"
              UserProfileReport.UserProfileReport_columns
              (assignments_of UserProfileReport.UserProfileReport_upsert)
              (effective_writes "userId" UserProfileReport.UserProfileReport_columns
                 (List.map (user_write sourceClient destClient) rows)) db
        | Throw _ => db
        end
    | _, _, _ => tables w
    end.
Proof.
  unfold UserProfileReport.migrateUserProfileReports, try_finally, try_catch,
    UserProfileReport.connectToDBs, UserProfileReport.closeDBs,
    UserProfileReport.createUserProfileReportTable, bind, source_query, lift,
    dest_query, console_error, console_log, ret.
  destruct (connect sourceClient) as [[]|e1]; [|reflexivity].
  destruct (dest_connect destClient) as [[]|e2]; [|reflexivity].
  destruct (fault destClient _ []) as [e3|]; [reflexivity|].
  cbn [exec List.map]. fold (ensure_table "UserProfileReport" "userId" (tables w)).
  assert (Hc : match tables w !! "UserProfileReport"%string with
               | Some _ => Ret (tables w)
               | None => Ret (<["UserProfileReport"%string :=
                                Table (Some "userId"%string) []]> (tables w))
               end
               = Ret (ensure_table "UserProfileReport" "userId" (tables w))).
  { unfold ensure_table. destruct (tables w !! "UserProfileReport"%string); reflexivity. }
  rewrite Hc. clear Hc. cbv zeta.
  destruct (query sourceClient _ []) as [rows|e4]; [|reflexivity].
  pose proof (user_loop_tables sourceClient destClient rows
                (World (console w)
                   (ensure_table "UserProfileReport" "userId" (tables w))))
    as Hl.
  destruct (for_of rows _ _) as [[[]|e5] w1]; cbn [snd tables] in Hl |- *; exact Hl.
Qed.

Lemma user_write_key sourceClient destClient user wr :
  user_write sourceClient destClient user = Some wr ->
  write_key "userId" UserProfileReport.UserProfileReport_columns wr
  = sent_key user "userId".
Proof.
  unfold user_write. destruct (field user "fullName"); try discriminate.
  intros [= <-]. reflexivity.
Qed.

Lemma user_write_settled sourceClient destClient user wr :
  user_write sourceClient destClient user = Some wr ->
  settled UserProfileReport.UserProfileReport_columns
    (assignments_of UserProfileReport.UserProfileReport_upsert) wr.
Proof.
  unfold user_write. destruct (field user "fullName") as [| | | |full| |]; try discriminate.
  intros [= <-]. unfold settled. cbn [sent].
  generalize (user_data_of sourceClient user full). intros userData.
  vm_compute. reflexivity.
Qed.

Lemma user_key_not_assigned :
  ~ In "userId"%string
      (List.map fst (assignments_of UserProfileReport.UserProfileReport_upsert)).
Proof.
  cbn [List.map fst assignments_of UserProfileReport.UserProfileReport_upsert In].
  intuition discriminate.
Qed.

Lemma effective_writes_in {A} key cols (write_of : A -> option write) xs wr :
  In wr (effective_writes key cols (List.map write_of xs)) ->
  exists x, write_of x = Some wr.
Proof.
  induction xs as [|x xs IH]; cbn [List.map effective_writes]; [intros []|].
  destruct (write_of x) as [wr'|] eqn:E; [|intros []].
  destruct (refused wr' || is_null (write_key key cols wr')); [intros []|].
  intros [<-|Hin]; [exists x; exact E|exact (IH Hin)].
Qed.

(** X19: the user-profile batch is idempotent on the destination.  When the
    user rows of the source have pairwise distinct identifiers, a second
    run with the same source and the same destination behaviour leaves
    every table exactly as the first run left it: whatever the table held
    before, also when a row stops the loop, and also when the connection
    or the extraction query fails. *)
Theorem X19_user_profile_rerun_changes_nothing (sourceClient : Client)
    (destClient : DestClient) (w : world) :
  pairwise_distinct
    (List.map (fun user => sent_key user "userId")
       (answered sourceClient UserProfileReport.usersQuery [])) ->
  let w1 := snd (UserProfileReport.migrateUserProfileReports sourceClient destClient w) in
  let w2 := snd (UserProfileReport.migrateUserProfileReports sourceClient destClient w1) in
  tables w2 = tables w1.
Proof.
  intros Hd w1 w2. unfold w2. rewrite user_run_tables.
  unfold w1. rewrite user_run_tables. unfold answered in Hd.
  destruct (connect sourceClient) as [[]|e1]; [|reflexivity].
  destruct (dest_connect destClient) as [[]|e2]; [|reflexivity].
  destruct (fault destClient _ []) as [e3|]; [reflexivity|].
  cbv zeta.
  destruct (query sourceClient _ []) as [rows|e4]; [|apply ensure_table_idem].
  rewrite ensure_batch_tables.
  apply batch_tables_idem.
  - exact user_key_not_assigned.
  - apply (effective_writes_distinct _ _ _ (fun user => sent_key user "userId")).
    + intros x wr. apply user_write_key.
    + exact Hd.
  - intros wr Hin. apply effective_writes_in in Hin as (x & Hx).
    exact (user_write_settled _ _ _ _ Hx).
Qed.

(** ** Re-running the cohort and the assessment batches *)

Section CaughtLoop.

Variables (t key : string) (cols : list string) (assignments : list (string * sql_expr)).
Context {A : Type}.
Variables (body : A -> M unit) (write_of : A -> write).

Hypothesis body_writes :
  forall x w, exists w',
    body x w = (Ret tt, w') /\
    tables w' = batch_tables t key cols assignments [write_of x] (tables w).

(** A loop whose body swallows its errors performs every write. *)
Lemma caught_loop_tables xs w :
  tables (snd (for_of xs body w))
  = batch_tables t key cols assignments (List.map write_of xs) (tables w).
Proof.
  revert w. induction xs as [|x xs IH]; intros w.
  - cbn [for_of List.map]. rewrite batch_tables_nil. reflexivity.
  - cbn [for_of List.map]. unfold bind.
    destruct (body_writes x w) as (w' & E & T). rewrite E, IH, T.
    apply (batch_tables_app _ _ _ _ [write_of x]).
Qed.

End CaughtLoop.

Lemma blind_getCohortLocationIds client cohortId :
  blind (CohortSummaryReport.getCohortLocationIds client cohortId).
Proof. unfold CohortSummaryReport.getCohortLocationIds. repeat blind_step. Qed.

Lemma blind_cohort_getLocationName client id tableName idColumn nameColumn :
  blind (CohortSummaryReport.getLocationName client id tableName idColumn nameColumn).
Proof. unfold CohortSummaryReport.getLocationName. repeat blind_step. Qed.

#[local] Hint Resolve blind_cohort_getLocationName : blind.

Lemma blind_cohort_getLocationNames client locationIds :
  blind (CohortSummaryReport.getLocationNames client locationIds).
Proof. unfold CohortSummaryReport.getLocationNames. repeat blind_step. Qed.

Lemma processCohort_writes sourceClient destClient cohort w :
  exists w',
    CohortSummaryReport.processCohort sourceClient destClient cohort w = (Ret tt, w') /\
    tables w'
    = batch_tables "CohortSummaryReport" "cohortId"
        CohortSummaryReport.CohortSummaryReport_columns
        (assignments_of CohortSummaryReport.CohortSummaryReport_upsert)
        [cohort_write sourceClient destClient cohort] (tables w).
Proof.
  destruct (processCohort_never_raises sourceClient destClient cohort w) as (w' & E).
  exists w'. split; [exact E|].
  apply (f_equal snd) in E. cbn [snd] in E. rewrite <- E. clear E w'.
  unfold CohortSummaryReport.processCohort, try_catch.
  bind_answer blind_getCustomFields JNull.
  bind_answer blind_getCohortLocationIds no_location_ids.
  bind_answer blind_cohort_getLocationNames no_location_names.
  rewrite <- T, <- T0, <- T1.
  transitivity
    (tables (snd (try_catch
                    (dest_query destClient CohortSummaryReport.CohortSummaryReport_upsert
                       (cohort_values sourceClient cohort))
                    (fun _ => ret tt) w2))).
  - unfold try_catch, cohort_values. cbv zeta.
    destruct (dest_query destClient _ _ w2) as [[[]|e] w3]; reflexivity.
  - exact (caught_upsert_tables "CohortSummaryReport" "cohortId"
             CohortSummaryReport.CohortSummaryReport_columns
             (assignments_of CohortSummaryReport.CohortSummaryReport_upsert)
             destClient (cohort_values sourceClient cohort) w2).
Qed.

Lemma cohort_run_tables sourceClient destClient w :
  tables (snd (CohortSummaryReport.migrateCohortSummaryReports sourceClient destClient w))
  = match connect sourceClient, dest_connect destClient,
          fault destClient (CreateTableIfNotExists "CohortSummaryReport" "cohortId") [] with
    | Ret _, Ret _, None =>
        let db := ensure_table "CohortSummaryReport" "cohortId" (tables w) in
        match query sourceClient
                "SELECT ... FROM public.Cohort c LEFT JOIN ... GROUP BY ..." [] with
        | Ret rows =>
            batch_tables "CohortSummaryReport" "cohortId"
              CohortSummaryReport.CohortSummaryReport_columns
              (assignments_of CohortSummaryReport.CohortSummaryReport_upsert)
              (List.map (cohort_write sourceClient destClient) rows) db
        | Throw _ => db
        end
    | _, _, _ => tables w
    end.
Proof.
  unfold CohortSummaryReport.migrateCohortSummaryReports, try_finally, try_catch,
    CohortSummaryReport.connectToDBs, CohortSummaryReport.closeDBs,
    CohortSummaryReport.createCohortSummaryReportTable, bind, source_query, lift,
    dest_query, console_error, console_log, ret.
  destruct (connect sourceClient) as [[]|e1]; [|reflexivity].
  destruct (dest_connect destClient) as [[]|e2]; [|reflexivity].
  destruct (fault destClient _ []) as [e3|]; [reflexivity|].
  cbn [exec List.map]. fold (ensure_table "CohortSummaryReport" "cohortId" (tables w)).
  assert (Hc : match tables w !! "CohortSummaryReport"%string with
               | Some _ => Ret (tables w)
               | None => Ret (<["CohortSummaryReport"%string :=
                                Table (Some "cohortId"%string) []]> (tables w))
               end
               = Ret (ensure_table "CohortSummaryReport" "cohortId" (tables w))).
  { unfold ensure_table. destruct (tables w !! "CohortSummaryReport"%string); reflexivity. }
  rewrite Hc. clear Hc. cbv zeta.
  destruct (query sourceClient _ []) as [rows|e4]; [|reflexivity].
  pose proof (caught_loop_tables "CohortSummaryReport" "cohortId"
                CohortSummaryReport.CohortSummaryReport_columns
                (assignments_of CohortSummaryReport.CohortSummaryReport_upsert)
                (CohortSummaryReport.processCohort sourceClient destClient)
                (cohort_write sourceClient destClient)
                (processCohort_writes sourceClient destClient) rows
                (World (console w)
                   (ensure_table "CohortSummaryReport" "cohortId" (tables w))))
    as Hl.
  destruct (for_of rows _ _) as [[[]|e5] w1]; cbn [snd tables] in Hl |- *; exact Hl.
Qed.

Lemma cohort_settled sourceClient destClient cohort :
  settled CohortSummaryReport.CohortSummaryReport_columns
    (assignments_of CohortSummaryReport.CohortSummaryReport_upsert)
    (cohort_write sourceClient destClient cohort).
Proof.
  unfold settled, cohort_write, cohort_values. cbn [sent]. cbv zeta.
  generalize (answer (UserProfileReport.getCustomFields sourceClient
                        (field cohort "cohortId")) JNull).
  generalize (answer (CohortSummaryReport.getLocationNames sourceClient
                        (answer (CohortSummaryReport.getCohortLocationIds sourceClient
                                   (field cohort "cohortId")) no_location_ids))
                no_location_names).
  intros names customFields.
  unfold proposed_row, CohortSummaryReport.CohortSummaryReport_columns.
  cbn [List.map combine assignments_of CohortSummaryReport.CohortSummaryReport_upsert].
  rewrite update_row_map. cbn [List.map].
  repeat (f_equal; try (vm_compute; reflexivity)).
Qed.

Lemma cohort_key_not_assigned :
  ~ In "cohortId"%string
      (List.map fst (assignments_of CohortSummaryReport.CohortSummaryReport_upsert)).
Proof.
  cbn [List.map fst assignments_of CohortSummaryReport.CohortSummaryReport_upsert In].
  intuition discriminate.
Qed.

(** X20: the cohort batch is idempotent on the destination.  When the
    cohort rows of the source have pairwise distinct identifiers, a second
    run with the same source and the same destination behaviour leaves
    every table exactly as the first run left it: whatever the table held
    before, whichever lookups fail and whichever writes the destination
    refuses, and also when the connection or the extraction query fails. *)
Theorem X20_cohort_rerun_changes_nothing (sourceClient : Client)
    (destClient : DestClient) (w : world) :
  pairwise_distinct
    (List.map (fun cohort => sent_key cohort "cohortId")
       (answered sourceClient
          "SELECT ... FROM public.Cohort c LEFT JOIN ... GROUP BY ..." [])) ->
  let w1 :=
    snd (CohortSummaryReport.migrateCohortSummaryReports sourceClient destClient w) in
  let w2 :=
    snd (CohortSummaryReport.migrateCohortSummaryReports sourceClient destClient w1) in
  tables w2 = tables w1.
Proof.
  intros Hd w1 w2. unfold w2. rewrite cohort_run_tables.
  unfold w1. rewrite cohort_run_tables. unfold answered in Hd.
  destruct (connect sourceClient) as [[]|e1]; [|reflexivity].
  destruct (dest_connect destClient) as [[]|e2]; [|reflexivity].
  destruct (fault destClient _ []) as [e3|]; [reflexivity|].
  cbv zeta.
  destruct (query sourceClient _ []) as [rows|e4]; [|apply ensure_table_idem].
  rewrite ensure_batch_tables.
  apply batch_tables_idem.
  - exact cohort_key_not_assigned.
  - rewrite List.map_map. exact Hd.
  - intros wr Hin. apply in_map_iff in Hin as (a & <- & _). apply cohort_settled.
Qed.

Lemma assessment_row_writes axios destClient assessment w :
  exists w1,
    tables w1 = tables w /\
    match Some (assessment_write axios destClient assessment) with
    | Some wr =>
        bind (Assessment.fetchApiData axios (field assessment "courseId"))
          (fun apiData =>
             dest_query destClient assessment_tracking_upsert
               (Assessment.assessment_values assessment apiData)) w
        = dest_query destClient assessment_tracking_upsert (sent wr) w1 /\
        refused wr = is_some (fault destClient assessment_tracking_upsert (sent wr))
    | None =>
        exists e,
          bind (Assessment.fetchApiData axios (field assessment "courseId"))
            (fun apiData =>
               dest_query destClient assessment_tracking_upsert
                 (Assessment.assessment_values assessment apiData)) w
          = (Throw e, w1)
    end.
Proof.
  destruct (bind_result (Assessment.fetchApiData axios (field assessment "courseId"))
              (fun apiData =>
                 dest_query destClient assessment_tracking_upsert
                   (Assessment.assessment_values assessment apiData))
              w (fetched_question_set axios (field assessment "courseId"))
              (fetchApiData_resolves axios _)
              (fetchApiData_result axios _ w)) as (w1 & T & E).
  exists w1. split; [exact T|]. split; [exact E|reflexivity].
Qed.

Lemma assessment_run_tables axios sourceClient destClient w :
  tables (snd (Assessment.migrateAssessments axios sourceClient destClient w))
  = match connect sourceClient, dest_connect destClient,
          query sourceClient "SELECT * FROM public.assessment_tracking" [] with
    | Ret _, Ret _, Ret rows =>
        batch_tables "assessment_tracking" "assessmentTrackingId"
          Assessment.assessment_tracking_columns
          (assignments_of assessment_tracking_upsert)
          (effective_writes "assessmentTrackingId" Assessment.assessment_tracking_columns
             (List.map (fun assessment => Some (assessment_write axios destClient assessment))
                rows))
          (tables w)
    | _, _, _ => tables w
    end.
Proof.
  unfold Assessment.migrateAssessments, Assessment.migrateAssessmentTrackingTable,
    try_finally, try_catch.
  unfold bind at 1 2 3 4. unfold source_query, lift, console_error, console_log, ret.
  destruct (connect sourceClient) as [[]|e1]; [|reflexivity].
  destruct (dest_connect destClient) as [[]|e2]; [|reflexivity].
  destruct (query sourceClient _ []) as [rows|e4]; [|reflexivity].
  pose proof (uncaught_loop_tables "assessment_tracking" "assessmentTrackingId"
                Assessment.assessment_tracking_columns
                (assignments_of assessment_tracking_upsert) destClient
                (fun assessment =>
                   bind (Assessment.fetchApiData axios (field assessment "courseId"))
                     (fun apiData =>
                        dest_query destClient assessment_tracking_upsert
                          (Assessment.assessment_values assessment apiData)))
                (fun assessment => Some (assessment_write axios destClient assessment))
                (assessment_row_writes axios destClient) rows w)
    as Hl.
  unfold assessment_tracking_upsert in Hl at 1.
  destruct (for_of rows _ w) as [[[]|e5] w1]; cbn [snd tables] in Hl |- *; exact Hl.
Qed.

Lemma assessment_settled axios destClient assessment :
  settled Assessment.assessment_tracking_columns
    (assignments_of assessment_tracking_upsert)
    (assessment_write axios destClient assessment).
Proof.
  unfold settled, assessment_write. cbv zeta. cbn [sent].
  generalize (fetched_question_set axios (field assessment "courseId")). intros apiData.
  unfold proposed_row, Assessment.assessment_tracking_columns,
    Assessment.assessment_values.
  cbv zeta.
  cbn [List.map combine assignments_of assessment_tracking_upsert].
  rewrite update_row_map. cbn [List.map].
  repeat (f_equal; try (vm_compute; reflexivity)).
Qed.

Lemma assessment_key_not_assigned :
  ~ In "assessmentTrackingId"%string
      (List.map fst (assignments_of assessment_tracking_upsert)).
Proof.
  cbn [List.map fst assignments_of assessment_tracking_upsert In].
  intuition discriminate.
Qed.

(** X21: the assessment batch is idempotent on the destination.  When the
    assessment rows of the source have pairwise distinct identifiers, a
    second run with the same source, the same answers of the content
    service and the same destination behaviour leaves every table exactly
    as the first run left it: whatever the table held before, also when a
    row stops the loop, and also when a connection or the extraction query
    fails. *)
Theorem X21_assessment_rerun_changes_nothing (axios : Axios) (sourceClient : Client)
    (destClient : DestClient) (w : world) :
  pairwise_distinct
    (List.map (fun assessment => sent_key assessment "assessmentTrackingId")
       (answered sourceClient "SELECT * FROM public.assessment_tracking" [])) ->
  let w1 := snd (Assessment.migrateAssessments axios sourceClient destClient w) in
  let w2 := snd (Assessment.migrateAssessments axios sourceClient destClient w1) in
  tables w2 = tables w1.
Proof.
  intros Hd w1 w2. unfold w2. rewrite assessment_run_tables.
  unfold w1. rewrite assessment_run_tables. unfold answered in Hd.
  destruct (connect sourceClient) as [[]|e1]; [|reflexivity].
  destruct (dest_connect destClient) as [[]|e2]; [|reflexivity].
  destruct (query sourceClient _ []) as [rows|e4]; [|reflexivity].
  apply batch_tables_idem.
  - exact assessment_key_not_assigned.
  - apply (effective_writes_distinct _ _ _
             (fun assessment => sent_key assessment "assessmentTrackingId")).
    + intros x wr [= <-]. reflexivity.
    + exact Hd.
  - intros wr Hin. apply effective_writes_in in Hin as (x & [= <-]).
    apply assessment_settled.
Qed.

(** ** Delete-then-insert batches *)

Section DeleteThenInsert.

Variables (t col : string) (cols : list string) (destClient : DestClient).

Hypothesis never_refuses : forall st vs, fault destClient st vs = None.
Hypothesis key_copied : forall d, cell (copied_row cols d) col = sent_key d col.

Let body (d : value) : M unit :=
  dest_query destClient (DeleteWhereEq t col) [PValue (field d col)] ;;
  dest_query destClient (Insert t cols) (List.map (fun c => PValue (field d c)) cols).

Lemma delete_insert_loop ds w tb :
  tables w !! t = Some tb ->
  unique_key tb = None ->
  for_of ds body w
  = (Ret tt,
     World (console w) (<[t := Table None (replaced_rows col cols ds (rows tb))]> (tables w))).
Proof.
  revert w tb. induction ds as [|d ds IH]; intros w tb Ht Hk.
  - cbn [for_of replaced_rows fold_left]. unfold ret. destruct w as [c db].
    cbn [console tables] in *. f_equal. f_equal. symmetry. apply insert_id.
    rewrite Ht. destruct tb as [uk rs]. cbn in Hk. subst uk. reflexivity.
  - cbn [for_of]. unfold bind at 1. unfold body at 1.
    rewrite (delete_then_insert destClient t col cols (PValue (field d col))
               (List.map (fun c => PValue (field d c)) cols) w tb never_refuses Ht Hk).
    erewrite IH; [|cbn [tables]; apply lookup_insert_eq|reflexivity].
    cbn [console tables rows]. rewrite insert_insert_eq. reflexivity.
Qed.

Lemma outside_cons k ks r :
  outside col (k :: ks) r = negb (sql_eq (cell r col) k) && outside col ks r.
Proof. reflexivity. Qed.

Lemma filter_outside_cons k ks rs :
  List.filter (outside col ks) (List.filter (fun r => negb (sql_eq (cell r col) k)) rs)
  = List.filter (outside col (k :: ks)) rs.
Proof.
  induction rs as [|r rs IH]; [reflexivity|].
  cbn [List.filter]. rewrite outside_cons.
  destruct (negb (sql_eq (cell r col) k)); cbn [List.filter andb]; rewrite IH; reflexivity.
Qed.

(** With pairwise distinct keys the batch keeps the rows that hold none of
    its keys and appends its own rows in order. *)
Lemma replaced_rows_closed ds rs :
  pairwise_distinct (List.map (fun d => sent_key d col) ds) ->
  replaced_rows col cols ds rs
  = List.filter (outside col (List.map (fun d => sent_key d col) ds)) rs
    ++ List.map (copied_row cols) ds.
Proof.
  revert rs. induction ds as [|d ds IH]; intros rs Hd.
  - cbn [replaced_rows fold_left List.map]. rewrite List.app_nil_r.
    induction rs as [|r rs IHr]; [reflexivity|].
    cbn [List.filter outside forallb]. rewrite <- IHr at 1. reflexivity.
  - cbn [List.map] in Hd. destruct Hd as (Hd1 & Hd2).
    change (replaced_rows col cols (d :: ds) rs)
      with (replaced_rows col cols ds
              (List.filter (fun r => negb (sql_eq (cell r col) (sent_key d col))) rs
               ++ [copied_row cols d])).
    rewrite (IH _ Hd2), List.filter_app, filter_outside_cons.
    cbn [List.map]. rewrite <- List.app_assoc. f_equal.
    cbn [List.filter]. 
    assert (Ho : outside col (List.map (fun d => sent_key d col) ds) (copied_row cols d)
                 = true).
    { unfold outside. rewrite key_copied. apply forallb_forall. intros k Hin.
      pose proof (proj1 (List.Forall_forall _ _) Hd1 k Hin) as Hk. cbv beta in Hk.
      rewrite Hk. reflexivity. }
    rewrite Ho. reflexivity.
Qed.

Lemma filter_outside_idem ks rs :
  List.filter (outside col ks) (List.filter (outside col ks) rs)
  = List.filter (outside col ks) rs.
Proof.
  induction rs as [|r rs IH]; [reflexivity|].
  cbn [List.filter]. destruct (outside col ks r) eqn:E; [|exact IH].
  cbn [List.filter]. rewrite E, IH. reflexivity.
Qed.

Lemma filter_outside_own ds ks :
  Forall (fun d => is_null (sent_key d col) = false) ds ->
  (forall d, In d ds -> In (sent_key d col) ks) ->
  List.filter (outside col ks) (List.map (copied_row cols) ds) = [].
Proof.
  induction ds as [|d ds IH]; intros Hn Hin; [reflexivity|].
  inversion Hn as [|? ? Hd Hds]; subst. cbn [List.map List.filter].
  assert (Ho : outside col ks (copied_row cols d) = false).
  { unfold outside. rewrite key_copied.
    apply not_true_is_false. intros Hall.
    pose proof (proj1 (forallb_forall _ _) Hall (sent_key d col)
                  (Hin d (or_introl eq_refl))) as Hk.
    cbv beta in Hk. unfold sql_eq in Hk. rewrite Hd, param_eqb_refl in Hk.
    discriminate Hk. }
  rewrite Ho. apply IH; [exact Hds|]. intros d' Hd'. apply Hin. right. exact Hd'.
Qed.

(** A second pass of the batch gives the rows of the first. *)
Lemma replaced_rows_idem ds rs :
  pairwise_distinct (List.map (fun d => sent_key d col) ds) ->
  Forall (fun d => is_null (sent_key d col) = false) ds ->
  replaced_rows col cols ds (replaced_rows col cols ds rs)
  = replaced_rows col cols ds rs.
Proof.
  intros Hd Hn. rewrite !(replaced_rows_closed ds _ Hd).
  rewrite List.filter_app, filter_outside_idem, filter_outside_own.
  - rewrite List.app_nil_r. reflexivity.
  - exact Hn.
  - intros d Hin. apply in_map_iff. exists d. split; [reflexivity|exact Hin].
Qed.

Lemma delete_insert_run sourceClient q w tb :
  let ds := answered sourceClient q [] in
  let run := bind (source_query sourceClient q []) (fun rows => for_of rows body) in
  tables w !! t = Some tb ->
  unique_key tb = None ->
  pairwise_distinct (List.map (fun d => sent_key d col) ds) ->
  Forall (fun d => is_null (sent_key d col) = false) ds ->
  table_rows (snd (run w)) t
  = List.filter (outside col (List.map (fun d => sent_key d col) ds)) (rows tb)
    ++ List.map (copied_row cols) ds /\
  tables (snd (run (snd (run w)))) = tables (snd (run w)).
Proof.
  intros ds run Ht Hk Hd Hn.
  assert (Hrun : forall w0,
             run w0 = match query sourceClient q [] with
                      | Ret rows => for_of rows body w0
                      | Throw e => (Throw e, w0)
                      end).
  { intros w0. unfold run, bind at 1, source_query, lift.
    destruct (query sourceClient q []); reflexivity. }
  rewrite !Hrun. clear Hrun run. subst ds. unfold answered in *.
  destruct (query sourceClient q []) as [ds|e].
  - rewrite (delete_insert_loop ds w tb Ht Hk). cbn [snd].
    erewrite delete_insert_loop; [|cbn [tables]; apply lookup_insert_eq|reflexivity].
    cbn [snd tables console rows]. unfold table_rows. cbn [tables].
    rewrite lookup_insert_eq, insert_insert_eq. cbn [rows].
    rewrite (replaced_rows_idem ds (rows tb) Hd Hn).
    split; [|reflexivity]. apply replaced_rows_closed. exact Hd.
  - cbn [snd]. split; [|reflexivity].
    unfold table_rows. rewrite Ht. cbn [List.map]. rewrite List.app_nil_r.
    generalize (rows tb). intros rs.
    induction rs as [|r rs IHr]; [reflexivity|].
    cbn [List.filter outside forallb]. rewrite <- IHr at 1. reflexivity.
Qed.

End DeleteThenInsert.

(** X22: re-running the copy of user_course_certificate.  On a destination
    that refuses nothing, whose table carries no uniqueness constraint,
    and for source rows with pairwise distinct identifiers that are not
    null, the run keeps the rows of the table that hold none of the
    identifiers, puts the copies of the source rows after them in source
    order, and a second run leaves every table as the first left it. *)
Theorem X22_certificate_copy_rerun (sourceClient : Client) (destClient : DestClient)
    (w : world) (tb : table) :
  let ds := answered sourceClient "SELECT * FROM public.user_course_certificate" [] in
  let ids := List.map (fun d => sent_key d "usercertificateId") ds in
  (forall st vs, fault destClient st vs = None) ->
  tables w !! "user_course_certificate"%string = Some tb ->
  unique_key tb = None ->
  pairwise_distinct ids ->
  Forall (fun d => is_null (sent_key d "usercertificateId") = false) ds ->
  let w1 := snd (Course.migrateUserCourseDataTable sourceClient destClient w) in
  let w2 := snd (Course.migrateUserCourseDataTable sourceClient destClient w1) in
  table_rows w1 "user_course_certificate"
  = List.filter (outside "usercertificateId" ids) (rows tb)
    ++ List.map (copied_row Course.user_course_certificate_columns) ds /\
  tables w2 = tables w1.
Proof.
  intros ds ids Hf Ht Hk Hd Hn.
  exact (delete_insert_run "user_course_certificate" "usercertificateId"
           Course.user_course_certificate_columns destClient Hf
           (fun d => eq_refl) sourceClient
           "SELECT * FROM public.user_course_certificate" w tb Ht Hk Hd Hn).
Qed.

(** X23: re-running the copy of assessment_tracking_score_detail.  On a
    destination that refuses nothing, whose table carries no uniqueness
    constraint, and for source rows with pairwise distinct ids that are not
    null, the run keeps the rows of the table that hold none of the ids,
    puts the copies of the source rows after them in source order, and a
    second run leaves every table as the first left it. *)
Theorem X23_score_detail_copy_rerun (sourceClient : Client) (destClient : DestClient)
    (w : world) (tb : table) :
  let ds :=
    answered sourceClient "SELECT * FROM public.assessment_tracking_score_detail" [] in
  let ids := List.map (fun d => sent_key d "id") ds in
  (forall st vs, fault destClient st vs = None) ->
  tables w !! "assessment_tracking_score_detail"%string = Some tb ->
  unique_key tb = None ->
  pairwise_distinct ids ->
  Forall (fun d => is_null (sent_key d "id") = false) ds ->
  let w1 := snd (Assessment.migrateScoreDetailsTable sourceClient destClient w) in
  let w2 := snd (Assessment.migrateScoreDetailsTable sourceClient destClient w1) in
  table_rows w1 "assessment_tracking_score_detail"
  = List.filter (outside "id" ids) (rows tb)
    ++ List.map (copied_row Assessment.score_detail_columns) ds /\
  tables w2 = tables w1.
Proof.
  intros ds ids Hf Ht Hk Hd Hn.
  exact (delete_insert_run "assessment_tracking_score_detail" "id"
           Assessment.score_detail_columns destClient Hf
           (fun d => eq_refl) sourceClient
           "SELECT * FROM public.assessment_tracking_score_detail" w tb Ht Hk Hd Hn).
Qed.

(** X24: an assessment whose enrichment is not available is still written.
    When the course identifier of the row is falsy or the request to the
    content service fails, the row is sent with the values of the empty
    object: its thirteen enrichment columns are NULL and its summary type
    is assessment_tracking. *)
Theorem X24_assessment_without_enrichment (axios : Axios) (destClient : DestClient)
    (assessment : value) (w : world) :
  ToBoolean (field assessment "courseId") = false \/
  (exists e, post axios (field assessment "courseId") = Throw e) ->
  exists w1,
    tables w1 = tables w /\
    Assessment.migrateAssessmentTrackingTable axios
      (source_of "SELECT * FROM public.assessment_tracking" [assessment]) destClient w
    = bind (dest_query destClient assessment_tracking_upsert
              (Assessment.assessment_values assessment (JObj [])))
        (fun _ => ret tt) w1 /\
    skipn 13 (Assessment.assessment_values assessment (JObj []))
    = repeat (PValue JNull) 13 ++ [PValue (str "assessment_tracking")].
Proof.
  intros H.
  destruct (assessment_run_one axios destClient assessment w) as (w1 & T & E).
  exists w1. split; [exact T|]. split; [|reflexivity].
  rewrite E.
  assert (Hq : fetched_question_set axios (field assessment "courseId") = JObj []).
  { unfold fetched_question_set. destruct H as [Hc|(e & He)].
    - rewrite Hc. destruct (post axios _); reflexivity.
    - rewrite He. reflexivity. }
  rewrite Hq. reflexivity.
Qed.

(** ** The resolvers' defaults and the batches without lookups *)











(** *** A batch is its writes *)














(** ** The properties at the reference inputs *)


Lemma X11_witness :
  result (trim_method (usersQuery_fullName (str "Asha") JNull (str "Rao"))) empty_world
  = Ret (str "Asha  Rao") /\
  result (trim_method (usersQuery_fullName (str "Asha") JNull JNull)) empty_world
  = Ret (str "Asha") /\
  result (trim_method (usersQuery_fullName JNull JNull (str "Rao"))) empty_world
  = Ret (str "Rao") /\
  result (trim_method (usersQuery_fullName JNull JNull JNull)) empty_world
  = Ret (JStr []).
Proof.
  apply (X11_full_name_with_missing_parts (lit "Asha") (lit "Rao") JNull empty_world).
  - left. reflexivity.
  - vm_compute. reflexivity.
  - vm_compute. reflexivity.
  - vm_compute. reflexivity.
  - vm_compute. reflexivity.
Defined.

Lemma X13_witness :
  let w1 := snd (Course.migrateCourseTable online course_source reliable
                   assessment_destination) in
  let w2 := snd (Course.migrateCourseTable online course_source reliable w1) in
  rows_with_key w1 "course" "course_do_id" (str "do_1") = [course_row_of algebra_content] /\
  tables w2 = tables w1.
Proof.
  apply (X13_course_rerun_with_key reliable online (JObj [(lit "courseId", str "c1")])
           assessment_destination (Table None [])).
  - intros st vs. reflexivity.
  - vm_compute. reflexivity.
  - reflexivity.
  - vm_compute. reflexivity.
Defined.

Lemma X15_witness :
  unique_on "userId"
    (table_rows (snd (migrateUserProfileReports users_source reliable after_first_run))
       "UserProfileReport").
Proof.
  apply (proj1 (X15_upsert_runs_keep_keys_unique offline users_source reliable
                  after_first_run)).
  vm_compute. repeat constructor.
Defined.

Lemma X17_witness :
  exists w',
    Assessment.migrateAssessmentTrackingTable offline
      (source_of "SELECT * FROM public.assessment_tracking" [assessment_row_later "t1" "c1"])
      reliable after_first_assessment_run
    = (Ret tt, w') /\
    Forall2 (upserted "assessmentTrackingId" Assessment.assessment_tracking_columns
               assessment_tracking_kept
               (proposed_row Assessment.assessment_tracking_columns
                  (Assessment.assessment_values (assessment_row_later "t1" "c1")
                     (fetched_question_set offline
                        (field (assessment_row_later "t1" "c1") "courseId")))))
      (table_rows after_first_assessment_run "assessment_tracking")
      (table_rows w' "assessment_tracking").
Proof.
  apply (proj2 (X17_cohort_and_assessment_upsert_on_conflict offline reliable
                  after_first_assessment_run
                  (Table (Some "assessmentTrackingId"%string)
                     (table_rows after_first_assessment_run "assessment_tracking")))
           (assessment_row_later "t1" "c1")).
  - reflexivity.
  - vm_compute. reflexivity.
  - reflexivity.
  - vm_compute. repeat constructor.
  - vm_compute. reflexivity.
Defined.

Lemma X18_witness :
  let w1 := snd (AttendanceReport.migrateAttendanceReports attendance_source reliable
                   empty_world) in
  let w2 := snd (AttendanceReport.migrateAttendanceReports attendance_source reliable w1) in
  tables w2 = tables w1.
Proof.
  apply (X18_attendance_rerun_changes_nothing attendance_source reliable empty_world).
  vm_compute. repeat constructor.
Defined.

Lemma X19_witness :
  let w1 := snd (migrateUserProfileReports users_source reliable empty_world) in
  let w2 := snd (migrateUserProfileReports users_source reliable w1) in
  tables w2 = tables w1.
Proof.
  apply (X19_user_profile_rerun_changes_nothing users_source reliable empty_world).
  vm_compute. repeat constructor.
Defined.

Lemma X20_witness :
  let w1 := snd (CohortSummaryReport.migrateCohortSummaryReports cohort_source reliable
                   empty_world) in
  let w2 := snd (CohortSummaryReport.migrateCohortSummaryReports cohort_source reliable w1) in
  tables w2 = tables w1.
Proof.
  apply (X20_cohort_rerun_changes_nothing cohort_source reliable empty_world).
  vm_compute. repeat constructor.
Defined.

Lemma X21_witness :
  let w1 := snd (Assessment.migrateAssessments offline assessment_source reliable
                   assessment_destination) in
  let w2 := snd (Assessment.migrateAssessments offline assessment_source reliable w1) in
  tables w2 = tables w1.
Proof.
  apply (X21_assessment_rerun_changes_nothing offline assessment_source reliable
           assessment_destination).
  vm_compute. repeat constructor.
Defined.

Lemma X22_witness :
  let w1 := snd (Course.migrateUserCourseDataTable certificate_source reliable
                   assessment_destination) in
  let w2 := snd (Course.migrateUserCourseDataTable certificate_source reliable w1) in
  table_rows w1 "user_course_certificate"
  = [copied_row Course.user_course_certificate_columns (certificate_row "uc1" "u1" "c1");
     copied_row Course.user_course_certificate_columns (certificate_row "uc2" "u2" "c1")] /\
  tables w2 = tables w1.
Proof.
  apply (X22_certificate_copy_rerun certificate_source reliable assessment_destination
           (Table None [])).
  - intros st vs. reflexivity.
  - vm_compute. reflexivity.
  - reflexivity.
  - vm_compute. repeat constructor.
  - vm_compute. repeat constructor.
Defined.

Lemma X23_witness :
  let w1 := snd (Assessment.migrateScoreDetailsTable score_detail_source reliable
                   assessment_destination) in
  let w2 := snd (Assessment.migrateScoreDetailsTable score_detail_source reliable w1) in
  table_rows w1 "assessment_tracking_score_detail"
  = [copied_row Assessment.score_detail_columns (score_detail_row "7" "A");
     copied_row Assessment.score_detail_columns (score_detail_row "8" "B")] /\
  tables w2 = tables w1.
Proof.
  apply (X23_score_detail_copy_rerun score_detail_source reliable assessment_destination
           (Table None [])).
  - intros st vs. reflexivity.
  - vm_compute. reflexivity.
  - reflexivity.
  - vm_compute. repeat constructor.
  - vm_compute. repeat constructor.
Defined.

Lemma X24_witness :
  exists w1,
    tables w1 = tables assessment_destination /\
    Assessment.migrateAssessmentTrackingTable offline
      (source_of "SELECT * FROM public.assessment_tracking" [assessment_row "t1" "c1"])
      reliable assessment_destination
    = bind (dest_query reliable assessment_tracking_upsert
              (Assessment.assessment_values (assessment_row "t1" "c1") (JObj [])))
        (fun _ => ret tt) w1 /\
    skipn 13 (Assessment.assessment_values (assessment_row "t1" "c1") (JObj []))
    = repeat (PValue JNull) 13 ++ [PValue (str "assessment_tracking")].
Proof.
  apply (X24_assessment_without_enrichment offline reliable (assessment_row "t1" "c1")
           assessment_destination).
  right. eexists. reflexivity.
Defined.
